(** * TranslateAnyPDF client: the request helper, the job driver and the
      batch driver of [app.py] and [batch_translate_test.py], embedded
      as state-and-exception passing functions over an explicit world
      (scripted network, file system, event trace). *)

From Stdlib Require Import ZArith List String Ascii Bool Lia.
From stdpp Require Import base option gmap strings list.
Import ListNotations.
Local Open Scope string_scope.
Local Open Scope list_scope.
Local Open Scope Z_scope.
Set Warnings "-register-all".

(** ** Python values *)

(** What [response.json()] can yield.  Python's [None] is [JNull]; a JSON
    object is a [dict] with string keys.  Numbers are kept as integers:
    the client only ever tests a number for truthiness. *)
Inductive json : Type :=
| JNull
| JBool (b : bool)
| JNum (n : Z)
| JStr (s : string)
| JArr (l : list json)
| JObj (m : gmap string json).

(** The exceptions that occur in the two scripts. *)
Inductive PyExn : Type :=
| ExTimeout               (* requests.exceptions.Timeout *)
| ExConnectionError       (* requests.exceptions.ConnectionError *)
| ExHTTPError             (* requests.exceptions.HTTPError *)
| ExRequestException      (* any other requests.exceptions.RequestException *)
| ExAttributeError
| ExKeyError
| ExTypeError
| ExImportError (name module : string)
| ExOther (what : string). (* any other subclass of Exception *)

Inductive PyResult (A : Type) : Type :=
| Returned (a : A)
| Raised (e : PyExn).
Arguments Returned {A} a.
Arguments Raised {A} e.

(** [bool(v)] *)
Definition py_truthy (v : json) : bool :=
  match v with
  | JNull => false
  | JBool b => b
  | JNum n => negb (n =? 0)
  | JStr s => negb (String.eqb s EmptyString)
  | JArr l => match l with [] => false | _ :: _ => true end
  | JObj m => negb (bool_decide (m = ∅))
  end.

(** [v == "s"] for a string literal [s] *)
Definition py_eq_str (v : json) (s : string) : bool :=
  match v with
  | JStr t => String.eqb t s
  | _ => false
  end.

(** [v in [s1, ..., sn]] for string literals *)
Definition py_in_strs (v : json) (l : list string) : bool :=
  existsb (py_eq_str v) l.

(** [v.get(k, d)]: only a dict has [get] *)
Definition py_get_default (v : json) (k : string) (d : json) : PyResult json :=
  match v with
  | JObj m => Returned (default d (m !! k))
  | _ => Raised ExAttributeError
  end.

(** [v.get(k)] *)
Definition py_get (v : json) (k : string) : PyResult json :=
  py_get_default v k JNull.

(** [v[k]] for a string key [k] *)
Definition py_getitem (v : json) (k : string) : PyResult json :=
  match v with
  | JObj m => match m !! k with
              | Some x => Returned x
              | None => Raised ExKeyError
              end
  | JNull | JBool _ | JNum _ => Raised ExTypeError
  | JStr _ | JArr _ => Raised ExTypeError
  end.

(** [s[:n]] *)
Definition py_prefix (n : nat) (s : string) : string := String.substring 0 n s.

(** ** Paths *)

(** A [pathlib.Path] (of the POSIX flavour) as its directory components
    and final component.  The root (["/"], or ["//"]) is the first
    component of an absolute path, as in [Path.parts]; the final
    component is empty for the path without components and for a
    root. *)
Record Path : Type := mkPath { path_parent : list string; path_name : string }.

Global Instance Path_eq_dec : EqDecision Path.
Proof. solve_decision. Defined.

Global Instance Path_countable : Countable Path.
Proof.
  refine (inj_countable' (fun p => (path_parent p, path_name p))
                         (fun q => mkPath (fst q) (snd q)) _).
  intros []; reflexivity.
Defined.

(** [p.parts] *)
Definition path_parts (p : Path) : list string :=
  path_parent p ++ (if String.eqb (path_name p) EmptyString then [] else [path_name p]).

(** [s.split('/')] *)
Fixpoint split_slash (s : string) : list string :=
  match s with
  | EmptyString => [EmptyString]
  | String c rest =>
      if Ascii.eqb c "/"%char then EmptyString :: split_slash rest
      else match split_slash rest with
           | x :: l => String c x :: l
           | [] => [String c EmptyString]
           end
  end.

(** The components that pathlib keeps of a string: what stands between
    its slashes, but for the empty strings and the dots. *)
Definition name_parts (name : string) : list string :=
  List.filter (fun x => negb (String.eqb x EmptyString) && negb (String.eqb x "."))
              (split_slash name).

(** The root of a string that starts with a slash: ["//"] for exactly
    two slashes, ["/"] for one or for more. *)
Definition name_root (name : string) : option string :=
  match name with
  | String "/" (String "/" (String "/" _)) => Some "/"
  | String "/" (String "/" _) => Some "//"
  | String "/" _ => Some "/"
  | _ => None
  end.

(** [d / name] for a string [name]: the components of [name] are added
    to those of [d], or replace them when [name] is absolute. *)
Definition path_join (d : Path) (name : string) : Path :=
  match name_root name, name_parts name with
  | None, [] => d
  | None, (_ :: _) as components =>
      mkPath (path_parts d ++ List.removelast components)
             (List.last components EmptyString)
  | Some root, [] => mkPath [root] EmptyString
  | Some root, (_ :: _) as components =>
      mkPath (root :: List.removelast components) (List.last components EmptyString)
  end.

(** Position of the last ['.'] of a name, as [name.rfind('.')] ([None] for -1). *)
Fixpoint rfind_dot (s : string) : option nat :=
  match s with
  | EmptyString => None
  | String c rest =>
      match rfind_dot rest with
      | Some i => Some (S i)
      | None => if Ascii.eqb c "."%char then Some 0%nat else None
      end
  end.

(** The split point of [stem] and [suffix]: the last dot, when it is
    neither the first nor the last character of the name. *)
Definition suffix_index (name : string) : option nat :=
  match rfind_dot name with
  | Some i => if ((0 <? i)%nat && (i <? String.length name - 1)%nat)%bool
              then Some i else None
  | None => None
  end.

Definition path_suffix (p : Path) : string :=
  match suffix_index (path_name p) with
  | Some i => String.substring i (String.length (path_name p) - i) (path_name p)
  | None => EmptyString
  end.

Definition path_stem (p : Path) : string :=
  match suffix_index (path_name p) with
  | Some i => String.substring 0 i (path_name p)
  | None => path_name p
  end.

(** ** Requests, responses and the world *)

(** [app.py], Configuration *)
Definition RAPIDAPI_HOST : string := "translateanypdf.p.rapidapi.com".
Definition BASE_URL : string := "https://" +:+ RAPIDAPI_HOST.

(** The endpoints are f-strings; each is kept as its template and the
    value interpolated into it. *)
Inductive Endpoint : Type :=
| EpTranslate (tier : string)   (* f"/translate/{tier}" *)
| EpStatus (job_id : json)      (* f"/status/{job_id}" *)
| EpAnalyze.                    (* "/analyze-pdf" *)

Inductive Url : Type :=
| UrlApi (base : string) (e : Endpoint)   (* f"{BASE_URL}{endpoint}" *)
| UrlGiven (v : json).                    (* a URL handed over by the service *)

(** A request as [requests] is asked to make it.  A file part is
    recorded by its field name and its file name.  The bytes sent for
    it are not recorded: [requests] reads them from the open file
    object when it prepares the request, so that a second request made
    with the same object (the retry of line 68) sends what the first
    has left of the file. *)
Record Request : Type := mkRequest {
  req_method : string;
  req_url : Url;
  req_headers : list (string * string);
  req_files : option (list (string * string));   (* field name, file name *)
  req_data : option (list (string * string));
  req_params : option (list (string * string));
  req_timeout : Z * Z                            (* connect, read *)
}.

Record Response : Type := mkResponse {
  status_code : Z;
  resp_json : option json;      (* [None]: [response.json()] raises ValueError *)
  resp_text : string;
  resp_content : list Byte.byte
}.

Inductive NetError : Type :=
| NetTimeout | NetConnectionError | NetOtherError.

Inductive NetOutcome : Type :=
| NetResponse (r : Response)
| NetFails (e : NetError).

Definition exn_of_net (e : NetError) : PyExn :=
  match e with
  | NetTimeout => ExTimeout
  | NetConnectionError => ExConnectionError
  | NetOtherError => ExRequestException
  end.

Inductive Level : Type := INFO | WARNING | ERROR.

(** One constructor per logging call of the two scripts, with the values
    its f-string interpolates. *)
Inductive LogMsg : Type :=
(* make_api_request *)
| MsgSending (method : string) (url : Url) (attempt max_attempts : Z)
| MsgFormData (data : list (string * string))
| MsgFiles (files : list (string * string))
| MsgUrlParameters (params : list (string * string))
| MsgResponseStatusCode (c : Z)
| MsgResponseJson (v : json)
| MsgNotJson (text : string)
| MsgUnauthorized
| MsgForbidden (message : json)
| MsgTooManyRequests (message : json)
| MsgClientError (c : Z) (message : json)
| MsgTimedOut
| MsgRetrying (seconds : Z)
| MsgConnectionError
| MsgHttpServerError
| MsgUnexpectedRequestError
(* translate_pdf *)
| MsgStarting
| MsgPdfInfo (name target_lang tier : string)
| MsgInputNotFound (p : Path)
| MsgStep1
| MsgJobInitiated (job_id status : json)
| MsgFailedInitiate (status_code : option Z) (response : json)
| MsgStep2 (job_id : json)
| MsgPollingAttempt (n max_polls : Z)
| MsgPollingFailed
| MsgCurrentStatus (job_id status : json)
| MsgNoDownloadUrl
| MsgCompleted (job_id download_url : json)
| MsgJobEnded (job_id status error_msg : json)
| MsgWaiting (seconds : Z)
| MsgPollingFinished (max_polls : Z) (last_status : json)
| MsgStep3 (download_url : json)
| MsgDownloaded (output_path : Path)
| MsgDownloadTimedOut (download_url : json)
| MsgDownloadFailed (download_url : json)
| MsgNoUrlAvailable
(* run_batch_translation_test *)
| MsgBatchStarting
| MsgBatchInputPdf (p : Path)
| MsgBatchTier (tier : string)
| MsgBatchOutputDir (p : Path)
| MsgBatchCsv (p : Path)
| MsgApiKeyRequired
| MsgBatchInputNotFound (p : Path)
| MsgCsvNotFound (p : Path)
| MsgCsvNoHeader
| MsgFoundLanguages (n : nat) (langs : list string)
| MsgCsvFailed
| MsgNoLanguages
| MsgTestingLanguage (lang : string)
| MsgNotSupported (lang : string)
| MsgLangSuccess (lang : string) (out : Path)
| MsgLangFailed (lang : string)
| MsgLangUnexpected (lang : string) (e : PyExn)
| MsgFinishedLanguage (lang : string)
| MsgBatchFinished
(* analyze_pdf_main *)
| MsgAnalyzing (name : string)
| MsgAnalysisSuccessful
| MsgAnalysisField (label : string) (value : json)
| MsgAnalysisApiError (error_code message : json)
| MsgAnalysisFailed (status_code : option Z) (response : json).

Inductive Event : Type :=
| EvLog (lvl : Level) (msg : LogMsg)
| EvSleep (seconds : Z)
| EvHttp (req : Request).

(** The world a run lives in.  [net] scripts the network: the [n]-th HTTP
    exchange of the run has outcome [net n]; [calls] counts the exchanges
    made so far; [fs] holds the regular files; [trace] records, oldest
    first, what the program did. *)
Record World : Type := mkWorld {
  net : nat -> NetOutcome;
  calls : nat;
  fs : gmap Path (list Byte.byte);
  trace : list Event
}.

(** [w] after [n] more exchanges and the events [evs]. *)
Definition extend (w : World) (n : nat) (evs : list Event) : World :=
  mkWorld (net w) (n + calls w) (fs w) (trace w ++ evs).

Definition emit (e : Event) (w : World) : World := extend w 0 [e].

(** ** A state-and-exception monad *)

Definition M (A : Type) : Type := World -> PyResult A * World.

Definition ret {A} (a : A) : M A := fun w => (Returned a, w).
Definition raise {A} (e : PyExn) : M A := fun w => (Raised e, w).
Definition bind {A B} (m : M A) (k : A -> M B) : M B :=
  fun w => match m w with
           | (Returned a, w') => k a w'
           | (Raised e, w') => (Raised e, w')
           end.
Definition lift {A} (r : PyResult A) : M A := fun w => (r, w).

Global Instance M_ret : MRet M := @ret.
Global Instance M_bind : MBind M := fun A B k m => bind m k.

Definition log (lvl : Level) (msg : LogMsg) : M unit :=
  fun w => (Returned tt, emit (EvLog lvl msg) w).

(** [time.sleep(seconds)], for [seconds >= 0].  On a negative argument
    Python raises ValueError; the two scripts pass [5], and [5 * attempt]
    for an [attempt] counted from 1. *)
Definition sleep (seconds : Z) : M unit :=
  fun w => (Returned tt, emit (EvSleep seconds) w).

(** [requests.request(...)] / [requests.get(...)]: one exchange with the
    network. *)
Definition http (req : Request) : M Response :=
  fun w =>
    let w' := extend w 1 [EvHttp req] in
    match net w (calls w) with
    | NetResponse r => (Returned r, w')
    | NetFails e => (Raised (exn_of_net e), w')
    end.

(** [p.exists()] *)
Definition path_exists (p : Path) : M bool :=
  fun w => (Returned (bool_decide (is_Some (fs w !! p))), w).

(** [p.parent.mkdir(parents=True, exist_ok=True)], then
    [open(p, 'wb')] and [write(content)].  Directories are not part of
    [fs], and these calls are taken to succeed. *)
Definition write_file (p : Path) (content : list Byte.byte) : M unit :=
  fun w => (Returned tt, mkWorld (net w) (calls w) (<[p := content]> (fs w)) (trace w)).

(** [response.raise_for_status()] *)
Definition raise_for_status (r : Response) : M unit :=
  if (400 <=? status_code r) && (status_code r <? 600)
  then raise ExHTTPError
  else ret tt.

(** [try: body except ...: handler]; a handler of [None] lets the
    exception propagate. *)
Definition try_except {A} (body : M A) (handler : PyExn -> option (M A)) : M A :=
  fun w =>
    match body w with
    | (Returned a, w') => (Returned a, w')
    | (Raised e, w') =>
        match handler e with
        | Some h => h w'
        | None => (Raised e, w')
        end
    end.

(** [s.upper()] on ASCII letters *)
Definition upper_ascii (c : ascii) : ascii :=
  let n := nat_of_ascii c in
  if ((97 <=? n)%nat && (n <=? 122)%nat)%bool then ascii_of_nat (n - 32) else c.

Fixpoint py_upper (s : string) : string :=
  match s with
  | EmptyString => EmptyString
  | String c rest => String (upper_ascii c) (py_upper rest)
  end.

(** Truthiness of an optional dict argument ([None] or a dict). *)
Definition arg_truthy {A} (d : option (list A)) : bool :=
  match d with
  | Some (_ :: _) => true
  | _ => false
  end.

Definition arg_items {A} (d : option (list A)) : list A := default [] d.

(** ** [app.py]: [make_api_request] *)

Module App.

(** [response_json.get('message') if response_json else response.text[:100]] *)
Definition error_message (response_json : json) (response : Response) : M json :=
  if py_truthy response_json
  then lift (py_get response_json "message")
  else mret (JStr (py_prefix 100 (resp_text response))).

(** Lines 36-61, the body of the [try] block: one exchange and the
    classification of its response. *)
Definition attempt_request (req : Request) : M (json * option Z) :=
  response ← http req;
  log INFO (MsgResponseStatusCode (status_code response));;
  response_json ←
    match resp_json response with
    | Some v => log INFO (MsgResponseJson v);; mret v
    | None => log WARNING (MsgNotJson (py_prefix 200 (resp_text response)));; mret JNull
    end;
  if status_code response =? 401 then
    log ERROR MsgUnauthorized;;
    mret (JNull, Some (status_code response))
  else if status_code response =? 403 then
    message ← error_message response_json response;
    log ERROR (MsgForbidden message);;
    mret (response_json, Some (status_code response))
  else if status_code response =? 429 then
    message ← error_message response_json response;
    log ERROR (MsgTooManyRequests message);;
    mret (response_json, Some (status_code response))
  else if (400 <=? status_code response) && (status_code response <? 500)
          && negb (existsb (Z.eqb (status_code response)) [401; 403; 429]) then
    message ← error_message response_json response;
    log ERROR (MsgClientError (status_code response) message);;
    mret (response_json, Some (status_code response))
  else
    raise_for_status response;;
    mret (response_json, Some (status_code response)).

(** Lines 22-32: the request sent and the logging before the [try]. *)
Definition build_request (api_key method : string) (endpoint : Endpoint)
    (files data params : option (list (string * string))) : Request :=
  mkRequest method (UrlApi BASE_URL endpoint)
            [("X-RapidAPI-Key", api_key); ("X-RapidAPI-Host", RAPIDAPI_HOST)]
            files data params (10, 60).

Definition log_request (method : string) (endpoint : Endpoint)
    (files data params : option (list (string * string)))
    (attempt max_attempts : Z) : M unit :=
  log INFO (MsgSending (py_upper method) (UrlApi BASE_URL endpoint) attempt max_attempts);;
  (if arg_truthy data then log INFO (MsgFormData (arg_items data)) else mret tt);;
  (if arg_truthy files then log INFO (MsgFiles (arg_items files)) else mret tt);;
  (if arg_truthy params then log INFO (MsgUrlParameters (arg_items params)) else mret tt).

(** Lines 63-75: the [except] clauses, and the [return None, None] they
    fall through to; [retry] is the recursive call of line 68. *)
Definition on_exception (attempt max_attempts : Z) (retry : M (json * option Z))
    (e : PyExn) : option (M (json * option Z)) :=
  match e with
  | ExTimeout => Some (
      log ERROR MsgTimedOut;;
      if attempt <? max_attempts then
        log INFO (MsgRetrying (5 * attempt));;
        sleep (5 * attempt);;
        retry
      else mret (JNull, None))
  | ExConnectionError => Some (log ERROR MsgConnectionError;; mret (JNull, None))
  | ExHTTPError => Some (log ERROR MsgHttpServerError;; mret (JNull, None))
  | ExRequestException => Some (log ERROR MsgUnexpectedRequestError;; mret (JNull, None))
  | _ => None
  end.

(** The recursion of [make_api_request] on [attempt + 1], by structural
    recursion on the number of attempts that remain below [max_attempts]. *)
Fixpoint make_api_request_rec (remaining : nat) (api_key method : string)
    (endpoint : Endpoint) (files data params : option (list (string * string)))
    (attempt max_attempts : Z) : M (json * option Z) :=
  log_request method endpoint files data params attempt max_attempts;;
  try_except (attempt_request (build_request api_key method endpoint files data params))
    (on_exception attempt max_attempts
       match remaining with
       | S remaining' =>
           make_api_request_rec remaining' api_key method endpoint
                                files data params (attempt + 1) max_attempts
       | O => mret (JNull, None)
       end).

Definition make_api_request (api_key method : string) (endpoint : Endpoint)
    (files data params : option (list (string * string)))
    (attempt max_attempts : Z) : M (json * option Z) :=
  make_api_request_rec (Z.to_nat (max_attempts - attempt)) api_key method endpoint
                       files data params attempt max_attempts.

(** The defaults [attempt=1, max_attempts=3] of the signature. *)
Definition default_attempt : Z := 1.
Definition default_max_attempts : Z := 3.

(** ** [app.py]: [translate_pdf] *)

Definition max_polls : Z := 60.
Definition poll_interval_seconds : Z := 5.

(** The statuses of line 128 after which polling stops with a failure. *)
Definition terminal_failures : list string :=
  ["error_tier_limit_exceeded"; "error_job_not_found";
   "error_missing_estimation_data"; "failed"; "enqueue_failed"].

(** [range(n)] *)
Definition py_range (n : Z) : list Z := map Z.of_nat (seq 0 (Z.to_nat n)).

(** The condition of line 97, with the short-circuit of [and]. *)
Definition submission_accepted (status_code : option Z) (init_response : json) : M bool :=
  if bool_decide (status_code = Some 202) || bool_decide (status_code = Some 200) then
    if py_truthy init_response then
      job_id ← lift (py_get init_response "job_id");
      if py_truthy job_id then
        status ← lift (py_get init_response "status");
        mret (py_truthy status)
      else mret false
    else mret false
  else mret false.

(** How the [for] loop of line 110 is left: by [break] with the download
    URL, or by a [return] (also from its [else] clause). *)
Inductive LoopExit : Type :=
| LoopBreak (download_url : json)
| LoopReturn (b : bool).

(** Lines 110-139, over the indices that remain of [range(max_polls)];
    [current_api_status] is the variable of that name, read by the
    [else] clause of the loop. *)
Fixpoint poll_loop (api_key : string) (job_id : json) (indices : list Z)
    (current_api_status : json) : M LoopExit :=
  match indices with
  | [] =>
      log WARNING (MsgPollingFinished max_polls current_api_status);;
      mret (LoopReturn false)
  | i :: rest =>
      log INFO (MsgPollingAttempt (i + 1) max_polls);;
      r ← make_api_request api_key "GET" (EpStatus job_id) None None None
                           default_attempt default_max_attempts;
      let status_response := fst r in
      if negb (py_truthy status_response) then
        log ERROR MsgPollingFailed;;
        mret (LoopReturn false)
      else
        current_api_status ← lift (py_get status_response "status");
        log INFO (MsgCurrentStatus job_id current_api_status);;
        if py_eq_str current_api_status "completed" then
          download_url ← lift (py_get status_response "download_url");
          if negb (py_truthy download_url) then
            log ERROR MsgNoDownloadUrl;;
            mret (LoopReturn false)
          else
            log INFO (MsgCompleted job_id download_url);;
            mret (LoopBreak download_url)
        else if py_in_strs current_api_status terminal_failures then
          error_msg ← lift (py_get_default status_response "error_message"
                              (JStr "No specific error message provided by API."));
          log ERROR (MsgJobEnded job_id current_api_status error_msg);;
          mret (LoopReturn false)
        else
          (if i <? max_polls - 1 then
             log INFO (MsgWaiting poll_interval_seconds);;
             sleep poll_interval_seconds
           else mret tt);;
          poll_loop api_key job_id rest current_api_status
  end.

Definition download_request (download_url : json) : Request :=
  mkRequest "GET" (UrlGiven download_url) [] None None None (10, 120).

(** Lines 142-161 *)
Definition download (download_url : json) (output_path : Path) : M bool :=
  if py_truthy download_url then
    log INFO (MsgStep3 download_url);;
    try_except
      (pdf_response ← http (download_request download_url);
       raise_for_status pdf_response;;
       write_file output_path (resp_content pdf_response);;
       log INFO (MsgDownloaded output_path);;
       (mret true : M bool))
      (fun e =>
         match e with
         | ExTimeout =>
             Some (log ERROR (MsgDownloadTimedOut download_url);; (mret false : M bool))
         | ExConnectionError | ExHTTPError | ExRequestException =>
             Some (log ERROR (MsgDownloadFailed download_url);; (mret false : M bool))
         | _ => None
         end)
  else
    log ERROR MsgNoUrlAvailable;;
    mret false.

(** Lines 110-161: what [translate_pdf] does from a given iteration of
    the polling loop on. *)
Definition finish_job (api_key : string) (job_id : json) (output_path : Path)
    (indices : list Z) (current_api_status : json) : M bool :=
  exit ← poll_loop api_key job_id indices current_api_status;
  match exit with
  | LoopBreak download_url => download download_url output_path
  | LoopReturn b => mret b
  end.

(** Lines 91-95 *)
Definition submit (api_key : string) (pdf_path : Path) (target_lang tier : string)
    : M (json * option Z) :=
  log INFO MsgStep1;;
  make_api_request api_key "POST" (EpTranslate tier)
                   (Some [("file", path_name pdf_path)])
                   (Some [("target_lang", target_lang)]) None
                   default_attempt default_max_attempts.

Definition translate_pdf (api_key : string) (pdf_path : Path)
    (target_lang tier : string) (output_path : Path) : M bool :=
  log INFO MsgStarting;;
  log INFO (MsgPdfInfo (path_name pdf_path) target_lang tier);;
  found ← path_exists pdf_path;
  if negb found then
    log ERROR (MsgInputNotFound pdf_path);;
    mret false
  else
    r ← submit api_key pdf_path target_lang tier;
    let init_response := fst r in
    let status_code := snd r in
    accepted ← submission_accepted status_code init_response;
    if (accepted : bool) then
      job_id ← lift (py_getitem init_response "job_id");
      status ← lift (py_get init_response "status");
      log INFO (MsgJobInitiated job_id status);;
      log INFO (MsgStep2 job_id);;
      finish_job api_key job_id output_path (py_range max_polls) JNull
    else
      log ERROR (MsgFailedInitiate status_code
                   (if py_truthy init_response then init_response
                    else JStr "No response data"));;
      mret false.

End App.

(** ** [batch_translate_test.py] *)

Module Batch.

(** What a module-level name can be bound to. *)
Inductive PyObject : Type :=
| ObjModule (name : string)
| ObjClass (name : string)
| ObjLogger
| ObjStr (s : string)
| ObjFunction (name : string)
| ObjStrList (l : list string).

(** The namespace of module [app] once [app.py] has been executed: its
    imports (lines 2-7), [log] (11), the two configuration strings
    (16-17) and its four functions (20, 79, 163, 186).  Under
    [import], [__name__] is not ["__main__"], so line 222 adds nothing. *)
Definition app_globals : gmap string PyObject :=
  list_to_map
    [("os", ObjModule "os"); ("time", ObjModule "time");
     ("requests", ObjModule "requests"); ("argparse", ObjModule "argparse");
     ("logging", ObjModule "logging"); ("Path", ObjClass "Path");
     ("log", ObjLogger);
     ("RAPIDAPI_HOST", ObjStr RAPIDAPI_HOST); ("BASE_URL", ObjStr BASE_URL);
     ("make_api_request", ObjFunction "make_api_request");
     ("translate_pdf", ObjFunction "translate_pdf");
     ("analyze_pdf_main", ObjFunction "analyze_pdf_main");
     ("main_cli", ObjFunction "main_cli")].

(** One name of [from module import name, ...] *)
Definition from_import (globals : gmap string PyObject) (module name : string)
    : M PyObject :=
  match globals !! name with
  | Some o => mret o
  | None => raise (ExImportError name module)
  end.

(** [s in container] *)
Definition py_contains (container : PyObject) (s : string) : PyResult bool :=
  match container with
  | ObjStrList l => Returned (existsb (String.eqb s) l)
  | ObjStr t => Returned (match String.index 0 s t with Some _ => true | None => false end)
  | _ => Raised ExTypeError
  end.

(** Truthiness of [api_key], a string or [None]. *)
Definition key_truthy (k : option string) : bool :=
  match k with
  | Some s => negb (String.eqb s EmptyString)
  | None => false
  end.

Section BatchDriver.

(** [csv.DictReader] over the bytes of a file: the field names ([None]
    for an empty file) and the rows, or the exception that reading or
    decoding raises.  Rows are taken to have a cell for every field. *)
Variable csv_dict_reader :
  list Byte.byte -> PyResult (option (list string) * list (gmap string string)).

(** The binding of the global [SUPPORTED_TARGET_LANGUAGES] that line 60
    reads. *)
Variable SUPPORTED_TARGET_LANGUAGES : PyObject.

(** Lines 44-45: [languages_to_test.append(row['language_code'])] for
    each row. *)
Fixpoint collect_codes (rows : list (gmap string string)) : PyResult (list string) :=
  match rows with
  | [] => Returned []
  | row :: rest =>
      match row !! "language_code" with
      | None => Raised ExKeyError
      | Some code =>
          match collect_codes rest with
          | Returned l => Returned (code :: l)
          | Raised e => Raised e
          end
      end
  end.

(** [open(p, 'r', ...)] and the reader over it *)
Definition open_csv (p : Path)
    : M (option (list string) * list (gmap string string)) :=
  fun w =>
    match fs w !! p with
    | Some content => (csv_dict_reader content, w)
    | None => (Raised (ExOther "FileNotFoundError"), w)
    end.

(** Lines 38-46, the body of the [try] block; [None] stands for the
    [return] of line 43. *)
Definition read_languages (languages_csv_path : Path) : M (option (list string)) :=
  reader ← open_csv languages_csv_path;
  match fst reader with
  | None => raise ExTypeError        (* ['language_code' not in None] *)
  | Some fieldnames =>
      if negb (existsb (String.eqb "language_code") fieldnames) then
        log ERROR MsgCsvNoHeader;;
        mret None
      else
        languages_to_test ← lift (collect_codes (snd reader));
        log INFO (MsgFoundLanguages (length languages_to_test) languages_to_test);;
        mret (Some languages_to_test)
  end.

(** Lines 55-82, the [for] loop over [languages_to_test]. *)
Fixpoint language_loop (api_key : string) (input_pdf : Path) (tier : string)
    (output_dir_base : Path) (languages_to_test : list string) : M unit :=
  match languages_to_test with
  | [] => mret tt
  | lang_code :: rest =>
      log INFO (MsgTestingLanguage lang_code);;
      known ← lift (py_contains SUPPORTED_TARGET_LANGUAGES lang_code);
      (if negb known then log WARNING (MsgNotSupported lang_code) else mret tt);;
      let lang_output_dir := output_dir_base in
      let output_pdf_path :=
        path_join lang_output_dir
          ("translated_" +:+ path_stem input_pdf +:+ "_" +:+ lang_code
                          +:+ path_suffix input_pdf) in
      try_except
        (success ← App.translate_pdf api_key input_pdf lang_code tier output_pdf_path;
         if (success : bool) then log INFO (MsgLangSuccess lang_code output_pdf_path)
         else log ERROR (MsgLangFailed lang_code))
        (fun e => Some (log ERROR (MsgLangUnexpected lang_code e)));;
      log INFO (MsgFinishedLanguage lang_code);;
      language_loop api_key input_pdf tier output_dir_base rest
  end.

Definition run_batch_translation_test (api_key : option string) (input_pdf : Path)
    (tier : string) (output_dir_base languages_csv_path : Path) : M unit :=
  log INFO MsgBatchStarting;;
  log INFO (MsgBatchInputPdf input_pdf);;
  log INFO (MsgBatchTier tier);;
  log INFO (MsgBatchOutputDir output_dir_base);;
  log INFO (MsgBatchCsv languages_csv_path);;
  if negb (key_truthy api_key) then log ERROR MsgApiKeyRequired
  else
    pdf_found ← path_exists input_pdf;
    if negb pdf_found then log ERROR (MsgBatchInputNotFound input_pdf)
    else
      csv_found ← path_exists languages_csv_path;
      if negb csv_found then log ERROR (MsgCsvNotFound languages_csv_path)
      else
        read ← try_except (read_languages languages_csv_path)
                 (fun e => Some (log ERROR MsgCsvFailed;; mret None));
        match read with
        | None => mret tt
        | Some languages_to_test =>
            match languages_to_test with
            | [] => log INFO MsgNoLanguages
            | _ :: _ =>
                language_loop (default EmptyString api_key) input_pdf tier output_dir_base
                              languages_to_test;;
                log INFO MsgBatchFinished
            end
        end.

End BatchDriver.

(** The parsed command line of lines 88-95. *)
Record Args : Type := mkArgs {
  arg_api_key : option string;
  arg_input_pdf : Path;
  arg_tier : string;
  arg_output_dir : Path;
  arg_languages_csv : Path
}.

(** Running the script: line 7 first, then, as [__main__], lines 87-103. *)
Definition main
    (csv_dict_reader :
       list Byte.byte -> PyResult (option (list string) * list (gmap string string)))
    (args : Args) : M unit :=
  _ ← from_import app_globals "app" "translate_pdf";
  supported ← from_import app_globals "app" "SUPPORTED_TARGET_LANGUAGES";
  run_batch_translation_test csv_dict_reader supported
    (arg_api_key args) (arg_input_pdf args) (arg_tier args)
    (arg_output_dir args) (arg_languages_csv args).

End Batch.

(** ** [app.py]: [analyze_pdf_main] and [main_cli] *)

Module Cli.
Import App.

(** [v is True] and [v is False] *)
Definition py_is_true (v : json) : bool :=
  match v with JBool true => true | _ => false end.
Definition py_is_false (v : json) : bool :=
  match v with JBool false => true | _ => false end.

(** [v.items()]: only a dict has it.  The pairs come in the order of
    the map, not in the insertion order that a Python dict keeps and
    that the map of a JSON object does not record. *)
Definition py_items (v : json) : PyResult (list (string * json)) :=
  match v with
  | JObj m => Returned (map_to_list m)
  | _ => Raised ExAttributeError
  end.

Definition lower_ascii (c : ascii) : ascii :=
  let n := nat_of_ascii c in
  if ((65 <=? n)%nat && (n <=? 90)%nat)%bool then ascii_of_nat (n + 32) else c.

Fixpoint py_lower (s : string) : string :=
  match s with
  | EmptyString => EmptyString
  | String c rest => String (lower_ascii c) (py_lower rest)
  end.

(** [s.capitalize()] on ASCII letters *)
Definition py_capitalize (s : string) : string :=
  match s with
  | EmptyString => EmptyString
  | String c rest => String (upper_ascii c) (py_lower rest)
  end.

(** [s.replace('_', ' ')] *)
Fixpoint replace_underscores (s : string) : string :=
  match s with
  | EmptyString => EmptyString
  | String c rest =>
      String (if Ascii.eqb c "_"%char then " "%char else c) (replace_underscores rest)
  end.

(** [for x in l: body(x)] *)
Fixpoint for_each {A} (l : list A) (body : A -> M unit) : M unit :=
  match l with
  | [] => mret tt
  | x :: rest => body x;; for_each rest body
  end.

(** Truthiness of a status code, an integer or [None]. *)
Definition status_truthy (status_code : option Z) : bool :=
  match status_code with
  | Some c => negb (c =? 0)
  | None => false
  end.

(** Line 174: [status_code == 200 and response and response.get('success') is True] *)
Definition analysis_succeeded (status_code : option Z) (response : json) : M bool :=
  if bool_decide (status_code = Some 200) then
    if py_truthy response then
      success ← lift (py_get response "success");
      mret (py_is_true success)
    else mret false
  else mret false.

(** Line 179: [response and response.get('success') is False] *)
Definition analysis_refused (response : json) : M bool :=
  if py_truthy response then
    success ← lift (py_get response "success");
    mret (py_is_false success)
  else mret false.

(** Lines 163-183; the function returns [None] on every path. *)
Definition analyze_pdf_main (api_key : string) (pdf_path : Path) : M unit :=
  log INFO (MsgAnalyzing (path_name pdf_path));;
  found ← path_exists pdf_path;
  if negb found then
    log ERROR (MsgInputNotFound pdf_path)
  else
    r ← make_api_request api_key "POST" EpAnalyze
                         (Some [("file", path_name pdf_path)]) None None
                         default_attempt default_max_attempts;
    let response := fst r in
    let status_code := snd r in
    succeeded ← analysis_succeeded status_code response;
    if (succeeded : bool) then
      log INFO MsgAnalysisSuccessful;;
      items ← lift (py_items response);
      for_each items
        (fun item =>
           if negb (String.eqb (fst item) "success") then
             log INFO (MsgAnalysisField
                         (py_capitalize (replace_underscores (fst item))) (snd item))
           else mret tt)
    else
      refused ← analysis_refused response;
      if (refused : bool) then
        error_code ← lift (py_get response "error_code");
        message ← lift (py_get response "message");
        log ERROR (MsgAnalysisApiError error_code message)
      else if status_truthy status_code then
        log ERROR (MsgAnalysisFailed status_code
                     (if py_truthy response then response
                      else JStr "No response data"))
      else mret tt.

(** The command line as [argparse] hands it over (lines 187-203). *)
Inductive Action : Type :=
| Translate (pdf_file : Path) (target_lang tier : string) (output_file : option Path)
| Analyze (pdf_file : Path).

Record Args : Type := mkArgs {
  arg_api_key : option string;   (* [--api_key], or RAPIDAPI_KEY, or [None] *)
  arg_action : Action
}.

Section MainCli.

(** [Path.cwd()] and [Path.resolve()], which the file system decides. *)
Variable cwd : Path.
Variable resolve : Path -> Path.

(** [d.mkdir(exist_ok=True)]: a regular file of that name is in the way. *)
Definition mkdir_exist_ok (d : Path) : M unit :=
  fun w =>
    match fs w !! d with
    | Some _ => (Raised (ExOther "FileExistsError"), w)
    | None => (Returned tt, w)
    end.

(** Lines 205-220 *)
Definition main_cli (args : Args) : M unit :=
  match arg_api_key args with
  | None => log ERROR MsgApiKeyRequired
  | Some api_key =>
      if String.eqb api_key EmptyString then log ERROR MsgApiKeyRequired
      else
        match arg_action args with
        | Translate pdf_file target_lang tier output_file =>
            output_file ←
              match output_file with
              | Some p => mret p
              | None =>
                  let default_output_dir := path_join cwd "translated_pdfs" in
                  mkdir_exist_ok default_output_dir;;
                  mret (path_join default_output_dir
                          ("translated_" +:+ target_lang +:+ "_" +:+ path_name pdf_file))
              end;
            translate_pdf api_key (resolve pdf_file) target_lang tier
                          (resolve output_file);;
            mret tt
        | Analyze pdf_file => analyze_pdf_main api_key (resolve pdf_file)
        end
  end.

End MainCli.

End Cli.

(** ** Observations: what a run leaves in the world *)

Module Obs.
Import App Batch.

(** The log lines of [make_api_request] before its [try]. *)
Definition request_events (method : string) (endpoint : Endpoint)
    (files data params : option (list (string * string)))
    (attempt max_attempts : Z) : list Event :=
  [EvLog INFO (MsgSending (py_upper method) (UrlApi BASE_URL endpoint) attempt max_attempts)]
  ++ (if arg_truthy data then [EvLog INFO (MsgFormData (arg_items data))] else [])
  ++ (if arg_truthy files then [EvLog INFO (MsgFiles (arg_items files))] else [])
  ++ (if arg_truthy params then [EvLog INFO (MsgUrlParameters (arg_items params))] else []).

(** The body of a response as [make_api_request] holds it in
    [response_json]. *)
Definition parsed_body (r : Response) : json := default JNull (resp_json r).

(** The events of lines 36-44 for a response. *)
Definition response_events (req : Request) (r : Response) : list Event :=
  [EvHttp req; EvLog INFO (MsgResponseStatusCode (status_code r));
   match resp_json r with
   | Some v => EvLog INFO (MsgResponseJson v)
   | None => EvLog WARNING (MsgNotJson (py_prefix 200 (resp_text r)))
   end].

(** A body on which [.get] works whenever it is reached: a dict, or
    anything falsy. *)
Definition dict_or_falsy (v : json) : bool :=
  match v with
  | JObj _ => true
  | _ => negb (py_truthy v)
  end.

(** The value of
    [response_json.get('message') if response_json else response.text[:100]]. *)
Definition message_of (r : Response) : json :=
  if py_truthy (parsed_body r) then
    match parsed_body r with
    | JObj m => default JNull (m !! "message")
    | _ => JNull
    end
  else JStr (py_prefix 100 (resp_text r)).

(** The three specific codes of lines 47-55 and the other client errors
    of line 56. *)
Definition client_error (c : Z) : bool := (400 <=? c) && (c <? 500).
Definition server_error (c : Z) : bool := (500 <=? c) && (c <? 600).

(** What [make_api_request] returns for a response, when the
    formatting of its log line does not raise. *)
Definition helper_result (r : Response) : json * option Z :=
  if status_code r =? 401 then (JNull, Some 401)
  else if server_error (status_code r) then (JNull, None)
  else (parsed_body r, Some (status_code r)).

(** The error it logs, by status code. *)
Definition classification_events (r : Response) : list Event :=
  if status_code r =? 401 then [EvLog ERROR MsgUnauthorized]
  else if status_code r =? 403 then [EvLog ERROR (MsgForbidden (message_of r))]
  else if status_code r =? 429 then [EvLog ERROR (MsgTooManyRequests (message_of r))]
  else if client_error (status_code r)
       then [EvLog ERROR (MsgClientError (status_code r) (message_of r))]
  else if server_error (status_code r) then [EvLog ERROR MsgHttpServerError]
  else [].

Definition exchange_events api_key method endpoint files data params attempt max_attempts
    (r : Response) : list Event :=
  request_events method endpoint files data params attempt max_attempts
  ++ response_events (build_request api_key method endpoint files data params) r
  ++ classification_events r.

(** [v.get(k)] on a value known to be a dict ([None] otherwise). *)
Definition get_or_null (v : json) (k : string) : json :=
  match v with
  | JObj m => default JNull (m !! k)
  | _ => JNull
  end.

(** The condition of line 97 on a dict, or on anything falsy. *)
Definition accepted_response (status_code : option Z) (init_response : json) : bool :=
  (bool_decide (status_code = Some 202) || bool_decide (status_code = Some 200))
  && py_truthy init_response
  && py_truthy (get_or_null init_response "job_id")
  && py_truthy (get_or_null init_response "status").

(** The log lines of [translate_pdf] up to the submission. *)
Definition start_events (pdf_path : Path) (target_lang tier : string) : list Event :=
  [EvLog INFO MsgStarting;
   EvLog INFO (MsgPdfInfo (path_name pdf_path) target_lang tier);
   EvLog INFO MsgStep1].

(** The client's poll of a job, as a call of the helper. *)
Definition poll_request (api_key : string) (job_id : json) : M (json * option Z) :=
  make_api_request api_key "GET" (EpStatus job_id) None None None
                   default_attempt default_max_attempts.

(** The submission, as a call of the helper. *)
Definition submit_request (api_key : string) (pdf_path : Path) (target_lang tier : string)
    : M (json * option Z) :=
  make_api_request api_key "POST" (EpTranslate tier)
                   (Some [("file", path_name pdf_path)])
                   (Some [("target_lang", target_lang)]) None
                   default_attempt default_max_attempts.

(** A status after which the loop polls again: neither ["completed"]
    nor one of [terminal_failures]. *)
Definition non_terminal (status : json) : bool :=
  negb (py_eq_str status "completed") && negb (py_in_strs status terminal_failures).

(** A poll response that the helper hands over (not a 401, not a 5xx)
    with a non-empty object of non-terminal status as its body. *)
Definition pending_response (r : Response) : bool :=
  negb (status_code r =? 401) && negb (server_error (status_code r))
  && match parsed_body r with
     | JObj m => negb (bool_decide (m = ∅))
     | _ => false
     end
  && non_terminal (get_or_null (parsed_body r) "status").

(** The events of one iteration of the polling loop that ends in the
    wait of lines 134-136. *)
Definition poll_round_events (api_key : string) (job_id : json) (i : Z) (r : Response)
    : list Event :=
  [EvLog INFO (MsgPollingAttempt (i + 1) max_polls)]
  ++ exchange_events api_key "GET" (EpStatus job_id) None None None
                     default_attempt default_max_attempts r
  ++ [EvLog INFO (MsgCurrentStatus job_id (get_or_null (parsed_body r) "status"))]
  ++ (if i <? max_polls - 1
      then [EvLog INFO (MsgWaiting poll_interval_seconds); EvSleep poll_interval_seconds]
      else []).

(** A body that the helper returns to the polling loop and after which
    the loop goes on (lines 114-136): a non-empty object whose status
    is neither ["completed"] nor one of [terminal_failures]. *)
Definition pending_body (body : json) : bool :=
  match body with
  | JObj _ => py_truthy body && non_terminal (get_or_null body "status")
  | _ => false
  end.

(** The world at the end of iteration [i], when its poll has returned
    the pending [body] in [w1]: the status is logged (line 119) and,
    except after the last index, the loop waits (lines 134-136). *)
Definition next_round (job_id : json) (i : Z) (body : json) (w1 : World) : World :=
  extend w1 0
    ([EvLog INFO (MsgCurrentStatus job_id (get_or_null body "status"))]
     ++ (if i <? max_polls - 1
         then [EvLog INFO (MsgWaiting poll_interval_seconds); EvSleep poll_interval_seconds]
         else [])).

(** Every poll of the iterations [indices], the first of them made in
    [w], returns a pending body: whatever its status code, and however
    many exchanges the helper needed for it. *)
Fixpoint all_pending (api_key : string) (job_id : json) (indices : list Z) (w : World)
    : bool :=
  match indices with
  | [] => true
  | i :: rest =>
      match poll_request api_key job_id
              (extend w 0 [EvLog INFO (MsgPollingAttempt (i + 1) max_polls)]) with
      | (Returned (body, _), w1) =>
          pending_body body
          && all_pending api_key job_id rest (next_round job_id i body w1)
      | (Raised _, _) => false
      end
  end.

(** [current_api_status] and the world after such iterations. *)
Fixpoint after_polls (api_key : string) (job_id : json) (indices : list Z)
    (current_api_status : json) (w : World) : json * World :=
  match indices with
  | [] => (current_api_status, w)
  | i :: rest =>
      match poll_request api_key job_id
              (extend w 0 [EvLog INFO (MsgPollingAttempt (i + 1) max_polls)]) with
      | (Returned (body, _), w1) =>
          after_polls api_key job_id rest (get_or_null body "status")
                      (next_round job_id i body w1)
      | (Raised _, w1) => (current_api_status, w1)
      end
  end.

(** The run of [translate_pdf] from [w0] has come to the iterations
    [indices] of its polling loop, in world [w]: it goes on as
    [finish_job] does from there. *)
Definition run_at_poll (api_key : string) (pdf_path : Path) (target_lang tier : string)
    (output_path : Path) (w0 : World) (job_id : json) (indices : list Z)
    (current_api_status : json) (w : World) : Prop :=
  translate_pdf api_key pdf_path target_lang tier output_path w0
  = finish_job api_key job_id output_path indices current_api_status w.

(** The run of [translate_pdf] from [w0] has come to its download step
    (line 142) with [download_url], in world [w]. *)
Definition run_at_download (api_key : string) (pdf_path : Path) (target_lang tier : string)
    (output_path : Path) (w0 : World) (download_url : json) (w : World) : Prop :=
  translate_pdf api_key pdf_path target_lang tier output_path w0
  = download download_url output_path w.

(** [w] once [content] has been written to [p]. *)
Definition saved (w : World) (p : Path) (content : list Byte.byte) : World :=
  mkWorld (net w) (calls w) (<[p := content]> (fs w)) (trace w).

(** The response is one that [raise_for_status] raises on. *)
Definition http_error (r : Response) : bool :=
  (400 <=? status_code r) && (status_code r <? 600).

(** The world in which an accepted submission, answered by [r], leaves
    [translate_pdf] at the start of its polling loop. *)
Definition at_first_poll (api_key : string) (pdf_path : Path) (target_lang tier : string)
    (w0 : World) (r : Response) : World :=
  extend w0 1
    (start_events pdf_path target_lang tier
     ++ exchange_events api_key "POST" (EpTranslate tier)
          (Some [("file", path_name pdf_path)]) (Some [("target_lang", target_lang)]) None
          default_attempt default_max_attempts r
     ++ [EvLog INFO (MsgJobInitiated (get_or_null (parsed_body r) "job_id")
                                     (get_or_null (parsed_body r) "status"));
         EvLog INFO (MsgStep2 (get_or_null (parsed_body r) "job_id"))]).

(** The world in which the answer [r] to a poll leaves the helper. *)
Definition polled (api_key : string) (job_id : json) (i : Z) (w : World) (r : Response)
    : World :=
  extend w 1
    ([EvLog INFO (MsgPollingAttempt (i + 1) max_polls)]
     ++ exchange_events api_key "GET" (EpStatus job_id) None None None
          default_attempt default_max_attempts r).

(** The string has no ['/'] in it. *)
Fixpoint slash_free (s : string) : bool :=
  match s with
  | EmptyString => true
  | String c rest => negb (Ascii.eqb c "/"%char) && slash_free rest
  end.

(** Line 65: where the batch driver has a language saved. *)
Definition output_pdf_path (output_dir_base input_pdf : Path) (lang_code : string) : Path :=
  path_join output_dir_base
    ("translated_" +:+ path_stem input_pdf +:+ "_" +:+ lang_code
                   +:+ path_suffix input_pdf).

(** Lines 75-80: the log line for the outcome of one language. *)
Definition outcome_event (lang_code : string) (output : Path) (r : PyResult bool) : Event :=
  match r with
  | Returned true => EvLog INFO (MsgLangSuccess lang_code output)
  | Returned false => EvLog ERROR (MsgLangFailed lang_code)
  | Raised e => EvLog ERROR (MsgLangUnexpected lang_code e)
  end.

(** The world after one language of the batch: [translate_pdf] is run
    for it once, and whatever comes of it is logged. *)
Definition after_language (supported : list string) (api_key : string) (input_pdf : Path)
    (tier : string) (output_dir_base : Path) (lang_code : string) (w : World) : World :=
  let output := output_pdf_path output_dir_base input_pdf lang_code in
  let run :=
    translate_pdf api_key input_pdf lang_code tier output
      (extend w 0 ([EvLog INFO (MsgTestingLanguage lang_code)]
                   ++ (if existsb (String.eqb lang_code) supported then []
                       else [EvLog WARNING (MsgNotSupported lang_code)]))) in
  extend (snd run) 0 [outcome_event lang_code output (fst run);
                      EvLog INFO (MsgFinishedLanguage lang_code)].

(** The world after the languages [langs], one after the other. *)
Definition sweep (supported : list string) (api_key : string) (input_pdf : Path)
    (tier : string) (output_dir_base : Path) (langs : list string) (w : World) : World :=
  fold_left (fun w lang_code =>
               after_language supported api_key input_pdf tier output_dir_base lang_code w)
            langs w.

End Obs.

(** ** Sample runs *)

Module Samples.
Import App Obs.

Definition pdf : Path := mkPath ["docs"] "example.pdf".
Definition out : Path := mkPath ["translated_pdfs"] "translated_es_example.pdf".

(** A network that answers with [l], one outcome per exchange, and is
    unreachable afterwards. *)
Definition script (l : list NetOutcome) (n : nat) : NetOutcome :=
  nth n l (NetFails NetConnectionError).

(** A fresh world that holds the input document, on the network [n]. *)
Definition world_on (n : nat -> NetOutcome) : World :=
  mkWorld n 0 {[ pdf := [Byte.x25; Byte.x50; Byte.x44; Byte.x46] ]} [].

Definition world (l : list NetOutcome) : World := world_on (script l).

Definition answers (c : Z) (body : json) : Response := mkResponse c (Some body) EmptyString [].

Definition queued : Response :=
  answers 202 (JObj {[ "job_id" := JStr "abc"; "status" := JStr "queued" ]}).
Definition processing : Response :=
  answers 200 (JObj {[ "status" := JStr "processing" ]}).

(** A service that accepts the job and reports it in progress for ever,
    the first poll timing out once before it is answered. *)
Definition never_done_slow (n : nat) : NetOutcome :=
  match n with
  | O => NetResponse queued
  | 1%nat => NetFails NetTimeout
  | S _ => NetResponse processing
  end.

Definition completed : Response :=
  answers 200 (JObj {[ "status" := JStr "completed";
                       "download_url" := JStr "https://cdn/x.pdf" ]}).
Definition completed_no_url : Response :=
  answers 200 (JObj {[ "status" := JStr "completed" ]}).
Definition failed : Response :=
  answers 200 (JObj {[ "status" := JStr "failed"; "error_message" := JStr "boom" ]}).
Definition forbidden_text : Response := answers 403 (JStr "Forbidden").
Definition forbidden : Response :=
  answers 403 (JObj {[ "message" := JStr "You are not subscribed to this API." ]}).

(** A body with both fields, the status empty. *)
Definition queued_empty_status : Response :=
  answers 202 (JObj {[ "job_id" := JStr "abc"; "status" := JStr EmptyString ]}).

Definition translated : list Byte.byte := [Byte.x25; Byte.x50; Byte.x44; Byte.x46; Byte.x0a].

(** The download answered with the bytes [content]. *)
Definition file_response (c : Z) (content : list Byte.byte) : Response :=
  mkResponse c None EmptyString content.

(** The batch scenario: a CSV with the languages [es] and [fr]; the
    service completes the job for [es] and answers the submission for
    [fr] with a 403. *)
Definition csv : Path := mkPath ["repo"] "languages.csv".
Definition output_dir : Path := mkPath ["repo"] "language_test_outputs".

Definition es_fr (content : list Byte.byte)
    : PyResult (option (list string) * list (gmap string string)) :=
  Returned (Some ["language_code"],
            [ {[ "language_code" := "es" ]}; {[ "language_code" := "fr" ]} ]).

Definition batch_world : World :=
  mkWorld (script [NetResponse queued; NetResponse completed;
                   NetResponse (file_response 200 translated);
                   NetResponse forbidden])
          0 {[ pdf := [Byte.x25; Byte.x50; Byte.x44; Byte.x46]; csv := [] ]} [].

Definition batch_args : Batch.Args :=
  Batch.mkArgs (Some "key") pdf "small" output_dir csv.

End Samples.

(** ** What a computation may do to the world *)

Module Frame.
Import App Batch Cli Obs.

(** [m] makes at most [n] exchanges, emits only events in [P], leaves
    the files alone, raises only exceptions in [E] and returns only
    values in [R]. *)
Definition within {A} (P : Event -> Prop) (E : PyExn -> Prop) (R : A -> Prop) (n : nat)
    (m : M A) : Prop :=
  forall w, exists k evs,
    snd (m w) = extend w k evs /\ (k <= n)%nat /\ Forall P evs
    /\ match fst (m w) with
       | Returned a => R a
       | Raised e => E e
       end.

(** The same for a computation that may write [content] to [out], when
    it returns [True] and only then. *)
Definition within_saving (out : Path) (P : Event -> Prop) (E : PyExn -> Prop) (n : nat)
    (m : M bool) : Prop :=
  forall w, exists k evs,
    (k <= n)%nat /\ Forall P evs
    /\ match fst (m w) with
       | Returned true => exists content, snd (m w) = saved (extend w k evs) out content
       | Returned false => snd (m w) = extend w k evs
       | Raised e => snd (m w) = extend w k evs /\ E e
       end.

(** The events of one call of [make_api_request] for [req] on attempts
    [lo], ..., [hi - 1]: the request itself, and sleeps of [5 * k]. *)
Definition helper_event (req : Request) (lo hi : Z) (e : Event) : Prop :=
  match e with
  | EvLog _ _ => True
  | EvSleep s => exists k, lo <= k < hi /\ s = 5 * k
  | EvHttp r => r = req
  end.

(** The log lines of [make_api_request]. *)
Definition helper_msg (msg : LogMsg) : Prop :=
  match msg with
  | MsgSending _ _ _ _ | MsgFormData _ | MsgFiles _ | MsgUrlParameters _
  | MsgResponseStatusCode _ | MsgResponseJson _ | MsgNotJson _
  | MsgUnauthorized | MsgForbidden _ | MsgTooManyRequests _ | MsgClientError _ _
  | MsgTimedOut | MsgRetrying _ | MsgConnectionError | MsgHttpServerError
  | MsgUnexpectedRequestError => True
  | _ => False
  end.

(** What the helper can return: no status code without a [None] body;
    never a 5xx; a 401 with a [None] body. *)
Definition helper_value (r : json * option Z) : Prop :=
  match snd r with
  | None => fst r = JNull
  | Some c => ~ (500 <= c < 600) /\ (c = 401 -> fst r = JNull)
  end.

(** The result of one attempt that returns: a status code that is not a
    5xx, with a [None] body when it is 401. *)
Definition attempt_value (r : json * option Z) : Prop :=
  exists c, snd r = Some c /\ ~ (500 <= c < 600) /\ (c = 401 -> fst r = JNull).

Definition only_attribute_error (e : PyExn) : Prop := e = ExAttributeError.

(** The exceptions of the body of the [try] block of the helper. *)
Definition attempt_exn (e : PyExn) : Prop :=
  e = ExTimeout \/ e = ExConnectionError \/ e = ExRequestException
  \/ e = ExHTTPError \/ e = ExAttributeError.

(** The requests of one job. *)
Definition job_request (api_key : string) (pdf_path : Path) (target_lang tier : string)
    (r : Request) : Prop :=
  r = build_request api_key "POST" (EpTranslate tier)
        (Some [("file", path_name pdf_path)]) (Some [("target_lang", target_lang)]) None
  \/ (exists job_id, r = build_request api_key "GET" (EpStatus job_id) None None None)
  \/ (exists download_url, r = download_request download_url).

(** The events of one job: its requests, and sleeps of 5 or 10 seconds. *)
Definition job_event (api_key : string) (pdf_path : Path) (target_lang tier : string)
    (e : Event) : Prop :=
  match e with
  | EvLog _ _ => True
  | EvSleep s => s = 5 \/ s = 10
  | EvHttp r => job_request api_key pdf_path target_lang tier r
  end.

(** The most exchanges a job can take: three attempts for the
    submission and for each of the 60 polls, and the download. *)
Definition job_exchanges : nat := 3 + 3 * 60 + 1.

(** The request of [analyze_pdf_main]. *)
Definition analyze_request (api_key : string) (pdf_path : Path) : Request :=
  build_request api_key "POST" EpAnalyze (Some [("file", path_name pdf_path)]) None None.

(** The events of one analysis: its request, and sleeps of 5 or 10
    seconds. *)
Definition analyze_event (api_key : string) (pdf_path : Path) (e : Event) : Prop :=
  match e with
  | EvLog _ _ => True
  | EvSleep s => s = 5 \/ s = 10
  | EvHttp r => r = analyze_request api_key pdf_path
  end.

(** The line that [analyze_pdf_main] logs for one item of the response. *)
Definition field_line (item : string * json) : Event :=
  EvLog INFO (MsgAnalysisField (py_capitalize (replace_underscores (fst item))) (snd item)).

(** The lines it logs for a list of items: none for [success]. *)
Definition field_lines (items : list (string * json)) : list Event :=
  flat_map (fun item => if negb (String.eqb (fst item) "success")
                        then [field_line item] else []) items.

(** What [analyze_pdf_main] logs (lines 174-182) for a response that is
    a dict, or falsy, and the status code that came with it. *)
Definition analysis_report (response : json) (status_code : option Z) : list Event :=
  if bool_decide (status_code = Some 200) && py_is_true (get_or_null response "success")
  then EvLog INFO MsgAnalysisSuccessful
       :: field_lines (match response with JObj m => map_to_list m | _ => [] end)
  else if py_is_false (get_or_null response "success")
  then [EvLog ERROR (MsgAnalysisApiError (get_or_null response "error_code")
                                         (get_or_null response "message"))]
  else if status_truthy status_code
  then [EvLog ERROR (MsgAnalysisFailed status_code
                       (if py_truthy response then response
                        else JStr "No response data"))]
  else [].

(** The file that [main_cli] has the translation saved to, before
    [resolve]: [--output_file], or the default of line 215. *)
Definition cli_output_file (cwd : Path) (action : Action) : option Path :=
  match action with
  | Translate pdf_file target_lang tier output_file =>
      Some (default (path_join (path_join cwd "translated_pdfs")
                       ("translated_" +:+ target_lang +:+ "_" +:+ path_name pdf_file))
                    output_file)
  | Analyze _ => None
  end.

(** Line 65: the name the batch driver gives to the translation into
    [lang_code]. *)
Definition output_name (input_pdf : Path) (lang_code : string) : string :=
  "translated_" +:+ path_stem input_pdf +:+ "_" +:+ lang_code +:+ path_suffix input_pdf.

(** Lines 19-23: the log lines at the head of a batch run. *)
Definition batch_header (input_pdf : Path) (tier : string)
    (output_dir_base languages_csv_path : Path) : list Event :=
  [EvLog INFO MsgBatchStarting; EvLog INFO (MsgBatchInputPdf input_pdf);
   EvLog INFO (MsgBatchTier tier); EvLog INFO (MsgBatchOutputDir output_dir_base);
   EvLog INFO (MsgBatchCsv languages_csv_path)].

(** The HTTP exchanges recorded in a trace. *)
Definition requests_of (evs : list Event) : list Request :=
  omap (fun e => match e with EvHttp r => Some r | _ => None end) evs.

(** The numbers of the polling attempts announced in a trace (line 111). *)
Definition polling_attempts (evs : list Event) : list Z :=
  omap (fun e => match e with
                 | EvLog _ (MsgPollingAttempt n _) => Some n
                 | _ => None
                 end) evs.

(** The events of one poll by the helper: its own log lines, back-offs
    of 5 or 10 seconds, and the status request for [job_id]. *)
Definition status_request_event (api_key : string) (job_id : json) (e : Event) : Prop :=
  match e with
  | EvLog _ msg => helper_msg msg
  | EvSleep s => s = 5 \/ s = 10
  | EvHttp r => r = build_request api_key "GET" (EpStatus job_id) None None None
  end.

(** The events of the polling loop while the polls are pending: those
    of the polls, the three lines of the loop, and its waits. *)
Definition polling_event (api_key : string) (job_id : json) (e : Event) : Prop :=
  match e with
  | EvLog _ (MsgPollingAttempt _ _) | EvLog _ (MsgCurrentStatus _ _)
  | EvLog _ (MsgWaiting _) => True
  | _ => status_request_event api_key job_id e
  end.

(** A request made as the call
    [make_api_request(api_key, method, endpoint, files, data, params)]
    makes it, as far as method, URL, headers, form data, query
    parameters and timeouts go.  The file parts are left out: the bytes
    sent for them are not part of [Request], and they are not the same
    from one attempt to the next, because [requests] reads the open
    file object when it prepares the request, and the retry of line 68
    hands over the same object, now at its end. *)
Definition addressed_as (api_key method : string) (endpoint : Endpoint)
    (data params : option (list (string * string))) (r : Request) : Prop :=
  req_method r = method
  /\ req_url r = UrlApi BASE_URL endpoint
  /\ req_headers r = [("X-RapidAPI-Key", api_key); ("X-RapidAPI-Host", RAPIDAPI_HOST)]
  /\ req_data r = data
  /\ req_params r = params
  /\ req_timeout r = (10, 60).

(** The seconds slept, as recorded in a trace. *)
Definition sleeps_of (evs : list Event) : list Z :=
  omap (fun e => match e with EvSleep s => Some s | _ => None end) evs.

End Frame.

(** * Properties *)

Import App Batch Obs.

(** ** Running the primitives *)

Lemma run_bind {A B} (m : M A) (k : A -> M B) (w : World) :
  (m ≫= k) w = match m w with
               | (Returned a, w') => k a w'
               | (Raised e, w') => (Raised e, w')
               end.
Proof. reflexivity. Qed.

Lemma run_ret {A} (a : A) (w : World) : (mret a : M A) w = (Returned a, w).
Proof. reflexivity. Qed.

Lemma run_log lvl msg w : log lvl msg w = (Returned tt, extend w 0 [EvLog lvl msg]).
Proof. reflexivity. Qed.

Lemma run_sleep s w : sleep s w = (Returned tt, extend w 0 [EvSleep s]).
Proof. reflexivity. Qed.

Lemma extend_extend w n1 evs1 n2 evs2 :
  extend (extend w n1 evs1) n2 evs2 = extend w (n2 + n1) (evs1 ++ evs2).
Proof.
  unfold extend; simpl. f_equal; [lia | apply eq_sym, app_assoc].
Qed.

Lemma extend_nil w : extend w 0 [] = w.
Proof. destruct w; unfold extend; simpl. now rewrite app_nil_r. Qed.

Lemma net_extend w n evs : net (extend w n evs) = net w.
Proof. reflexivity. Qed.

Lemma calls_extend w n evs : calls (extend w n evs) = (n + calls w)%nat.
Proof. reflexivity. Qed.

Lemma fs_extend w n evs : fs (extend w n evs) = fs w.
Proof. reflexivity. Qed.

Lemma trace_extend w n evs : trace (extend w n evs) = trace w ++ evs.
Proof. reflexivity. Qed.

Lemma run_log_request method endpoint files data params attempt max_attempts w :
  log_request method endpoint files data params attempt max_attempts w
  = (Returned tt,
     extend w 0 (request_events method endpoint files data params attempt max_attempts)).
Proof.
  unfold log_request, request_events.
  rewrite !run_bind, run_log.
  destruct (arg_truthy data), (arg_truthy files), (arg_truthy params);
    rewrite ?run_bind, ?run_log, ?run_ret, ?run_bind, ?run_log, ?run_ret,
            ?run_bind, ?run_log, ?run_ret, ?extend_extend; reflexivity.
Qed.

(** The recursion of [make_api_request] never runs out of attempts: the
    function satisfies the equation of lines 20-75. *)
Lemma make_api_request_eq api_key method endpoint files data params attempt max_attempts w :
  make_api_request api_key method endpoint files data params attempt max_attempts w
  = (log_request method endpoint files data params attempt max_attempts;;
     try_except (attempt_request (build_request api_key method endpoint files data params))
       (on_exception attempt max_attempts
          (make_api_request api_key method endpoint files data params
                            (attempt + 1) max_attempts))) w.
Proof.
  unfold make_api_request.
  destruct (Z.ltb_spec attempt max_attempts) as [Hlt | Hge].
  - replace (Z.to_nat (max_attempts - attempt))
      with (S (Z.to_nat (max_attempts - (attempt + 1)))) by lia.
    reflexivity.
  - replace (Z.to_nat (max_attempts - attempt)) with O by lia.
    simpl. rewrite !run_bind.
    destruct (log_request _ _ _ _ _ _ _ w) as [[[]|e] w1]; [|reflexivity].
    unfold try_except.
    destruct (attempt_request _ w1) as [[a|e] w2]; [reflexivity|].
    destruct e; simpl; try reflexivity.
    rewrite !run_bind, run_log.
    destruct (Z.ltb_spec attempt max_attempts); [lia | reflexivity].
Qed.

Lemma run_http_response req w r :
  net w (calls w) = NetResponse r ->
  http req w = (Returned r, extend w 1 [EvHttp req]).
Proof. intros H. unfold http. now rewrite H. Qed.

Lemma run_http_fails req w e :
  net w (calls w) = NetFails e ->
  http req w = (Raised (exn_of_net e), extend w 1 [EvHttp req]).
Proof. intros H. unfold http. now rewrite H. Qed.

(** Lines 36-44: the exchange and the parsing of its body. *)
Lemma attempt_request_response req w r :
  net w (calls w) = NetResponse r ->
  attempt_request req w
  = (let response_json := parsed_body r in
     if status_code r =? 401 then
       log ERROR MsgUnauthorized;;
       mret (JNull, Some (status_code r))
     else if status_code r =? 403 then
       message ← error_message response_json r;
       log ERROR (MsgForbidden message);;
       mret (response_json, Some (status_code r))
     else if status_code r =? 429 then
       message ← error_message response_json r;
       log ERROR (MsgTooManyRequests message);;
       mret (response_json, Some (status_code r))
     else if (400 <=? status_code r) && (status_code r <? 500)
             && negb (existsb (Z.eqb (status_code r)) [401; 403; 429]) then
       message ← error_message response_json r;
       log ERROR (MsgClientError (status_code r) message);;
       mret (response_json, Some (status_code r))
     else
       raise_for_status r;;
       mret (response_json, Some (status_code r)))
      (extend w 1 (response_events req r)).
Proof.
  intros H. unfold attempt_request, response_events, parsed_body.
  rewrite run_bind, (run_http_response _ _ _ H), run_bind, run_log, extend_extend, run_bind.
  destruct (resp_json r) as [v|]; cbv beta iota.

  all: rewrite run_bind, run_log, run_ret, extend_extend; reflexivity.
Qed.

Lemma run_try_returned {A} (body : M A) handler w a w' :
  body w = (Returned a, w') -> try_except body handler w = (Returned a, w').
Proof. intros H. unfold try_except. now rewrite H. Qed.

Lemma run_try_raised {A} (body : M A) handler w e w' :
  body w = (Raised e, w') ->
  try_except body handler w
  = match handler e with Some h => h w' | None => (Raised e, w') end.
Proof. intros H. unfold try_except. now rewrite H. Qed.

(** Two descriptions of one world: the same exchanges and the same
    events, up to the bracketing of the trace. *)
Lemma extend_eq w n n' evs evs' :
  n = n' -> evs = evs' -> extend w n evs = extend w n' evs'.
Proof. now intros -> ->. Qed.

Ltac same_world :=
  rewrite ?extend_extend;
  try (apply (f_equal (pair _)));
  apply extend_eq; [lia | rewrite <- ?app_assoc; reflexivity].

Lemma error_message_dict_or_falsy r w :
  dict_or_falsy (parsed_body r) = true ->
  error_message (parsed_body r) r w = (Returned (message_of r), w).
Proof.
  unfold error_message, message_of, dict_or_falsy.
  destruct (parsed_body r) as [|b|n|s|l|m]; simpl; intros H.
  - reflexivity.
  - destruct b; [discriminate | reflexivity].
  - destruct (n =? 0); [reflexivity | discriminate].
  - destruct (String.eqb s EmptyString); [reflexivity | discriminate].
  - destruct l; [reflexivity | discriminate].
  - destruct (bool_decide (m = ∅)); reflexivity.
Qed.

Lemma error_message_not_dict r w :
  py_truthy (parsed_body r) = true ->
  dict_or_falsy (parsed_body r) = false ->
  error_message (parsed_body r) r w = (Raised ExAttributeError, w).
Proof.
  unfold error_message, dict_or_falsy. intros Ht.
  rewrite Ht. destruct (parsed_body r); simpl; try reflexivity; discriminate.
Qed.

(** A response whose log line can be formatted is answered at once: one
    exchange, no sleep, no second attempt. *)
Lemma make_api_request_response api_key method endpoint files data params
    attempt max_attempts w r :
  net w (calls w) = NetResponse r ->
  (status_code r = 401 \/ client_error (status_code r) = false
   \/ dict_or_falsy (parsed_body r) = true) ->
  make_api_request api_key method endpoint files data params attempt max_attempts w
  = (Returned (helper_result r),
     extend w 1 (exchange_events api_key method endpoint files data params
                                 attempt max_attempts r)).
Proof.
  intros Hnet Hok.
  rewrite make_api_request_eq, run_bind, run_log_request.
  assert (Hnet' : net (extend w 0 (request_events method endpoint files data params
                                     attempt max_attempts))
                      (calls (extend w 0 (request_events method endpoint files data
                                            params attempt max_attempts)))
                  = NetResponse r) by exact Hnet.
  pose proof (attempt_request_response
                (build_request api_key method endpoint files data params) _ _ Hnet') as Hatt.
  cbv zeta in Hatt. rewrite extend_extend in Hatt.
  unfold exchange_events, helper_result, classification_events, client_error.
  unfold client_error in Hok.
  destruct (Z.eqb_spec (status_code r) 401) as [E401|N401].
  { erewrite run_try_returned; [reflexivity|].
    rewrite Hatt, run_bind, run_log, run_ret, extend_extend, E401.
    same_world. }
  destruct Hok as [Hok|Hok]; [contradiction|].
  destruct (Z.eqb_spec (status_code r) 403) as [E403|N403].
  { destruct Hok as [Hok|Hok]; [rewrite E403 in Hok; discriminate|].
    replace (server_error (status_code r)) with false
      by (unfold server_error; rewrite E403; reflexivity).
    erewrite run_try_returned; [reflexivity|].
    rewrite Hatt, run_bind, (error_message_dict_or_falsy _ _ Hok),
      run_bind, run_log, run_ret, extend_extend.
    same_world. }
  destruct (Z.eqb_spec (status_code r) 429) as [E429|N429].
  { destruct Hok as [Hok|Hok]; [rewrite E429 in Hok; discriminate|].
    replace (server_error (status_code r)) with false
      by (unfold server_error; rewrite E429; reflexivity).
    erewrite run_try_returned; [reflexivity|].
    rewrite Hatt, run_bind, (error_message_dict_or_falsy _ _ Hok),
      run_bind, run_log, run_ret, extend_extend.
    same_world. }
  assert (Hnotin : negb (existsb (Z.eqb (status_code r)) [401; 403; 429]) = true).
  { simpl. destruct (Z.eqb_spec (status_code r) 401); [contradiction|].
    destruct (Z.eqb_spec (status_code r) 403); [contradiction|].
    destruct (Z.eqb_spec (status_code r) 429); [contradiction|reflexivity]. }
  rewrite Hnotin, andb_true_r in Hatt.
  destruct ((400 <=? status_code r) && (status_code r <? 500)) eqn:E4xx.
  { destruct Hok as [Hok|Hok]; [discriminate|].
    replace (server_error (status_code r)) with false
      by (unfold server_error; lia).
    erewrite run_try_returned; [reflexivity|].
    rewrite Hatt, run_bind, (error_message_dict_or_falsy _ _ Hok),
      run_bind, run_log, run_ret, extend_extend.
    same_world. }
  unfold server_error.
  destruct ((500 <=? status_code r) && (status_code r <? 600)) eqn:E5xx.
  - erewrite run_try_raised; cycle 1.
    { rewrite Hatt, run_bind. unfold raise_for_status.
      replace ((400 <=? status_code r) && (status_code r <? 600)) with true by lia.
      reflexivity. }
    unfold on_exception. rewrite run_bind, run_log, run_ret. same_world.
  - erewrite run_try_returned; [reflexivity|].
    rewrite Hatt, run_bind. unfold raise_for_status.
    replace ((400 <=? status_code r) && (status_code r <? 600)) with false by lia.
    rewrite run_ret, run_ret, app_nil_r. same_world.
Qed.

(** A failed exchange: the events up to the handler's log line. *)
Lemma make_api_request_fails api_key method endpoint files data params
    attempt max_attempts w e :
  net w (calls w) = NetFails e ->
  make_api_request api_key method endpoint files data params attempt max_attempts w
  = match on_exception attempt max_attempts
            (make_api_request api_key method endpoint files data params
                              (attempt + 1) max_attempts) (exn_of_net e) with
    | Some h =>
        h (extend w 1 (request_events method endpoint files data params
                                      attempt max_attempts
                       ++ [EvHttp (build_request api_key method endpoint files data params)]))
    | None =>
        (Raised (exn_of_net e),
         extend w 1 (request_events method endpoint files data params
                                    attempt max_attempts
                     ++ [EvHttp (build_request api_key method endpoint files data params)]))
    end.
Proof.
  intros Hnet.
  rewrite make_api_request_eq, run_bind, run_log_request.
  erewrite run_try_raised; cycle 1.
  { unfold attempt_request. rewrite run_bind, (run_http_fails _ _ e) by exact Hnet.
    reflexivity. }
  rewrite extend_extend. reflexivity.
Qed.

(** C4. On a timeout of attempt [N] of [make_api_request]: when [N] is
    below [max_attempts] (3 for every call of the client), the helper
    logs, sleeps [5 * N] seconds and runs the same call again as attempt
    [N + 1]; when [N] has reached [max_attempts] it returns
    [(None, None)] without sleeping. *)
Theorem make_api_request_timeout api_key method endpoint files data params N w :
  net w (calls w) = NetFails NetTimeout ->
  let max_attempts := default_max_attempts in
  let timed_out :=
    extend w 1 (request_events method endpoint files data params N max_attempts
                ++ [EvHttp (build_request api_key method endpoint files data params);
                    EvLog ERROR MsgTimedOut]) in
  (N < 3 ->
   make_api_request api_key method endpoint files data params N max_attempts w
   = make_api_request api_key method endpoint files data params (N + 1) max_attempts
       (extend timed_out 0 [EvLog INFO (MsgRetrying (5 * N)); EvSleep (5 * N)]))
  /\ (N = 3 ->
      make_api_request api_key method endpoint files data params N max_attempts w
      = (Returned (JNull, None), timed_out)).
Proof.
  intros Hnet max_attempts timed_out. subst timed_out max_attempts.
  unfold default_max_attempts.
  rewrite (make_api_request_fails _ _ _ _ _ _ _ _ _ _ Hnet).
  unfold exn_of_net, on_exception.
  rewrite run_bind, run_log.
  split; intros HN.
  - destruct (Z.ltb_spec N 3) as [_|]; [|lia].
    rewrite run_bind, run_log, run_bind, run_sleep.
    f_equal. same_world.
  - destruct (Z.ltb_spec N 3) as [|_]; [lia|].
    rewrite run_ret. same_world.
Qed.

(** C9. A 403, a 429 or another 4xx (not 401) whose body parses to a
    truthy JSON value that is not an object: formatting the log line
    calls [.get] on it, and [make_api_request] raises AttributeError
    instead of returning the body and the status. *)
Theorem make_api_request_client_error_raises api_key method endpoint files data params
    attempt max_attempts w r :
  net w (calls w) = NetResponse r ->
  client_error (status_code r) = true ->
  status_code r <> 401 ->
  py_truthy (parsed_body r) = true ->
  dict_or_falsy (parsed_body r) = false ->
  fst (make_api_request api_key method endpoint files data params attempt max_attempts w)
  = Raised ExAttributeError.
Proof.
  intros Hnet H4xx N401 Htruthy Hnodict.
  rewrite make_api_request_eq, run_bind, run_log_request.
  assert (Hraise : forall (k : json -> M (json * option Z)) w',
             (error_message (parsed_body r) r ≫= k) w' = (Raised ExAttributeError, w')).
  { intros k w'. now rewrite run_bind, (error_message_not_dict _ _ Htruthy Hnodict). }
  erewrite run_try_raised with (e := ExAttributeError); [reflexivity|].
  rewrite (attempt_request_response _ _ r) by exact Hnet.
  cbv zeta. unfold client_error in H4xx.
  destruct (Z.eqb_spec (status_code r) 401); [contradiction|].
  destruct (Z.eqb_spec (status_code r) 403); [apply Hraise|].
  destruct (Z.eqb_spec (status_code r) 429); [apply Hraise|].
  replace (existsb (Z.eqb (status_code r)) [401; 403; 429]) with false
    by (unfold existsb; lia).
  rewrite H4xx. apply Hraise.
Qed.

(** ** The job driver *)

Lemma run_lift {A} (r : PyResult A) w : lift r w = (r, w).
Proof. reflexivity. Qed.

Ltac run :=
  repeat first [ rewrite run_bind | rewrite run_log | rewrite run_sleep
               | rewrite run_ret | rewrite run_lift ];
  cbv beta iota.

Lemma truthy_dict_or_falsy v :
  dict_or_falsy v = true -> py_truthy v = true -> exists m, v = JObj m /\ m <> ∅.
Proof.
  destruct v as [|b|n|s|l|m]; simpl; intros H1 H2; try congruence;
    try (rewrite H2 in H1; discriminate).
  exists m. split; [reflexivity|].
  intros ->. rewrite bool_decide_eq_true_2 in H2 by reflexivity. discriminate.
Qed.

(** Line 97 on a dict or a falsy value. *)
Lemma submission_accepted_dict_or_falsy status_code init_response w :
  dict_or_falsy init_response = true ->
  submission_accepted status_code init_response w
  = (Returned (accepted_response status_code init_response), w).
Proof.
  intros Hd. unfold submission_accepted, accepted_response.
  destruct (bool_decide (status_code = Some 202) || bool_decide (status_code = Some 200));
    [|reflexivity].
  destruct (py_truthy init_response) eqn:Ht; [|reflexivity].
  destruct (truthy_dict_or_falsy _ Hd Ht) as (m & -> & _).
  simpl. run. destruct (py_truthy (default JNull (m !! "job_id"))); [|reflexivity].
  run. reflexivity.
Qed.

(** Line 97 on a status code other than 200 and 202. *)
Lemma submission_accepted_other_status status_code init_response w :
  status_code <> Some 202 -> status_code <> Some 200 ->
  submission_accepted status_code init_response w = (Returned false, w).
Proof.
  intros H1 H2. unfold submission_accepted.
  rewrite !bool_decide_eq_false_2 by assumption. reflexivity.
Qed.

(** [translate_pdf] up to the return of the submission. *)
Lemma translate_pdf_submitted api_key pdf_path target_lang tier output_path w
    init_response status_code w1 :
  is_Some (fs w !! pdf_path) ->
  submit_request api_key pdf_path target_lang tier
                 (extend w 0 (start_events pdf_path target_lang tier))
  = (Returned (init_response, status_code), w1) ->
  translate_pdf api_key pdf_path target_lang tier output_path w
  = (accepted ← submission_accepted status_code init_response;
     if (accepted : bool) then
       job_id ← lift (py_getitem init_response "job_id");
       status ← lift (py_get init_response "status");
       log INFO (MsgJobInitiated job_id status);;
       log INFO (MsgStep2 job_id);;
       finish_job api_key job_id output_path (py_range max_polls) JNull
     else
       log ERROR (MsgFailedInitiate status_code
                    (if py_truthy init_response then init_response
                     else JStr "No response data"));;
       mret false) w1.
Proof.
  intros Hex Hsub. unfold translate_pdf.
  run. unfold path_exists at 1. simpl fs.
  rewrite bool_decide_eq_true_2 by exact Hex.
  change (negb true) with false. cbv beta iota.
  unfold submit. run. rewrite !extend_extend.
  unfold submit_request, start_events in Hsub.
  change (make_api_request api_key "POST" (EpTranslate tier)
            (Some [("file", path_name pdf_path)])
            (Some [("target_lang", target_lang)]) None default_attempt
            default_max_attempts
            (extend w 0
               [EvLog INFO MsgStarting;
                EvLog INFO (MsgPdfInfo (path_name pdf_path) target_lang tier);
                EvLog INFO MsgStep1])
          = (Returned (init_response, status_code), w1)) in Hsub.
  simpl Nat.add. simpl app. rewrite Hsub. reflexivity.
Qed.

(** An accepted submission: the driver goes on to poll the job. *)
Lemma translate_pdf_accepted api_key pdf_path target_lang tier output_path w
    init_response status_code w1 :
  is_Some (fs w !! pdf_path) ->
  submit_request api_key pdf_path target_lang tier
                 (extend w 0 (start_events pdf_path target_lang tier))
  = (Returned (init_response, status_code), w1) ->
  accepted_response status_code init_response = true ->
  run_at_poll api_key pdf_path target_lang tier output_path w
    (get_or_null init_response "job_id") (py_range max_polls) JNull
    (extend w1 0 [EvLog INFO (MsgJobInitiated (get_or_null init_response "job_id")
                                              (get_or_null init_response "status"));
                  EvLog INFO (MsgStep2 (get_or_null init_response "job_id"))]).
Proof.
  intros Hex Hsub Hacc. unfold run_at_poll.
  rewrite (translate_pdf_submitted _ _ _ _ _ _ _ _ _ Hex Hsub).
  unfold accepted_response in Hacc.
  apply andb_true_iff in Hacc as [Hacc Hst].
  apply andb_true_iff in Hacc as [Hacc Hjob].
  apply andb_true_iff in Hacc as [Hcode Htr].
  destruct init_response as [|b|n|s|l|m]; try discriminate.
  rewrite run_bind, submission_accepted_dict_or_falsy by reflexivity.
  unfold accepted_response. rewrite Hcode, Htr, Hjob, Hst.
  change (true && true && true && true) with true. cbv iota.
  simpl in Hjob. simpl get_or_null.
  unfold py_getitem, py_get, py_get_default.
  destruct (m !! "job_id") as [job_id|] eqn:Ej; [|discriminate].
  run. rewrite extend_extend. reflexivity.
Qed.

(** A submission that is not accepted: [False] at once, with no further
    exchange. *)
Lemma translate_pdf_rejected api_key pdf_path target_lang tier output_path w
    init_response status_code w1 :
  is_Some (fs w !! pdf_path) ->
  submit_request api_key pdf_path target_lang tier
                 (extend w 0 (start_events pdf_path target_lang tier))
  = (Returned (init_response, status_code), w1) ->
  (dict_or_falsy init_response = true
   \/ (status_code <> Some 202 /\ status_code <> Some 200)) ->
  accepted_response status_code init_response = false ->
  translate_pdf api_key pdf_path target_lang tier output_path w
  = (Returned false,
     extend w1 0 [EvLog ERROR (MsgFailedInitiate status_code
                                 (if py_truthy init_response then init_response
                                  else JStr "No response data"))]).
Proof.
  intros Hex Hsub Hshape Hacc.
  rewrite (translate_pdf_submitted _ _ _ _ _ _ _ _ _ Hex Hsub).
  rewrite run_bind.
  destruct Hshape as [Hd | [H1 H2]].
  - rewrite submission_accepted_dict_or_falsy, Hacc by exact Hd. run. reflexivity.
  - rewrite submission_accepted_other_status by assumption. run. reflexivity.
Qed.

(** One iteration of the polling loop, up to the return of the helper. *)
Lemma poll_loop_polled api_key job_id i rest current w body code w1 :
  poll_request api_key job_id
    (extend w 0 [EvLog INFO (MsgPollingAttempt (i + 1) max_polls)])
  = (Returned (body, code), w1) ->
  poll_loop api_key job_id (i :: rest) current w
  = (let status_response := body in
     if negb (py_truthy status_response) then
       log ERROR MsgPollingFailed;;
       mret (LoopReturn false)
     else
       current_api_status ← lift (py_get status_response "status");
       log INFO (MsgCurrentStatus job_id current_api_status);;
       if py_eq_str current_api_status "completed" then
         download_url ← lift (py_get status_response "download_url");
         if negb (py_truthy download_url) then
           log ERROR MsgNoDownloadUrl;;
           mret (LoopReturn false)
         else
           log INFO (MsgCompleted job_id download_url);;
           mret (LoopBreak download_url)
       else if py_in_strs current_api_status terminal_failures then
         error_msg ← lift (py_get_default status_response "error_message"
                             (JStr "No specific error message provided by API."));
         log ERROR (MsgJobEnded job_id current_api_status error_msg);;
         mret (LoopReturn false)
       else
         (if i <? max_polls - 1 then
            log INFO (MsgWaiting poll_interval_seconds);;
            sleep poll_interval_seconds
          else mret tt);;
         poll_loop api_key job_id rest current_api_status) w1.
Proof.
  intros Hpoll. unfold poll_request in Hpoll.
  cbn [poll_loop]. rewrite run_bind, run_log, run_bind, Hpoll. reflexivity.
Qed.

(** The helper came back without a (truthy) body: lines 114-116. *)
Lemma poll_loop_no_body api_key job_id i rest current w body code w1 :
  poll_request api_key job_id
    (extend w 0 [EvLog INFO (MsgPollingAttempt (i + 1) max_polls)])
  = (Returned (body, code), w1) ->
  py_truthy body = false ->
  poll_loop api_key job_id (i :: rest) current w
  = (Returned (LoopReturn false), extend w1 0 [EvLog ERROR MsgPollingFailed]).
Proof.
  intros Hpoll Hf. rewrite (poll_loop_polled _ _ _ _ _ _ _ _ _ Hpoll).
  cbv zeta. rewrite Hf. run. reflexivity.
Qed.

(** Status ["completed"] with a truthy download URL: lines 121-127. *)
Lemma poll_loop_completed api_key job_id i rest current w m code w1 url :
  poll_request api_key job_id
    (extend w 0 [EvLog INFO (MsgPollingAttempt (i + 1) max_polls)])
  = (Returned (JObj m, code), w1) ->
  m !! "status" = Some (JStr "completed") ->
  m !! "download_url" = Some url ->
  py_truthy url = true ->
  poll_loop api_key job_id (i :: rest) current w
  = (Returned (LoopBreak url),
     extend w1 0 [EvLog INFO (MsgCurrentStatus job_id (JStr "completed"));
                  EvLog INFO (MsgCompleted job_id url)]).
Proof.
  intros Hpoll Hst Hurl Ht. rewrite (poll_loop_polled _ _ _ _ _ _ _ _ _ Hpoll).
  cbv zeta.
  assert (Hne : py_truthy (JObj m) = true).
  { simpl. rewrite bool_decide_eq_false_2; [reflexivity|].
    intros ->. rewrite lookup_empty in Hst. discriminate. }
  rewrite Hne. change (negb true) with false. cbv iota.
  unfold py_get, py_get_default. rewrite Hst, Hurl. simpl default.
  run. change (py_eq_str (JStr "completed") "completed") with true. cbv iota.
  run. rewrite Ht. change (negb true) with false. cbv iota.
  run. rewrite extend_extend. reflexivity.
Qed.

(** Status ["completed"] without a (truthy) download URL: lines 123-125. *)
Lemma poll_loop_completed_no_url api_key job_id i rest current w m code w1 :
  poll_request api_key job_id
    (extend w 0 [EvLog INFO (MsgPollingAttempt (i + 1) max_polls)])
  = (Returned (JObj m, code), w1) ->
  m !! "status" = Some (JStr "completed") ->
  py_truthy (default JNull (m !! "download_url")) = false ->
  poll_loop api_key job_id (i :: rest) current w
  = (Returned (LoopReturn false),
     extend w1 0 [EvLog INFO (MsgCurrentStatus job_id (JStr "completed"));
                  EvLog ERROR MsgNoDownloadUrl]).
Proof.
  intros Hpoll Hst Hf. rewrite (poll_loop_polled _ _ _ _ _ _ _ _ _ Hpoll).
  cbv zeta.
  assert (Hne : py_truthy (JObj m) = true).
  { simpl. rewrite bool_decide_eq_false_2; [reflexivity|].
    intros ->. rewrite lookup_empty in Hst. discriminate. }
  rewrite Hne. change (negb true) with false. cbv iota.
  unfold py_get, py_get_default. rewrite Hst. simpl default.
  run. change (py_eq_str (JStr "completed") "completed") with true. cbv iota.
  run. rewrite Hf. change (negb false) with true. cbv iota.
  run. rewrite extend_extend. reflexivity.
Qed.

(** One of the terminal failure statuses: lines 128-132. *)
Lemma poll_loop_terminal api_key job_id i rest current w m code w1 status :
  poll_request api_key job_id
    (extend w 0 [EvLog INFO (MsgPollingAttempt (i + 1) max_polls)])
  = (Returned (JObj m, code), w1) ->
  m !! "status" = Some status ->
  py_in_strs status terminal_failures = true ->
  poll_loop api_key job_id (i :: rest) current w
  = (Returned (LoopReturn false),
     extend w1 0
       [EvLog INFO (MsgCurrentStatus job_id status);
        EvLog ERROR
          (MsgJobEnded job_id status
             (default (JStr "No specific error message provided by API.")
                      (m !! "error_message")))]).
Proof.
  intros Hpoll Hst Hterm. rewrite (poll_loop_polled _ _ _ _ _ _ _ _ _ Hpoll).
  cbv zeta.
  assert (Hne : py_truthy (JObj m) = true).
  { simpl. rewrite bool_decide_eq_false_2; [reflexivity|].
    intros ->. rewrite lookup_empty in Hst. discriminate. }
  rewrite Hne. change (negb true) with false. cbv iota.
  unfold py_get, py_get_default. rewrite Hst. simpl default.
  run.
  assert (Hnc : py_eq_str status "completed" = false).
  { destruct status as [| | |s| |]; try reflexivity.
    simpl in Hterm |- *. rewrite !orb_true_iff in Hterm.
    destruct (String.eqb_spec s "completed") as [->|]; [|reflexivity].
    simpl in Hterm. intuition discriminate. }
  rewrite Hnc, Hterm. run. rewrite extend_extend. reflexivity.
Qed.

(** Any other status on a non-empty object: wait (except after the last
    index) and poll again, lines 134-136. *)
Lemma poll_loop_pending api_key job_id i rest current w m code w1 :
  poll_request api_key job_id
    (extend w 0 [EvLog INFO (MsgPollingAttempt (i + 1) max_polls)])
  = (Returned (JObj m, code), w1) ->
  m <> ∅ ->
  non_terminal (default JNull (m !! "status")) = true ->
  poll_loop api_key job_id (i :: rest) current w
  = poll_loop api_key job_id rest (default JNull (m !! "status"))
      (extend w1 0
         ([EvLog INFO (MsgCurrentStatus job_id (default JNull (m !! "status")))]
          ++ (if i <? max_polls - 1
              then [EvLog INFO (MsgWaiting poll_interval_seconds);
                    EvSleep poll_interval_seconds]
              else []))).
Proof.
  intros Hpoll Hne Hnt. rewrite (poll_loop_polled _ _ _ _ _ _ _ _ _ Hpoll).
  cbv zeta.
  assert (Htr : py_truthy (JObj m) = true).
  { simpl. now rewrite bool_decide_eq_false_2. }
  rewrite Htr. change (negb true) with false. cbv iota.
  unfold py_get, py_get_default. run.
  unfold non_terminal in Hnt. apply andb_true_iff in Hnt as [H1 H2].
  apply negb_true_iff in H1, H2. rewrite H1, H2.
  destruct (i <? max_polls - 1); run; rewrite ?extend_extend;
    f_equal; same_world.
Qed.

Lemma finish_job_return api_key job_id output_path indices current w b w' :
  poll_loop api_key job_id indices current w = (Returned (LoopReturn b), w') ->
  finish_job api_key job_id output_path indices current w = (Returned b, w').
Proof. intros H. unfold finish_job. rewrite run_bind, H. reflexivity. Qed.

Lemma finish_job_break api_key job_id output_path indices current w url w' :
  poll_loop api_key job_id indices current w = (Returned (LoopBreak url), w') ->
  finish_job api_key job_id output_path indices current w = download url output_path w'.
Proof. intros H. unfold finish_job. rewrite run_bind, H. reflexivity. Qed.

Lemma finish_job_next api_key job_id output_path indices current w indices' current' w' :
  poll_loop api_key job_id indices current w
  = poll_loop api_key job_id indices' current' w' ->
  finish_job api_key job_id output_path indices current w
  = finish_job api_key job_id output_path indices' current' w'.
Proof. intros H. unfold finish_job. rewrite !run_bind, H. reflexivity. Qed.

(** A poll answered by a response: what the helper returns. *)
Lemma poll_request_response api_key job_id i w r :
  net w (calls w) = NetResponse r ->
  (status_code r = 401 \/ client_error (status_code r) = false
   \/ dict_or_falsy (parsed_body r) = true) ->
  poll_request api_key job_id
    (extend w 0 [EvLog INFO (MsgPollingAttempt (i + 1) max_polls)])
  = (Returned (helper_result r), polled api_key job_id i w r).
Proof.
  intros Hnet Hok. unfold poll_request, polled.
  rewrite (make_api_request_response _ _ _ _ _ _ _ _ _ r) by assumption.
  same_world.
Qed.

(** ** The download step *)

Lemma download_saved download_url output_path w r :
  py_truthy download_url = true ->
  net w (calls w) = NetResponse r ->
  http_error r = false ->
  download download_url output_path w
  = (Returned true,
     extend (saved (extend w 1 [EvLog INFO (MsgStep3 download_url);
                                EvHttp (download_request download_url)])
                   output_path (resp_content r))
            0 [EvLog INFO (MsgDownloaded output_path)]).
Proof.
  intros Ht Hnet Herr. unfold download. rewrite Ht. run.
  erewrite run_try_returned; [reflexivity|].
  rewrite run_bind, (run_http_response _ _ r) by exact Hnet.
  unfold raise_for_status. unfold http_error in Herr. rewrite Herr.
  run. unfold write_file. run. rewrite extend_extend. reflexivity.
Qed.

Lemma download_http_error download_url output_path w r :
  py_truthy download_url = true ->
  net w (calls w) = NetResponse r ->
  http_error r = true ->
  download download_url output_path w
  = (Returned false,
     extend w 1 [EvLog INFO (MsgStep3 download_url);
                 EvHttp (download_request download_url);
                 EvLog ERROR (MsgDownloadFailed download_url)]).
Proof.
  intros Ht Hnet Herr. unfold download. rewrite Ht. run.
  erewrite run_try_raised with (e := ExHTTPError); cycle 1.
  { rewrite run_bind, (run_http_response _ _ r) by exact Hnet.
    unfold raise_for_status. unfold http_error in Herr. rewrite Herr.
    reflexivity. }
  cbv iota. run. same_world.
Qed.

Lemma download_transport_error download_url output_path w e :
  py_truthy download_url = true ->
  net w (calls w) = NetFails e ->
  download download_url output_path w
  = (Returned false,
     extend w 1 [EvLog INFO (MsgStep3 download_url);
                 EvHttp (download_request download_url);
                 EvLog ERROR (match e with
                              | NetTimeout => MsgDownloadTimedOut download_url
                              | _ => MsgDownloadFailed download_url
                              end)]).
Proof.
  intros Ht Hnet. unfold download. rewrite Ht. run.
  erewrite run_try_raised with (e := exn_of_net e); cycle 1.
  { rewrite run_bind, (run_http_fails _ _ e) by exact Hnet. reflexivity. }
  destruct e; cbv iota beta delta [exn_of_net]; run; same_world.
Qed.

(** ** The claims on the job driver *)



(** C5, as amended.  With the body a JSON object or falsy (or the
    status code other than 200 and 202, and the body anything), the
    submission is accepted if and only if the status code is 200 or 202
    and the body holds a truthy [job_id] and a truthy [status]: then
    [translate_pdf] goes on to poll that job; otherwise it logs the
    failure and returns [False] with no further exchange. *)
Theorem submission_gate api_key pdf_path target_lang tier output_path w
    init_response status_code w1 :
  is_Some (fs w !! pdf_path) ->
  submit_request api_key pdf_path target_lang tier
                 (extend w 0 (start_events pdf_path target_lang tier))
  = (Returned (init_response, status_code), w1) ->
  (dict_or_falsy init_response = true
   \/ (status_code <> Some 202 /\ status_code <> Some 200)) ->
  if accepted_response status_code init_response
  then run_at_poll api_key pdf_path target_lang tier output_path w
         (get_or_null init_response "job_id") (py_range max_polls) JNull
         (extend w1 0
            [EvLog INFO (MsgJobInitiated (get_or_null init_response "job_id")
                                         (get_or_null init_response "status"));
             EvLog INFO (MsgStep2 (get_or_null init_response "job_id"))])
  else translate_pdf api_key pdf_path target_lang tier output_path w
       = (Returned false,
          extend w1 0 [EvLog ERROR (MsgFailedInitiate status_code
                                      (if py_truthy init_response then init_response
                                       else JStr "No response data"))]).
Proof.
  intros Hex Hsub Hshape.
  destruct (accepted_response status_code init_response) eqn:Hacc.
  - eapply translate_pdf_accepted; eassumption.
  - eapply translate_pdf_rejected; eassumption.
Qed.

Lemma submission_gate_witness :
  translate_pdf "key" Samples.pdf "es" "small" Samples.out
    (Samples.world [NetResponse Samples.forbidden])
  = (Returned false,
     extend (Samples.world [NetResponse Samples.forbidden]) 1
       (start_events Samples.pdf "es" "small"
        ++ exchange_events "key" "POST" (EpTranslate "small")
             (Some [("file", "example.pdf")]) (Some [("target_lang", "es")]) None
             1 3 Samples.forbidden
        ++ [EvLog ERROR (MsgFailedInitiate (Some 403) (parsed_body Samples.forbidden))])).
Proof.
  refine (eq_trans
            (submission_gate "key" Samples.pdf "es" "small" Samples.out
               (Samples.world [NetResponse Samples.forbidden])
               (parsed_body Samples.forbidden) (Some 403)
               (extend (Samples.world [NetResponse Samples.forbidden]) 1
                  (start_events Samples.pdf "es" "small"
                   ++ exchange_events "key" "POST" (EpTranslate "small")
                        (Some [("file", "example.pdf")]) (Some [("target_lang", "es")])
                        None 1 3 Samples.forbidden))
               _ _ _) _).
  - eexists. vm_compute. reflexivity.
  - vm_compute. reflexivity.
  - left. reflexivity.
  - vm_compute. reflexivity.
Defined.

(** C5, the claim as stated fails: a 202 whose body has both fields,
    [status] being the empty string, is not accepted; [translate_pdf]
    returns [False] after the one exchange of the submission. *)
Lemma submission_with_empty_status_rejected :
  let w := Samples.world [NetResponse Samples.queued_empty_status;
                          NetResponse Samples.processing] in
  let run := translate_pdf "key" Samples.pdf "es" "small" Samples.out w in
  status_code Samples.queued_empty_status = 202
  /\ (exists m, resp_json Samples.queued_empty_status = Some (JObj m)
                /\ is_Some (m !! "job_id") /\ is_Some (m !! "status"))
  /\ fst run = Returned false
  /\ calls (snd run) = 1%nat.
Proof.
  split; [reflexivity|]. split.
  - eexists. split; [reflexivity|]. split; eexists; vm_compute; reflexivity.
  - split; vm_compute; reflexivity.
Qed.

(** C6. At any iteration of the polling loop, on a poll for which the
    helper hands over the object [m]: with status ["completed"] and a
    truthy [download_url], the loop is left by [break] and the driver
    goes on to download that URL; with status ["completed"] and no
    (truthy) [download_url], [translate_pdf] returns [False] without
    any further exchange; with one of the five terminal failure
    statuses, it returns [False] at once, having logged the status with
    the [error_message] of the response (or the stock text). *)
Theorem poll_terminal_cases api_key pdf_path target_lang tier output_path w0
    job_id i rest current w m code w1 :
  run_at_poll api_key pdf_path target_lang tier output_path w0 job_id (i :: rest) current w ->
  poll_request api_key job_id
    (extend w 0 [EvLog INFO (MsgPollingAttempt (i + 1) max_polls)])
  = (Returned (JObj m, code), w1) ->
  (forall url,
      m !! "status" = Some (JStr "completed") ->
      m !! "download_url" = Some url ->
      py_truthy url = true ->
      poll_loop api_key job_id (i :: rest) current w
      = (Returned (LoopBreak url),
         extend w1 0 [EvLog INFO (MsgCurrentStatus job_id (JStr "completed"));
                      EvLog INFO (MsgCompleted job_id url)])
      /\ run_at_download api_key pdf_path target_lang tier output_path w0 url
           (extend w1 0 [EvLog INFO (MsgCurrentStatus job_id (JStr "completed"));
                         EvLog INFO (MsgCompleted job_id url)]))
  /\ (m !! "status" = Some (JStr "completed") ->
      py_truthy (default JNull (m !! "download_url")) = false ->
      translate_pdf api_key pdf_path target_lang tier output_path w0
      = (Returned false,
         extend w1 0 [EvLog INFO (MsgCurrentStatus job_id (JStr "completed"));
                      EvLog ERROR MsgNoDownloadUrl]))
  /\ (forall s,
         m !! "status" = Some (JStr s) ->
         In s terminal_failures ->
         translate_pdf api_key pdf_path target_lang tier output_path w0
         = (Returned false,
            extend w1 0
              [EvLog INFO (MsgCurrentStatus job_id (JStr s));
               EvLog ERROR
                 (MsgJobEnded job_id (JStr s)
                    (default (JStr "No specific error message provided by API.")
                             (m !! "error_message")))])).
Proof.
  intros Hrun Hpoll. split; [|split].
  - intros url Hst Hurl Ht.
    pose proof (poll_loop_completed _ _ _ rest current _ _ _ _ _ Hpoll Hst Hurl Ht) as Hl.
    split; [exact Hl|].
    unfold run_at_download. rewrite Hrun. now apply finish_job_break.
  - intros Hst Hf. rewrite Hrun. apply finish_job_return.
    eapply poll_loop_completed_no_url; eassumption.
  - intros s Hst Hin. rewrite Hrun. apply finish_job_return.
    eapply poll_loop_terminal; [eassumption..|].
    unfold py_in_strs. apply existsb_exists. exists s. split; [exact Hin|].
    simpl. apply String.eqb_refl.
Qed.

Lemma poll_terminal_cases_witness :
  let job := JStr "abc" in
  let start w := at_first_poll "key" Samples.pdf "es" "small" w Samples.queued in
  let wa := Samples.world [NetResponse Samples.queued; NetResponse Samples.completed] in
  let wb := Samples.world [NetResponse Samples.queued;
                           NetResponse Samples.completed_no_url] in
  let wc := Samples.world [NetResponse Samples.queued; NetResponse Samples.failed] in
  run_at_download "key" Samples.pdf "es" "small" Samples.out wa (JStr "https://cdn/x.pdf")
    (extend (polled "key" job 0 (start wa) Samples.completed) 0
       [EvLog INFO (MsgCurrentStatus job (JStr "completed"));
        EvLog INFO (MsgCompleted job (JStr "https://cdn/x.pdf"))])
  /\ translate_pdf "key" Samples.pdf "es" "small" Samples.out wb
     = (Returned false,
        extend (polled "key" job 0 (start wb) Samples.completed_no_url) 0
          [EvLog INFO (MsgCurrentStatus job (JStr "completed"));
           EvLog ERROR MsgNoDownloadUrl])
  /\ translate_pdf "key" Samples.pdf "es" "small" Samples.out wc
     = (Returned false,
        extend (polled "key" job 0 (start wc) Samples.failed) 0
          [EvLog INFO (MsgCurrentStatus job (JStr "failed"));
           EvLog ERROR (MsgJobEnded job (JStr "failed") (JStr "boom"))]).
Proof.
  intros job start wa wb wc.
  split; [|split].
  - refine (proj2 (proj1
      (poll_terminal_cases "key" Samples.pdf "es" "small" Samples.out wa job 0
         (map Z.of_nat (seq 1 59)) JNull (start wa)
         {[ "status" := JStr "completed"; "download_url" := JStr "https://cdn/x.pdf" ]}
         (Some 200) (polled "key" job 0 (start wa) Samples.completed) _ _)
      (JStr "https://cdn/x.pdf") _ _ _)).
    + vm_compute. reflexivity.
    + vm_compute. reflexivity.
    + vm_compute. reflexivity.
    + vm_compute. reflexivity.
    + reflexivity.
  - refine (proj1 (proj2
      (poll_terminal_cases "key" Samples.pdf "es" "small" Samples.out wb job 0
         (map Z.of_nat (seq 1 59)) JNull (start wb)
         {[ "status" := JStr "completed" ]}
         (Some 200) (polled "key" job 0 (start wb) Samples.completed_no_url) _ _)) _ _).
    + vm_compute. reflexivity.
    + vm_compute. reflexivity.
    + vm_compute. reflexivity.
    + vm_compute. reflexivity.
  - refine (eq_trans (proj2 (proj2
      (poll_terminal_cases "key" Samples.pdf "es" "small" Samples.out wc job 0
         (map Z.of_nat (seq 1 59)) JNull (start wc)
         {[ "status" := JStr "failed"; "error_message" := JStr "boom" ]}
         (Some 200) (polled "key" job 0 (start wc) Samples.failed) _ _)) "failed" _ _) _).
    + vm_compute. reflexivity.
    + vm_compute. reflexivity.
    + vm_compute. reflexivity.
    + simpl. tauto.
    + vm_compute. reflexivity.
Defined.

(** C8, as amended.  In the download step of [translate_pdf], a timeout
    or any other transport error, and any response with a 4xx or 5xx
    status, makes the function log the failure and return [False];
    nothing is written. *)
Theorem download_failures api_key pdf_path target_lang tier output_path w0
    download_url w :
  run_at_download api_key pdf_path target_lang tier output_path w0 download_url w ->
  py_truthy download_url = true ->
  (forall e,
      net w (calls w) = NetFails e ->
      translate_pdf api_key pdf_path target_lang tier output_path w0
      = (Returned false,
         extend w 1 [EvLog INFO (MsgStep3 download_url);
                     EvHttp (download_request download_url);
                     EvLog ERROR (match e with
                                  | NetTimeout => MsgDownloadTimedOut download_url
                                  | _ => MsgDownloadFailed download_url
                                  end)]))
  /\ (forall r,
         net w (calls w) = NetResponse r ->
         400 <= status_code r < 600 ->
         translate_pdf api_key pdf_path target_lang tier output_path w0
         = (Returned false,
            extend w 1 [EvLog INFO (MsgStep3 download_url);
                        EvHttp (download_request download_url);
                        EvLog ERROR (MsgDownloadFailed download_url)])).
Proof.
  intros Hrun Ht. split.
  - intros e Hnet. rewrite Hrun. now apply download_transport_error.
  - intros r Hnet Hc. rewrite Hrun. apply (download_http_error _ _ _ r); auto.
    unfold http_error. lia.
Qed.

Lemma download_failures_witness :
  let job := JStr "abc" in
  let url := JStr "https://cdn/x.pdf" in
  let at_download w :=
    extend (polled "key" job 0
              (at_first_poll "key" Samples.pdf "es" "small" w Samples.queued)
              Samples.completed) 0
      [EvLog INFO (MsgCurrentStatus job (JStr "completed"));
       EvLog INFO (MsgCompleted job url)] in
  let wa := Samples.world [NetResponse Samples.queued; NetResponse Samples.completed;
                           NetFails NetTimeout] in
  let wb := Samples.world [NetResponse Samples.queued; NetResponse Samples.completed;
                           NetResponse (Samples.file_response 404 [])] in
  translate_pdf "key" Samples.pdf "es" "small" Samples.out wa
  = (Returned false,
     extend (at_download wa) 1
       [EvLog INFO (MsgStep3 url); EvHttp (download_request url);
        EvLog ERROR (MsgDownloadTimedOut url)])
  /\ translate_pdf "key" Samples.pdf "es" "small" Samples.out wb
     = (Returned false,
        extend (at_download wb) 1
          [EvLog INFO (MsgStep3 url); EvHttp (download_request url);
           EvLog ERROR (MsgDownloadFailed url)]).
Proof.
  intros job url at_download wa wb. split.
  - refine (proj1 (download_failures "key" Samples.pdf "es" "small" Samples.out wa
                     url (at_download wa) _ _) NetTimeout _).
    + vm_compute. reflexivity.
    + reflexivity.
    + vm_compute. reflexivity.
  - refine (proj2 (download_failures "key" Samples.pdf "es" "small" Samples.out wb
                     url (at_download wb) _ _) (Samples.file_response 404 []) _ _).
    + vm_compute. reflexivity.
    + reflexivity.
    + vm_compute. reflexivity.
    + simpl. lia.
Defined.

(** C8, the claim as stated fails: a download answered with status 304,
    which is not a 2xx, is not escalated; its body is written to the
    output path and [translate_pdf] returns [True]. *)
Lemma download_304_saved :
  let w := Samples.world [NetResponse Samples.queued; NetResponse Samples.completed;
                          NetResponse (Samples.file_response 304 [])] in
  let run := translate_pdf "key" Samples.pdf "es" "small" Samples.out w in
  fst run = Returned true /\ fs (snd run) !! Samples.out = Some [].
Proof. split; vm_compute; reflexivity. Qed.

Lemma pending_response_inv r :
  pending_response r = true ->
  exists m, parsed_body r = JObj m /\ m <> ∅
            /\ helper_result r = (JObj m, Some (status_code r))
            /\ non_terminal (default JNull (m !! "status")) = true.
Proof.
  unfold pending_response, helper_result. intros H.
  apply andb_true_iff in H as [H Hnt].
  apply andb_true_iff in H as [H Hobj].
  apply andb_true_iff in H as [H401 H5xx].
  apply negb_true_iff in H401, H5xx. rewrite H401, H5xx.
  destruct (parsed_body r) as [| | | | |m]; try discriminate.
  exists m. repeat split; try assumption.
  intros ->. rewrite bool_decide_eq_true_2 in Hobj by reflexivity. discriminate.
Qed.

(** One pending poll, answered at the first attempt. *)
Lemma poll_loop_pending_response api_key job_id i rest current w r :
  net w (calls w) = NetResponse r ->
  pending_response r = true ->
  poll_loop api_key job_id (i :: rest) current w
  = poll_loop api_key job_id rest (get_or_null (parsed_body r) "status")
      (extend w 1 (poll_round_events api_key job_id i r)).
Proof.
  intros Hnet Hp.
  destruct (pending_response_inv _ Hp) as (m & Hbody & Hne & Hres & Hnt).
  assert (Hpoll : poll_request api_key job_id
                    (extend w 0 [EvLog INFO (MsgPollingAttempt (i + 1) max_polls)])
                  = (Returned (JObj m, Some (status_code r)), polled api_key job_id i w r)).
  { rewrite <- Hres. apply poll_request_response; [exact Hnet|].
    right; right. now rewrite Hbody. }
  rewrite (poll_loop_pending _ _ _ _ _ _ _ _ _ Hpoll Hne Hnt).
  rewrite Hbody. simpl get_or_null. f_equal.
  unfold polled, poll_round_events. rewrite Hbody. simpl get_or_null. same_world.
Qed.

(** ** What a [True] from [translate_pdf] implies *)

Lemma submission_accepted_true status_code init_response w w' :
  submission_accepted status_code init_response w = (Returned true, w') ->
  accepted_response status_code init_response = true /\ w' = w
  /\ exists m, init_response = JObj m.
Proof.
  unfold submission_accepted, accepted_response.
  destruct (bool_decide (status_code = Some 202) || bool_decide (status_code = Some 200));
    [|discriminate].
  destruct (py_truthy init_response) eqn:Ht; [|discriminate].
  destruct init_response as [| | | | |m]; try (simpl; discriminate).
  simpl get_or_null. unfold py_get, py_get_default. run.
  destruct (py_truthy (default JNull (m !! "job_id"))); [|discriminate].
  run. intros H. injection H as H <-. rewrite H. repeat split. now exists m.
Qed.

Lemma default_null_str (o : option json) s :
  py_eq_str (default JNull o) s = true -> o = Some (JStr s).
Proof.
  destruct o as [[| | |t| |]|]; simpl; try discriminate.
  intros H. apply String.eqb_eq in H. now subst.
Qed.

Lemma default_null_truthy (o : option json) :
  py_truthy (default JNull o) = true -> o = Some (default JNull o).
Proof. destruct o; [reflexivity | discriminate]. Qed.

(** How the polling loop can be left: a [return] is always of [False];
    a [break] carries the truthy [download_url] of a poll whose status
    was ["completed"]. *)
Lemma poll_loop_exit api_key job_id indices :
  forall current w exit w',
    poll_loop api_key job_id indices current w = (Returned exit, w') ->
    match exit with
    | LoopReturn b => b = false
    | LoopBreak url =>
        py_truthy url = true
        /\ exists i m code wa wb,
            poll_request api_key job_id
              (extend wa 0 [EvLog INFO (MsgPollingAttempt (i + 1) max_polls)])
            = (Returned (JObj m, code), wb)
            /\ m !! "status" = Some (JStr "completed")
            /\ m !! "download_url" = Some url
            /\ w' = extend wb 0 [EvLog INFO (MsgCurrentStatus job_id (JStr "completed"));
                                 EvLog INFO (MsgCompleted job_id url)]
    end.
Proof.
  induction indices as [|i rest IH]; intros current w exit w' H.
  - cbn [poll_loop] in H. revert H. run. intros H. injection H as <- _. reflexivity.
  - destruct (poll_request api_key job_id
                (extend w 0 [EvLog INFO (MsgPollingAttempt (i + 1) max_polls)]))
      as [[[body code]|e] w1] eqn:Hpoll.
    2:{ cbn [poll_loop] in H. revert H. run. unfold poll_request in Hpoll.
        rewrite Hpoll. discriminate. }
    rewrite (poll_loop_polled _ _ _ _ _ _ _ _ _ Hpoll) in H. cbv zeta in H.
    destruct (py_truthy body) eqn:Ht.
    2:{ revert H. change (negb false) with true. cbv iota. run.
        intros H. injection H as <- _. reflexivity. }
    change (negb true) with false in H. cbv iota in H.
    destruct body as [| | | | |m]; try (revert H; simpl; discriminate).
    revert H. unfold py_get, py_get_default. run.
    destruct (py_eq_str (default JNull (m !! "status")) "completed") eqn:Hc.
    { run. destruct (py_truthy (default JNull (m !! "download_url"))) eqn:Hu.
      - change (negb true) with false. cbv iota. run. rewrite extend_extend.
        intros H. injection H as <- <-.
        split; [exact Hu|].
        exists i, m, code, w, w1. repeat split.
        + exact Hpoll.
        + now apply default_null_str.
        + now apply default_null_truthy.
        + apply default_null_str in Hc. rewrite Hc. reflexivity.
      - change (negb false) with true. cbv iota. run.
        intros H. injection H as <- _. reflexivity. }
    destruct (py_in_strs (default JNull (m !! "status")) terminal_failures).
    { run. intros H. injection H as <- _. reflexivity. }
    destruct (i <? max_polls - 1); run; intros H; apply IH in H; exact H.
Qed.

(** A pending body: the loop goes on to its next iteration. *)
Lemma pending_body_inv body :
  pending_body body = true ->
  exists m, body = JObj m /\ m <> ∅
            /\ non_terminal (default JNull (m !! "status")) = true.
Proof.
  destruct body as [| | | | |m]; try discriminate.
  cbn [pending_body get_or_null]. intros H. apply andb_true_iff in H as [Ht Hnt].
  exists m. repeat split; [|exact Hnt].
  intros ->. simpl in Ht. rewrite bool_decide_eq_true_2 in Ht by reflexivity.
  discriminate.
Qed.

Lemma poll_loop_goes_on api_key job_id i rest current w body code w1 :
  poll_request api_key job_id
    (extend w 0 [EvLog INFO (MsgPollingAttempt (i + 1) max_polls)])
  = (Returned (body, code), w1) ->
  pending_body body = true ->
  poll_loop api_key job_id (i :: rest) current w
  = poll_loop api_key job_id rest (get_or_null body "status") (next_round job_id i body w1).
Proof.
  intros Hpoll Hp. destruct (pending_body_inv _ Hp) as (m & -> & Hne & Hnt).
  rewrite (poll_loop_pending _ _ _ _ _ _ _ _ _ Hpoll Hne Hnt). reflexivity.
Qed.

(** Pending polls, one after the other, use up their indices. *)
Lemma poll_loop_after_polls api_key job_id indices rest :
  forall current w,
    all_pending api_key job_id indices w = true ->
    poll_loop api_key job_id (indices ++ rest) current w
    = poll_loop api_key job_id rest
        (fst (after_polls api_key job_id indices current w))
        (snd (after_polls api_key job_id indices current w)).
Proof.
  induction indices as [|i indices IH]; intros current w Hall; [reflexivity|].
  cbn [all_pending after_polls] in *. rewrite <- app_comm_cons.
  destruct (poll_request api_key job_id
              (extend w 0 [EvLog INFO (MsgPollingAttempt (i + 1) max_polls)]))
    as [[[body code]|e] w1] eqn:Hpoll; [|discriminate].
  apply andb_true_iff in Hall as [Hp Hall].
  rewrite (poll_loop_goes_on _ _ _ _ _ _ _ _ _ Hpoll Hp). now apply IH.
Qed.

(** A [break] of the polling loop: after some pending polls, a poll of
    this loop returned an object with status ["completed"] and a truthy
    [download_url], and the loop was left with that URL. *)
Lemma poll_loop_breaks api_key job_id indices :
  forall current w url w',
    poll_loop api_key job_id indices current w = (Returned (LoopBreak url), w') ->
    exists pending i rest m code wb,
      indices = pending ++ i :: rest
      /\ all_pending api_key job_id pending w = true
      /\ poll_request api_key job_id
            (extend (snd (after_polls api_key job_id pending current w)) 0
                    [EvLog INFO (MsgPollingAttempt (i + 1) max_polls)])
          = (Returned (JObj m, code), wb)
      /\ m !! "status" = Some (JStr "completed")
      /\ m !! "download_url" = Some url
      /\ py_truthy url = true
      /\ w' = extend wb 0 [EvLog INFO (MsgCurrentStatus job_id (JStr "completed"));
                           EvLog INFO (MsgCompleted job_id url)].
Proof.
  induction indices as [|i rest IH]; intros current w url w' H.
  - cbn [poll_loop] in H. revert H. run. discriminate.
  - destruct (poll_request api_key job_id
                (extend w 0 [EvLog INFO (MsgPollingAttempt (i + 1) max_polls)]))
      as [[[body code]|e] w1] eqn:Hpoll.
    2:{ cbn [poll_loop] in H. revert H. run. unfold poll_request in Hpoll.
        rewrite Hpoll. discriminate. }
    destruct (pending_body body) eqn:Hp.
    + rewrite (poll_loop_goes_on _ _ _ _ _ _ _ _ _ Hpoll Hp) in H.
      apply IH in H
        as (pending & j & rest' & m & code' & wb & -> & Hall & Hpr & Hs & Hu & Ht & ->).
      exists (i :: pending), j, rest', m, code', wb.
      cbn [all_pending after_polls]. rewrite Hpoll, Hp.
      repeat split; assumption.
    + rewrite (poll_loop_polled _ _ _ _ _ _ _ _ _ Hpoll) in H. cbv zeta in H.
      destruct (py_truthy body) eqn:Ht.
      2:{ revert H. change (negb false) with true. cbv iota. run. discriminate. }
      change (negb true) with false in H. cbv iota in H.
      destruct body as [| | | | |m]; try (revert H; simpl; discriminate).
      revert H. unfold py_get, py_get_default. run.
      destruct (py_eq_str (default JNull (m !! "status")) "completed") eqn:Hc.
      { run. destruct (py_truthy (default JNull (m !! "download_url"))) eqn:Hu.
        - change (negb true) with false. cbv iota. run. rewrite extend_extend.
          intros H. injection H as <- <-.
          exists [], i, rest, m, code, w1. cbn [all_pending after_polls snd app].
          repeat split.
          + exact Hpoll.
          + now apply default_null_str.
          + now apply default_null_truthy.
          + exact Hu.
          + apply default_null_str in Hc. rewrite Hc. reflexivity.
        - change (negb false) with true. cbv iota. run. discriminate. }
      destruct (py_in_strs (default JNull (m !! "status")) terminal_failures) eqn:Hf.
      { run. discriminate. }
      cbn [pending_body get_or_null] in Hp. unfold non_terminal in Hp.
      rewrite Ht, Hc, Hf in Hp. discriminate.
Qed.

(** The download step returns [True] only after a response that is not
    a 4xx or 5xx, whose body it has written to the output path. *)
Lemma download_true download_url output_path w w' :
  download download_url output_path w = (Returned true, w') ->
  py_truthy download_url = true
  /\ exists r,
      net w (calls w) = NetResponse r /\ http_error r = false
      /\ w' = extend (saved (extend w 1 [EvLog INFO (MsgStep3 download_url);
                                         EvHttp (download_request download_url)])
                            output_path (resp_content r))
                     0 [EvLog INFO (MsgDownloaded output_path)].
Proof.
  intros H. destruct (py_truthy download_url) eqn:Ht.
  2:{ unfold download in H. rewrite Ht in H. revert H. run. discriminate. }
  split; [reflexivity|].
  destruct (net w (calls w)) as [r|e] eqn:Hnet.
  - destruct (http_error r) eqn:Herr.
    + rewrite (download_http_error _ _ _ r) in H by assumption. discriminate.
    + rewrite (download_saved _ _ _ r) in H by assumption.
      injection H as <-. exists r. repeat split; auto.
  - rewrite (download_transport_error _ _ _ e) in H by assumption. discriminate.
Qed.

Lemma translate_pdf_missing api_key pdf_path target_lang tier output_path w :
  fs w !! pdf_path = None ->
  translate_pdf api_key pdf_path target_lang tier output_path w
  = (Returned false,
     extend w 0 [EvLog INFO MsgStarting;
                 EvLog INFO (MsgPdfInfo (path_name pdf_path) target_lang tier);
                 EvLog ERROR (MsgInputNotFound pdf_path)]).
Proof.
  intros Hno. unfold translate_pdf. run. unfold path_exists at 1. simpl fs.
  rewrite bool_decide_eq_false_2
    by (change (~ is_Some (fs w !! pdf_path)); rewrite Hno; intros [x Hx]; discriminate).
  change (negb false) with true. cbv beta iota. run. same_world.
Qed.

Lemma translate_pdf_submit_raised api_key pdf_path target_lang tier output_path w e w1 :
  is_Some (fs w !! pdf_path) ->
  submit_request api_key pdf_path target_lang tier
                 (extend w 0 (start_events pdf_path target_lang tier))
  = (Raised e, w1) ->
  translate_pdf api_key pdf_path target_lang tier output_path w = (Raised e, w1).
Proof.
  intros Hex Hsub. unfold translate_pdf.
  run. unfold path_exists at 1. simpl fs.
  rewrite bool_decide_eq_true_2 by exact Hex.
  change (negb true) with false. cbv beta iota.
  unfold submit. run. rewrite !extend_extend.
  unfold submit_request, start_events in Hsub.
  change (make_api_request api_key "POST" (EpTranslate tier)
            (Some [("file", path_name pdf_path)])
            (Some [("target_lang", target_lang)]) None default_attempt
            default_max_attempts
            (extend w 0
               [EvLog INFO MsgStarting;
                EvLog INFO (MsgPdfInfo (path_name pdf_path) target_lang tier);
                EvLog INFO MsgStep1])
          = (Raised e, w1)) in Hsub.
  simpl Nat.add. simpl app. rewrite Hsub. reflexivity.
Qed.

(** A [True] from [translate_pdf]: the submission was accepted, the
    polling loop was left by [break], and a download response that is
    not an HTTP error was written to the output path. *)
Lemma translate_pdf_true api_key pdf_path target_lang tier output_path w w' :
  translate_pdf api_key pdf_path target_lang tier output_path w = (Returned true, w') ->
  exists init_response status_code w1 url w2 r,
    submit_request api_key pdf_path target_lang tier
                   (extend w 0 (start_events pdf_path target_lang tier))
    = (Returned (init_response, status_code), w1)
    /\ accepted_response status_code init_response = true
    /\ poll_loop api_key (get_or_null init_response "job_id") (py_range max_polls) JNull
         (extend w1 0
            [EvLog INFO (MsgJobInitiated (get_or_null init_response "job_id")
                                         (get_or_null init_response "status"));
             EvLog INFO (MsgStep2 (get_or_null init_response "job_id"))])
       = (Returned (LoopBreak url), w2)
    /\ net w2 (calls w2) = NetResponse r
    /\ http_error r = false
    /\ w' = extend (saved (extend w2 1 [EvLog INFO (MsgStep3 url);
                                        EvHttp (download_request url)])
                          output_path (resp_content r))
                   0 [EvLog INFO (MsgDownloaded output_path)].
Proof.
  intros H.
  destruct (fs w !! pdf_path) as [content|] eqn:Hpdf.
  2:{ rewrite translate_pdf_missing in H by exact Hpdf. discriminate. }
  assert (Hex : is_Some (fs w !! pdf_path)) by (rewrite Hpdf; eauto).
  destruct (submit_request api_key pdf_path target_lang tier
              (extend w 0 (start_events pdf_path target_lang tier)))
    as [[[init_response status_code]|e] w1] eqn:Hsub.
  2:{ rewrite (translate_pdf_submit_raised _ _ _ _ _ _ _ _ Hex Hsub) in H. discriminate. }
  pose proof H as H0.
  rewrite (translate_pdf_submitted _ _ _ _ _ _ _ _ _ Hex Hsub) in H.
  rewrite run_bind in H.
  destruct (submission_accepted status_code init_response w1) as [[[|]|e] w1'] eqn:Hacc.
  - apply submission_accepted_true in Hacc as (Hacc & -> & m & ->).
    clear H.
    pose proof (translate_pdf_accepted _ _ _ _ output_path _ _ _ _ Hex Hsub Hacc) as Hrun.
    unfold run_at_poll in Hrun. rewrite Hrun in H0. unfold finish_job in H0.
    rewrite run_bind in H0.
    match type of H0 with
    | context [poll_loop ?k ?j ?idx ?c ?wp] =>
        destruct (poll_loop k j idx c wp) as [[[url|b]|e] w2] eqn:Hloop
    end.
    + apply download_true in H0 as (_ & r & Hnet & Herr & ->).
      exists (JObj m), status_code, w1, url, w2, r. repeat split; assumption.
    + apply poll_loop_exit in Hloop. subst b. discriminate.
    + discriminate.
  - revert H. run. discriminate.
  - discriminate.
Qed.

(** The end-to-end scenario of the specification, for any bytes [B]
    and any file system that holds the input document. *)
Lemma translate_pdf_scenario api_key pdf_path target_lang tier output_path B files :
  is_Some (files !! pdf_path) ->
  let w := mkWorld (Samples.script [NetResponse Samples.queued;
                                    NetResponse Samples.processing;
                                    NetResponse Samples.completed;
                                    NetResponse (Samples.file_response 200 B)])
                   0 files [] in
  fst (translate_pdf api_key pdf_path target_lang tier output_path w) = Returned true
  /\ fs (snd (translate_pdf api_key pdf_path target_lang tier output_path w))
     = <[output_path := B]> files.
Proof.
  intros Hex w.
  assert (Hsub : submit_request api_key pdf_path target_lang tier
                   (extend w 0 (start_events pdf_path target_lang tier))
                 = (Returned (helper_result Samples.queued),
                    extend (extend w 0 (start_events pdf_path target_lang tier)) 1
                      (exchange_events api_key "POST" (EpTranslate tier)
                         (Some [("file", path_name pdf_path)])
                         (Some [("target_lang", target_lang)]) None
                         default_attempt default_max_attempts Samples.queued))).
  { apply make_api_request_response; [reflexivity | right; left; reflexivity]. }
  pose proof (translate_pdf_accepted api_key pdf_path target_lang tier output_path w
                _ _ _ Hex Hsub eq_refl) as Hrun.
  unfold run_at_poll in Hrun. rewrite Hrun. clear Hrun Hsub.
  change (py_range max_polls) with (0 :: 1 :: map Z.of_nat (seq 2 58)).
  erewrite finish_job_next; cycle 1.
  { apply (poll_loop_pending_response _ _ _ _ _ _ Samples.processing); reflexivity. }
  erewrite finish_job_break; cycle 1.
  { eapply (poll_loop_completed _ _ _ _ _ _
              {[ "status" := JStr "completed";
                 "download_url" := JStr "https://cdn/x.pdf" ]} (Some 200)).
    - match goal with
      | |- poll_request _ _ (extend ?wp 0 _) = _ =>
          apply (poll_request_response api_key _ 1 wp Samples.completed);
            [reflexivity | right; left; reflexivity]
      end.
    - vm_compute. reflexivity.
    - vm_compute. reflexivity.
    - reflexivity. }
  erewrite (download_saved _ _ _ (Samples.file_response 200 B));
    [split; reflexivity | reflexivity | reflexivity | reflexivity].
Qed.

(** ** Witnesses for the request helper *)

Lemma make_api_request_timeout_witness :
  let w := Samples.world [NetFails NetTimeout; NetFails NetTimeout; NetFails NetTimeout] in
  let poll := make_api_request "key" "GET" (EpStatus (JStr "abc")) None None None in
  let timed_out N :=
    extend w 1 (request_events "GET" (EpStatus (JStr "abc")) None None None N 3
                ++ [EvHttp (build_request "key" "GET" (EpStatus (JStr "abc"))
                                          None None None);
                    EvLog ERROR MsgTimedOut]) in
  poll 1 3 w = poll 2 3 (extend (timed_out 1) 0 [EvLog INFO (MsgRetrying 5); EvSleep 5])
  /\ poll 3 3 w = (Returned (JNull, None), timed_out 3).
Proof.
  intros w poll timed_out. split.
  - apply (proj1 (make_api_request_timeout "key" "GET" (EpStatus (JStr "abc"))
                    None None None 1 w eq_refl)).
    reflexivity.
  - apply (proj2 (make_api_request_timeout "key" "GET" (EpStatus (JStr "abc"))
                    None None None 3 w eq_refl)).
    reflexivity.
Defined.

Lemma make_api_request_client_error_raises_witness :
  fst (make_api_request "key" "POST" (EpTranslate "small")
         (Some [("file", "example.pdf")]) (Some [("target_lang", "fr")]) None 1 3
         (Samples.world [NetResponse Samples.forbidden_text]))
  = Raised ExAttributeError.
Proof.
  apply (make_api_request_client_error_raises "key" "POST" (EpTranslate "small")
           (Some [("file", "example.pdf")]) (Some [("target_lang", "fr")]) None 1 3
           (Samples.world [NetResponse Samples.forbidden_text]) Samples.forbidden_text).
  - reflexivity.
  - reflexivity.
  - simpl. lia.
  - reflexivity.
  - reflexivity.
Defined.

(** ** The batch driver *)

Lemma app_defines_translate_pdf :
  app_globals !! "translate_pdf" = Some (ObjFunction "translate_pdf").
Proof. vm_compute. reflexivity. Qed.

Lemma app_lacks_supported_languages :
  app_globals !! "SUPPORTED_TARGET_LANGUAGES" = None.
Proof. vm_compute. reflexivity. Qed.

(** Line 7 of the batch script raises before anything else is done. *)
Lemma main_raises csv_dict_reader args w :
  Batch.main csv_dict_reader args w
  = (Raised (ExImportError "SUPPORTED_TARGET_LANGUAGES" "app"), w).
Proof.
  unfold Batch.main. rewrite run_bind. unfold from_import at 1.
  rewrite app_defines_translate_pdf, run_ret, run_bind.
  unfold from_import. rewrite app_lacks_supported_languages. reflexivity.
Qed.

(** C2. Module [app] binds no [SUPPORTED_TARGET_LANGUAGES], so every
    run of the batch script ends at the [from app import] of its line 7
    with an ImportError, the world untouched: no validation, no log
    line of the driver, no exchange with the network. *)
Theorem batch_script_import_error csv_dict_reader args w :
  app_globals !! "SUPPORTED_TARGET_LANGUAGES" = None
  /\ Batch.main csv_dict_reader args w
     = (Raised (ExImportError "SUPPORTED_TARGET_LANGUAGES" "app"), w).
Proof. split; [exact app_lacks_supported_languages | apply main_raises]. Qed.

(** C3. The batch script on a CSV with the languages [es] and [fr]: it
    raises the ImportError of line 7; [translate_pdf] is run for neither
    language and the run does not complete. *)
Theorem batch_es_fr_not_attempted :
  Batch.main Samples.es_fr Samples.batch_args Samples.batch_world
  = (Raised (ExImportError "SUPPORTED_TARGET_LANGUAGES" "app"), Samples.batch_world)
  /\ trace (snd (Batch.main Samples.es_fr Samples.batch_args Samples.batch_world)) = [].
Proof.
  rewrite main_raises. split; reflexivity.
Qed.

(** The body of [run_batch_translation_test] itself, had the name been
    bound to a list: on the same scenario both languages are attempted
    in order, the failure of [fr] is logged, and the run completes. *)
Lemma run_batch_es_fr_with_binding :
  let run := run_batch_translation_test Samples.es_fr (ObjStrList ["es"; "fr"; "de"])
               (Some "key") Samples.pdf "small" Samples.output_dir Samples.csv
               Samples.batch_world in
  fst run = Returned tt
  /\ List.filter (fun e => match e with
                      | EvLog _ (MsgTestingLanguage _) | EvLog _ (MsgLangSuccess _ _)
                      | EvLog _ (MsgLangFailed _) | EvLog _ (MsgBatchFinished) => true
                      | _ => false
                      end) (trace (snd run))
     = [EvLog INFO (MsgTestingLanguage "es");
        EvLog INFO (MsgLangSuccess "es"
                      (path_join Samples.output_dir "translated_example_es.pdf"));
        EvLog INFO (MsgTestingLanguage "fr");
        EvLog ERROR (MsgLangFailed "fr");
        EvLog INFO MsgBatchFinished].
Proof. split; vm_compute; reflexivity. Qed.

(** The loop of lines 55-82, once [SUPPORTED_TARGET_LANGUAGES] is bound
    to a list: it never raises, and runs [translate_pdf] once for each
    language, in order, a failure or an exception for one language
    being logged before the next is taken up. *)
Lemma language_loop_sweeps supported api_key input_pdf tier output_dir_base langs :
  forall w,
    language_loop (ObjStrList supported) api_key input_pdf tier output_dir_base langs w
    = (Returned tt, sweep supported api_key input_pdf tier output_dir_base langs w).
Proof.
  induction langs as [|lang_code rest IH]; intros w.
  - reflexivity.
  - cbn [language_loop]. unfold sweep. cbn [fold_left].
    fold (sweep supported api_key input_pdf tier output_dir_base rest).
    unfold after_language, py_contains.
    fold (output_pdf_path output_dir_base input_pdf lang_code).
    run.
    assert (Hpre : (if negb (existsb (String.eqb lang_code) supported)
                    then log WARNING (MsgNotSupported lang_code) else mret ())
                     (extend w 0 [EvLog INFO (MsgTestingLanguage lang_code)])
                   = (Returned tt,
                      extend w 0 ([EvLog INFO (MsgTestingLanguage lang_code)]
                                  ++ (if existsb (String.eqb lang_code) supported then []
                                      else [EvLog WARNING (MsgNotSupported lang_code)])))).
    { destruct (existsb (String.eqb lang_code) supported); cbn [negb]; run;
        [|same_world]. rewrite app_nil_r. reflexivity. }
    rewrite Hpre. clear Hpre.
    unfold try_except. run.
    match goal with
    | |- context [translate_pdf ?k ?p ?l ?t ?o ?w0] =>
        destruct (translate_pdf k p l t o w0) as [[[|]|e] w1] eqn:Erun
    end;
      cbn [fst snd outcome_event]; run; rewrite ?extend_extend; apply IH.
Qed.

(** * Resources, frames and further properties *)

Import Cli Frame.

(** ** Composing bounds *)

Lemma within_weaken {A} (P P' : Event -> Prop) (E E' : PyExn -> Prop) (R R' : A -> Prop)
    n n' (m : M A) :
  (forall e, P e -> P' e) -> (forall e, E e -> E' e) -> (forall a, R a -> R' a) ->
  (n <= n')%nat ->
  within P E R n m -> within P' E' R' n' m.
Proof.
  intros HP HE HR Hn H w. destruct (H w) as (k & evs & Hw & Hk & Hevs & Hr).
  exists k, evs. repeat split; [assumption | lia | |].
  - eapply Forall_impl; eauto.
  - destruct (fst (m w)); auto.
Qed.

Lemma within_ret {A} P E (R : A -> Prop) a : R a -> within P E R 0 (mret a).
Proof.
  intros Ha w. exists 0%nat, []. rewrite run_ret. simpl.
  repeat split; auto. now rewrite extend_nil.
Qed.

Lemma within_lift {A} P E (R : A -> Prop) (r : PyResult A) :
  match r with Returned a => R a | Raised e => E e end -> within P E R 0 (lift r).
Proof.
  intros Hr w. exists 0%nat, []. rewrite run_lift. simpl.
  repeat split; auto. now rewrite extend_nil.
Qed.

Lemma within_raise {A} P (E : PyExn -> Prop) (R : A -> Prop) e :
  E e -> within P E R 0 (raise e).
Proof.
  intros He w. exists 0%nat, []. unfold raise. simpl.
  repeat split; auto. now rewrite extend_nil.
Qed.

Lemma within_log (P : Event -> Prop) E (R : unit -> Prop) lvl msg :
  P (EvLog lvl msg) -> R tt -> within P E R 0 (log lvl msg).
Proof.
  intros HP HR w. exists 0%nat, [EvLog lvl msg]. rewrite run_log. simpl.
  repeat split; auto.
Qed.

Lemma within_sleep (P : Event -> Prop) E (R : unit -> Prop) s :
  P (EvSleep s) -> R tt -> within P E R 0 (sleep s).
Proof.
  intros HP HR w. exists 0%nat, [EvSleep s]. rewrite run_sleep. simpl.
  repeat split; auto.
Qed.

Lemma within_http (P : Event -> Prop) (E : PyExn -> Prop) (R : Response -> Prop) req :
  P (EvHttp req) -> (forall r, R r) -> (forall e, E (exn_of_net e)) ->
  within P E R 1 (http req).
Proof.
  intros HP HR HE w. exists 1%nat, [EvHttp req]. unfold http.
  destruct (net w (calls w)); simpl; repeat split; auto.
Qed.

Lemma within_path_exists P E (R : bool -> Prop) p :
  (forall b, R b) -> within P E R 0 (path_exists p).
Proof.
  intros HR w. exists 0%nat, []. unfold path_exists. simpl.
  repeat split; auto. now rewrite extend_nil.
Qed.

Lemma within_bind {A B} P E (R1 : A -> Prop) (R2 : B -> Prop) n n'
    (m : M A) (k : A -> M B) :
  within P E R1 n m -> (forall a, R1 a -> within P E R2 n' (k a)) ->
  within P E R2 (n + n') (m ≫= k).
Proof.
  intros Hm Hk w. rewrite run_bind.
  destruct (Hm w) as (k1 & evs1 & Hw1 & Hk1 & Hevs1 & Hr1).
  destruct (m w) as [[a|e] w1]; simpl in Hw1, Hr1; subst w1.
  - destruct (Hk a Hr1 (extend w k1 evs1)) as (k2 & evs2 & Hw2 & Hk2 & Hevs2 & Hr2).
    exists (k2 + k1)%nat, (evs1 ++ evs2). rewrite Hw2, extend_extend.
    repeat split; [lia | now apply Forall_app | exact Hr2].
  - exists k1, evs1. simpl. repeat split; [lia | assumption | assumption].
Qed.

Lemma within_try {A} P (Eb E : PyExn -> Prop) (R : A -> Prop) n n'
    (body : M A) (handler : PyExn -> option (M A)) :
  within P Eb R n body ->
  (forall e, Eb e -> match handler e with
                     | Some h => within P E R n' h
                     | None => E e
                     end) ->
  within P E R (n + n') (try_except body handler).
Proof.
  intros Hb Hh w. unfold try_except.
  destruct (Hb w) as (k1 & evs1 & Hw1 & Hk1 & Hevs1 & Hr1).
  destruct (body w) as [[a|e] w1]; simpl in Hw1, Hr1; subst w1.
  - exists k1, evs1. simpl. repeat split; [lia | assumption | assumption].
  - specialize (Hh e Hr1). destruct (handler e) as [h|].
    + destruct (Hh (extend w k1 evs1)) as (k2 & evs2 & Hw2 & Hk2 & Hevs2 & Hr2).
      exists (k2 + k1)%nat, (evs1 ++ evs2). rewrite Hw2, extend_extend.
      repeat split; [lia | now apply Forall_app | exact Hr2].
    + exists k1, evs1. simpl. repeat split; [lia | assumption | assumption].
Qed.

Lemma within_if {A} P E (R : A -> Prop) n (b : bool) (m1 m2 : M A) :
  within P E R n m1 -> within P E R n m2 -> within P E R n (if b then m1 else m2).
Proof. destruct b; auto. Qed.

Lemma within_ret_le {A} P E (R : A -> Prop) n a : R a -> within P E R n (mret a).
Proof.
  intros Ha. apply (within_weaken P P E E R R 0 n); auto; [lia|]. now apply within_ret.
Qed.

(** ** The request helper: bounds, exceptions, results *)

Ltac wbind n1 n2 R1 := apply (within_bind _ _ R1 _ n1 n2).
Ltac wlog := apply within_log; [exact I | exact I].

Lemma error_message_within P body r :
  within P attempt_exn (fun _ : json => True) 0 (error_message body r).
Proof.
  unfold error_message. destruct (py_truthy body).
  - apply within_lift. unfold py_get, py_get_default.
    destruct body; try exact I; unfold attempt_exn; tauto.
  - now apply within_ret.
Qed.

(** One attempt, for any set [P] of events that holds the lines of the
    helper and its request. *)
Lemma attempt_request_events (P : Event -> Prop) req :
  (forall lvl msg, helper_msg msg -> P (EvLog lvl msg)) ->
  P (EvHttp req) ->
  within P attempt_exn attempt_value 1 (attempt_request req).
Proof.
  intros Hlog Hreq.
  unfold attempt_request.
  wbind 1%nat 0%nat (fun _ : Response => True).
  { apply within_http; [exact Hreq | auto |].
    intros []; unfold attempt_exn; simpl; tauto. }
  intros response _.
  wbind 0%nat 0%nat (fun _ : unit => True);
    [apply within_log; [apply Hlog; exact I | exact I]|]. intros _ _.
  wbind 0%nat 0%nat (fun _ : json => True).
  { destruct (resp_json response).
    - wbind 0%nat 0%nat (fun _ : unit => True);
        [apply within_log; [apply Hlog; exact I | exact I]|].
      intros _ _. now apply within_ret.
    - wbind 0%nat 0%nat (fun _ : unit => True);
        [apply within_log; [apply Hlog; exact I | exact I]|].
      intros _ _. now apply within_ret. }
  intros response_json _.
  assert (Hleaf : forall (mk : json -> LogMsg),
             (forall x, helper_msg (mk x)) ->
             ~ (500 <= status_code response < 600) -> status_code response <> 401 ->
             within P attempt_exn attempt_value 0
               (message ← error_message response_json response;
                log ERROR (mk message);;
                mret (response_json, Some (status_code response)))).
  { intros mk Hmk H5 H401.
    wbind 0%nat 0%nat (fun _ : json => True); [apply error_message_within|].
    intros message _.
    wbind 0%nat 0%nat (fun _ : unit => True);
      [apply within_log; [apply Hlog; apply Hmk | exact I]|]. intros _ _.
    apply within_ret. exists (status_code response). simpl. tauto. }
  destruct (Z.eqb_spec (status_code response) 401) as [E401|N401].
  { wbind 0%nat 0%nat (fun _ : unit => True);
      [apply within_log; [apply Hlog; exact I | exact I]|]. intros _ _.
    apply within_ret. exists (status_code response). simpl.
    repeat split; auto. lia. }
  destruct (Z.eqb_spec (status_code response) 403) as [E403|N403].
  { apply Hleaf; [intros; exact I | lia | lia]. }
  destruct (Z.eqb_spec (status_code response) 429) as [E429|N429].
  { apply Hleaf; [intros; exact I | lia | lia]. }
  destruct ((400 <=? status_code response) && (status_code response <? 500)
            && negb (existsb (Z.eqb (status_code response)) [401; 403; 429])) eqn:E4.
  { apply Hleaf; [intros; exact I | lia | lia]. }
  unfold raise_for_status.
  destruct ((400 <=? status_code response) && (status_code response <? 600)) eqn:E45.
  - wbind 0%nat 0%nat (fun _ : unit => False).
    + apply within_raise. unfold attempt_exn. tauto.
    + intros _ [].
  - wbind 0%nat 0%nat (fun _ : unit => True); [now apply within_ret|].
    intros _ _. apply within_ret. exists (status_code response). simpl.
    split; [reflexivity|]. split; [lia | intros; contradiction].
Qed.

Lemma log_request_events (P : Event -> Prop) E method endpoint files data params
    attempt max_attempts :
  (forall lvl msg, helper_msg msg -> P (EvLog lvl msg)) ->
  within P E (fun _ : unit => True) 0
    (log_request method endpoint files data params attempt max_attempts).
Proof.
  intros Hlog. unfold log_request.
  wbind 0%nat 0%nat (fun _ : unit => True);
    [apply within_log; [apply Hlog; exact I | exact I]|]. intros _ _.
  wbind 0%nat 0%nat (fun _ : unit => True).
  { destruct (arg_truthy data);
      [apply within_log; [apply Hlog; exact I | exact I] | now apply within_ret]. }
  intros _ _.
  wbind 0%nat 0%nat (fun _ : unit => True).
  { destruct (arg_truthy files);
      [apply within_log; [apply Hlog; exact I | exact I] | now apply within_ret]. }
  intros _ _.
  destruct (arg_truthy params);
    [apply within_log; [apply Hlog; exact I | exact I] | now apply within_ret].
Qed.

(** The [except] clauses of the helper, the retry being within bounds. *)
Lemma on_exception_events (P : Event -> Prop) attempt max_attempts n
    (retry : M (json * option Z)) e :
  (forall lvl msg, helper_msg msg -> P (EvLog lvl msg)) ->
  (attempt < max_attempts -> P (EvSleep (5 * attempt))) ->
  (attempt < max_attempts -> within P only_attribute_error helper_value n retry) ->
  attempt_exn e ->
  match on_exception attempt max_attempts retry e with
  | Some h => within P only_attribute_error helper_value n h
  | None => only_attribute_error e
  end.
Proof.
  intros Hlog Hsleep Hretry He. unfold on_exception.
  assert (Hnone : within P only_attribute_error helper_value n
                         (mret (JNull, None) : M (json * option Z))).
  { apply within_ret_le. reflexivity. }
  assert (Hline : forall msg, helper_msg msg ->
                              within P only_attribute_error helper_value n
                                     (log ERROR msg;; mret (JNull, None))).
  { intros msg Hmsg. replace n with (0 + n)%nat by lia.
    wbind 0%nat n (fun _ : unit => True);
      [apply within_log; [now apply Hlog | exact I] | intros _ _; exact Hnone]. }
  destruct He as [-> | [-> | [-> | [-> | ->]]]]; try reflexivity;
    try (apply Hline; exact I).
  replace n with (0 + (0 + (0 + n)))%nat by lia.
  wbind 0%nat (0 + (0 + n))%nat (fun _ : unit => True);
    [apply within_log; [apply Hlog; exact I | exact I]|]. intros _ _.
  destruct (Z.ltb_spec attempt max_attempts) as [Hlt|Hge];
    [|apply within_ret_le; reflexivity].
  wbind 0%nat (0 + n)%nat (fun _ : unit => True);
    [apply within_log; [apply Hlog; exact I | exact I]|]. intros _ _.
  wbind 0%nat n (fun _ : unit => True).
  - apply within_sleep; [now apply Hsleep | exact I].
  - intros _ _. now apply Hretry.
Qed.

(** Every call of the helper, for any set [P] of events that holds its
    lines, its request and its back-offs: at most one exchange per
    attempt left; no file touched; no exception but AttributeError. *)
Lemma make_api_request_rec_events (P : Event -> Prop) api_key method endpoint files data
    params max_attempts remaining :
  (forall lvl msg, helper_msg msg -> P (EvLog lvl msg)) ->
  P (EvHttp (build_request api_key method endpoint files data params)) ->
  forall attempt,
    (forall k, attempt <= k < max_attempts -> P (EvSleep (5 * k))) ->
    within P only_attribute_error helper_value (S remaining)
           (make_api_request_rec remaining api_key method endpoint files data params
                                 attempt max_attempts).
Proof.
  intros Hlog Hreq.
  assert (Hbody : within P attempt_exn helper_value 1
                    (attempt_request (build_request api_key method endpoint files
                                                    data params))).
  { eapply within_weaken; [| | | | apply attempt_request_events]; eauto.
    intros r (c & Hc & H5 & H401). unfold helper_value. rewrite Hc. tauto. }
  induction remaining as [|remaining IH]; intros attempt Hsleep;
    cbn [make_api_request_rec].
  - wbind 0%nat 1%nat (fun _ : unit => True); [now apply log_request_events|].
    intros _ _.
    apply (within_try _ attempt_exn _ _ 1 0); [exact Hbody|].
    intros e He. apply on_exception_events; auto.
    + intros Hlt. apply Hsleep. lia.
    + intros _. apply within_ret. reflexivity.
  - wbind 0%nat (S (S remaining)) (fun _ : unit => True);
      [now apply log_request_events|].
    intros _ _.
    apply (within_try _ attempt_exn _ _ 1 (S remaining)); [exact Hbody|].
    intros e He. apply on_exception_events; auto.
    + intros Hlt. apply Hsleep. lia.
    + intros _. apply IH. intros k Hk. apply Hsleep. lia.
Qed.

Lemma attempt_request_within req lo hi :
  within (helper_event req lo hi) attempt_exn attempt_value 1 (attempt_request req).
Proof. apply attempt_request_events; [intros; exact I | reflexivity]. Qed.

Lemma log_request_within P E method endpoint files data params attempt max_attempts :
  (forall lvl msg, P (EvLog lvl msg)) ->
  within P E (fun _ : unit => True) 0
    (log_request method endpoint files data params attempt max_attempts).
Proof. intros HP. apply log_request_events. intros; apply HP. Qed.

Lemma helper_event_widen req lo lo' hi e :
  lo <= lo' -> helper_event req lo' hi e -> helper_event req lo hi e.
Proof.
  intros Hlo. destruct e; simpl; auto.
  intros (k & Hk & ->). exists k. split; [lia | reflexivity].
Qed.

(** Every call of the helper: at most one exchange per attempt left,
    all for the same request record; sleeps of [5 * k] for the attempts
    [k] that timed out; no file touched; no exception but
    AttributeError. *)
Lemma make_api_request_rec_within api_key method endpoint files data params max_attempts
    remaining :
  forall attempt,
    within (helper_event (build_request api_key method endpoint files data params)
                         attempt max_attempts)
           only_attribute_error helper_value (S remaining)
           (make_api_request_rec remaining api_key method endpoint files data params
                                 attempt max_attempts).
Proof.
  intros attempt. apply make_api_request_rec_events.
  - intros; exact I.
  - reflexivity.
  - intros k Hk. exists k. split; [exact Hk | reflexivity].
Qed.

Lemma make_api_request_transport_error api_key method endpoint files data params
    attempt max_attempts w e :
  net w (calls w) = NetFails e ->
  e <> NetTimeout ->
  make_api_request api_key method endpoint files data params attempt max_attempts w
  = (Returned (JNull, None),
     extend w 1
       (request_events method endpoint files data params attempt max_attempts
        ++ [EvHttp (build_request api_key method endpoint files data params);
            EvLog ERROR (match e with
                         | NetConnectionError => MsgConnectionError
                         | _ => MsgUnexpectedRequestError
                         end)])).
Proof.
  intros Hnet Hne. rewrite (make_api_request_fails _ _ _ _ _ _ _ _ _ _ Hnet).
  destruct e; [contradiction| |]; unfold exn_of_net, on_exception; run; same_world.
Qed.


Lemma Forall_requests_of (P : Event -> Prop) (Q : Request -> Prop) evs :
  (forall r, P (EvHttp r) -> Q r) -> Forall P evs -> Forall Q (requests_of evs).
Proof.
  intros HPQ H. induction H as [|e evs He _ IH]; [constructor|].
  unfold requests_of in *. destruct e; simpl; auto.
Qed.

Lemma Forall_sleeps_of (P : Event -> Prop) (Q : Z -> Prop) evs :
  (forall s, P (EvSleep s) -> Q s) -> Forall P evs -> Forall Q (sleeps_of evs).
Proof.
  intros HPQ H. induction H as [|e evs He _ IH]; [constructor|].
  unfold sleeps_of in *. destruct e; simpl; auto.
Qed.

Lemma make_api_request_within api_key method endpoint files data params
    attempt max_attempts :
  within (helper_event (build_request api_key method endpoint files data params)
                       attempt max_attempts)
         only_attribute_error helper_value (S (Z.to_nat (max_attempts - attempt)))
         (make_api_request api_key method endpoint files data params attempt max_attempts).
Proof. apply make_api_request_rec_within. Qed.

(** With the defaults of the signature: three exchanges at most, sleeps
    of 5 or 10 seconds. *)
Lemma make_api_request_default_within api_key method endpoint files data params P :
  (forall lvl msg, P (EvLog lvl msg)) ->
  (forall s, s = 5 \/ s = 10 -> P (EvSleep s)) ->
  P (EvHttp (build_request api_key method endpoint files data params)) ->
  within P only_attribute_error helper_value 3
         (make_api_request api_key method endpoint files data params
                           default_attempt default_max_attempts).
Proof.
  intros Hlog Hsleep Hreq.
  eapply within_weaken; [| | | | apply make_api_request_within]; eauto.
  intros [lvl msg|s|r]; simpl.
  - auto.
  - intros (k & Hk & ->). apply Hsleep. unfold default_attempt, default_max_attempts in Hk.
    lia.
  - now intros ->.
Qed.

(** One attempt is one exchange, however it ends. *)
Lemma attempt_request_exchange req w :
  exists evs, snd (attempt_request req w) = extend w 1 evs.
Proof.
  destruct (net w (calls w)) as [r|e] eqn:Hnet.
  - rewrite (attempt_request_response req w r Hnet).
    match goal with
    | |- context [snd (?c (extend w 1 ?x))] =>
        assert (Hc : within (fun _ => True) (fun _ => True)
                            (fun _ : json * option Z => True) 0 c)
    end.
    { cbv zeta.
      assert (Hline : forall lvl msg (v : json * option Z),
                 within (fun _ => True) (fun _ => True)
                        (fun _ : json * option Z => True) 0 (log lvl msg;; mret v)).
      { intros lvl msg v. wbind 0%nat 0%nat (fun _ : unit => True); [wlog|].
        intros _ _. now apply within_ret. }
      assert (Hleaf : forall (mk : json -> LogMsg) (v : json * option Z),
                 within (fun _ => True) (fun _ => True)
                        (fun _ : json * option Z => True) 0
                        (message ← error_message (parsed_body r) r;
                         log ERROR (mk message);; mret v)).
      { intros mk v. wbind 0%nat 0%nat (fun _ : json => True).
        - apply (within_weaken (fun _ => True) _ attempt_exn _ (fun _ => True) _ 0 0);
            auto.
          apply error_message_within.
        - intros message _. apply Hline. }
      destruct (status_code r =? 401); [apply Hline|].
      destruct (status_code r =? 403); [apply Hleaf|].
      destruct (status_code r =? 429); [apply Hleaf|].
      destruct (_ && _); [apply Hleaf|].
      wbind 0%nat 0%nat (fun _ : unit => True); [|intros _ _; now apply within_ret].
      unfold raise_for_status. destruct (_ && _);
        [now apply within_raise | now apply within_ret]. }
    destruct (Hc (extend w 1 (response_events req r))) as (k & evs & Hs & Hk & _).
    rewrite Hs, extend_extend. replace k with 0%nat by lia.
    eexists. reflexivity.
  - unfold attempt_request. rewrite run_bind, (run_http_fails _ _ e Hnet).
    eexists. reflexivity.
Qed.

(** No call of the helper comes back without an exchange. *)
Lemma make_api_request_exchanged api_key method endpoint files data params
    attempt max_attempts w :
  (S (calls w)
   <= calls (snd (make_api_request api_key method endpoint files data params
                                   attempt max_attempts w)))%nat.
Proof.
  rewrite make_api_request_eq, run_bind, run_log_request.
  set (w1 := extend w 0 (request_events method endpoint files data params
                                        attempt max_attempts)).
  destruct (attempt_request_exchange
              (build_request api_key method endpoint files data params) w1)
    as [evs Hs].
  unfold try_except.
  destruct (attempt_request _ w1) as [[a|e] w2]; cbn [snd] in Hs; subst w2.
  - simpl. lia.
  - unfold on_exception. destruct e; try (simpl; lia); run; try (simpl; lia).
    destruct (attempt <? max_attempts); run; [|simpl; lia].
    match goal with
    | |- context [make_api_request ?k ?m ?e ?f ?d ?p ?a ?mx ?w'] =>
        destruct (make_api_request_within k m e f d p a mx w')
          as (n & evs' & Hs' & _)
    end.
    rewrite Hs'. simpl. lia.
Qed.

(** X1. For an attempt counter that is not negative, and whatever the
    network does, a call of [make_api_request] makes at least one
    exchange and at most one per attempt from [attempt] to
    [max_attempts] (one if none is left; three with the defaults).
    Every exchange is addressed alike: same method, URL, headers, form
    data, query parameters and timeouts (the file parts are left out:
    a retry does not send the bytes of the first attempt again).  The
    helper sleeps only [5 * k] seconds for an attempt [k] below
    [max_attempts], never a negative time, and it leaves the files as
    they were. *)
Theorem make_api_request_resources api_key method endpoint files data params
    attempt max_attempts w :
  0 <= attempt ->
  let run := make_api_request api_key method endpoint files data params
                              attempt max_attempts w in
  fs (snd run) = fs w
  /\ (S (calls w) <= calls (snd run) <= S (Z.to_nat (max_attempts - attempt)) + calls w)%nat
  /\ exists evs,
      trace (snd run) = trace w ++ evs
      /\ Forall (addressed_as api_key method endpoint data params) (requests_of evs)
      /\ Forall (fun s => 0 <= s /\ exists k, attempt <= k < max_attempts /\ s = 5 * k)
                (sleeps_of evs).
Proof.
  intros Hattempt run. subst run.
  pose proof (make_api_request_exchanged api_key method endpoint files data params
                attempt max_attempts w) as Hlow.
  destruct (make_api_request_within api_key method endpoint files data params
              attempt max_attempts w) as (k & evs & Hw & Hk & Hevs & _).
  rewrite Hw in *. split; [reflexivity|]. split; [simpl in *; lia|].
  exists evs. split; [reflexivity|]. split.
  - eapply Forall_requests_of; [|exact Hevs].
    intros r ->. repeat split.
  - eapply Forall_sleeps_of; [|exact Hevs].
    intros s (j & Hj & ->). split; [lia|]. now exists j.
Qed.

Lemma make_api_request_resources_witness :
  let w := Samples.world [NetFails NetTimeout; NetResponse Samples.processing] in
  let run := make_api_request "key" "GET" (EpStatus (JStr "abc")) None None None 1 3 w in
  calls (snd run) = 2%nat
  /\ (1 <= calls (snd run) <= 3)%nat
  /\ exists evs,
      trace (snd run) = trace w ++ evs
      /\ Forall (addressed_as "key" "GET" (EpStatus (JStr "abc")) None None)
                (requests_of evs)
      /\ Forall (fun s => 0 <= s /\ exists k, 1 <= k < 3 /\ s = 5 * k) (sleeps_of evs).
Proof.
  intros w run. split; [vm_compute; reflexivity|].
  destruct (make_api_request_resources "key" "GET" (EpStatus (JStr "abc"))
              None None None 1 3 w) as (_ & Hcalls & Hevs).
  - lia.
  - split; [exact Hcalls | exact Hevs].
Defined.



(** X3. A connection failure or any other transport exception that is
    not a timeout ends the call at once: [(None, None)] after that one
    exchange, with no sleep and no second attempt, whatever [attempt]
    and [max_attempts] are. *)
Theorem make_api_request_no_retry api_key method endpoint files data params
    attempt max_attempts w e :
  net w (calls w) = NetFails e ->
  e <> NetTimeout ->
  make_api_request api_key method endpoint files data params attempt max_attempts w
  = (Returned (JNull, None),
     extend w 1
       (request_events method endpoint files data params attempt max_attempts
        ++ [EvHttp (build_request api_key method endpoint files data params);
            EvLog ERROR (match e with
                         | NetConnectionError => MsgConnectionError
                         | _ => MsgUnexpectedRequestError
                         end)])).
Proof.
  intros Hnet Hne. now apply make_api_request_transport_error.
Qed.

Lemma make_api_request_no_retry_witness :
  make_api_request "key" "GET" (EpStatus (JStr "abc")) None None None 1 3
    (Samples.world [NetFails NetConnectionError; NetResponse Samples.processing])
  = (Returned (JNull, None),
     extend (Samples.world [NetFails NetConnectionError; NetResponse Samples.processing]) 1
       (request_events "GET" (EpStatus (JStr "abc")) None None None 1 3
        ++ [EvHttp (build_request "key" "GET" (EpStatus (JStr "abc")) None None None);
            EvLog ERROR MsgConnectionError])).
Proof.
  apply (make_api_request_no_retry "key" "GET" (EpStatus (JStr "abc")) None None None 1 3
           (Samples.world [NetFails NetConnectionError; NetResponse Samples.processing])
           NetConnectionError).
  - reflexivity.
  - discriminate.
Defined.

(** A timeout below [max_attempts]: the same call again, one attempt on. *)
Lemma make_api_request_retry api_key method endpoint files data params
    attempt max_attempts w :
  net w (calls w) = NetFails NetTimeout ->
  attempt < max_attempts ->
  make_api_request api_key method endpoint files data params attempt max_attempts w
  = make_api_request api_key method endpoint files data params (attempt + 1) max_attempts
      (extend w 1
         (request_events method endpoint files data params attempt max_attempts
          ++ [EvHttp (build_request api_key method endpoint files data params);
              EvLog ERROR MsgTimedOut; EvLog INFO (MsgRetrying (5 * attempt));
              EvSleep (5 * attempt)])).
Proof.
  intros Hnet Hlt. rewrite (make_api_request_fails _ _ _ _ _ _ _ _ _ _ Hnet).
  unfold exn_of_net, on_exception. run.
  destruct (Z.ltb_spec attempt max_attempts); [|lia]. run. f_equal. same_world.
Qed.

(** A timeout of the last attempt. *)
Lemma make_api_request_exhausted api_key method endpoint files data params
    attempt max_attempts w :
  net w (calls w) = NetFails NetTimeout ->
  max_attempts <= attempt ->
  make_api_request api_key method endpoint files data params attempt max_attempts w
  = (Returned (JNull, None),
     extend w 1
       (request_events method endpoint files data params attempt max_attempts
        ++ [EvHttp (build_request api_key method endpoint files data params);
            EvLog ERROR MsgTimedOut])).
Proof.
  intros Hnet Hge. rewrite (make_api_request_fails _ _ _ _ _ _ _ _ _ _ Hnet).
  unfold exn_of_net, on_exception. run.
  destruct (Z.ltb_spec attempt max_attempts); [lia|]. run. same_world.
Qed.

Lemma sleeps_of_app evs1 evs2 : sleeps_of (evs1 ++ evs2) = sleeps_of evs1 ++ sleeps_of evs2.
Proof. unfold sleeps_of. apply omap_app. Qed.

Lemma sleeps_of_request_events method endpoint files data params attempt max_attempts :
  sleeps_of (request_events method endpoint files data params attempt max_attempts) = [].
Proof.
  unfold request_events.
  destruct (arg_truthy data), (arg_truthy files), (arg_truthy params); reflexivity.
Qed.

(** X4. With the defaults, three timeouts in a row give [(None, None)]
    after exactly three exchanges, the helper having slept 5 and then
    10 seconds. *)
Theorem make_api_request_gives_up api_key method endpoint files data params w :
  net w (calls w) = NetFails NetTimeout ->
  net w (S (calls w)) = NetFails NetTimeout ->
  net w (S (S (calls w))) = NetFails NetTimeout ->
  let run := make_api_request api_key method endpoint files data params
                              default_attempt default_max_attempts w in
  fst run = Returned (JNull, None)
  /\ calls (snd run) = (3 + calls w)%nat
  /\ exists evs, trace (snd run) = trace w ++ evs /\ sleeps_of evs = [5; 10].
Proof.
  intros H1 H2 H3 run. subst run. unfold default_attempt, default_max_attempts.
  rewrite make_api_request_retry by (assumption || lia).
  rewrite make_api_request_retry by (assumption || lia).
  rewrite make_api_request_exhausted by (assumption || lia).
  rewrite !extend_extend.
  split; [reflexivity|]. split; [reflexivity|].
  eexists. split; [reflexivity|].
  rewrite !sleeps_of_app, !sleeps_of_request_events. reflexivity.
Qed.

Lemma make_api_request_gives_up_witness :
  let w := Samples.world [NetFails NetTimeout; NetFails NetTimeout; NetFails NetTimeout;
                          NetResponse Samples.queued] in
  let run := make_api_request "key" "POST" (EpTranslate "small")
               (Some [("file", "example.pdf")]) (Some [("target_lang", "es")]) None 1 3 w in
  fst run = Returned (JNull, None)
  /\ calls (snd run) = 3%nat
  /\ exists evs, trace (snd run) = trace w ++ evs /\ sleeps_of evs = [5; 10].
Proof.
  intros w.
  apply (make_api_request_gives_up "key" "POST" (EpTranslate "small")
           (Some [("file", "example.pdf")]) (Some [("target_lang", "es")]) None w);
    reflexivity.
Defined.

(** X5. A timeout of the first attempt followed by an answer: the call
    returns what it would have returned for that answer at once, after
    two exchanges and one sleep of 5 seconds. *)
Theorem make_api_request_recovers api_key method endpoint files data params w r :
  net w (calls w) = NetFails NetTimeout ->
  net w (S (calls w)) = NetResponse r ->
  (status_code r = 401 \/ client_error (status_code r) = false
   \/ dict_or_falsy (parsed_body r) = true) ->
  let run := make_api_request api_key method endpoint files data params
                              default_attempt default_max_attempts w in
  fst run = Returned (helper_result r)
  /\ calls (snd run) = (2 + calls w)%nat
  /\ exists evs, trace (snd run) = trace w ++ evs /\ sleeps_of evs = [5].
Proof.
  intros H1 H2 Hok run. subst run. unfold default_attempt, default_max_attempts.
  rewrite make_api_request_retry by (assumption || lia).
  rewrite (make_api_request_response _ _ _ _ _ _ _ _ _ r) by assumption.
  rewrite !extend_extend.
  split; [reflexivity|]. split; [reflexivity|].
  eexists. split; [reflexivity|].
  unfold exchange_events, response_events, classification_events.
  rewrite !sleeps_of_app, !sleeps_of_request_events.
  destruct (resp_json r); destruct (status_code r =? 401); destruct (status_code r =? 403);
    destruct (status_code r =? 429); destruct (client_error (status_code r));
    destruct (server_error (status_code r)); reflexivity.
Qed.

Lemma make_api_request_recovers_witness :
  let w := Samples.world [NetFails NetTimeout; NetResponse Samples.processing] in
  let run := make_api_request "key" "GET" (EpStatus (JStr "abc")) None None None 1 3 w in
  fst run = Returned (helper_result Samples.processing)
  /\ calls (snd run) = 2%nat
  /\ exists evs, trace (snd run) = trace w ++ evs /\ sleeps_of evs = [5].
Proof.
  intros w.
  apply (make_api_request_recovers "key" "GET" (EpStatus (JStr "abc")) None None None w
           Samples.processing); [reflexivity | reflexivity | right; left; reflexivity].
Defined.

(** X6. For a 401 and for every status that is not a 4xx, the outcome
    of the call depends on the status alone, whatever JSON the body is:
    [(None, 401)] for a 401, [(None, None)] for a 5xx, and the parsed
    body ([None] when it is not JSON) with the status otherwise; one
    exchange, no retry, no exception. *)
Theorem make_api_request_by_status api_key method endpoint files data params
    attempt max_attempts w r :
  net w (calls w) = NetResponse r ->
  status_code r = 401 \/ ~ (400 <= status_code r < 500) ->
  let run := make_api_request api_key method endpoint files data params
                              attempt max_attempts w in
  fst run = Returned (if status_code r =? 401 then (JNull, Some 401)
                      else if (500 <=? status_code r) && (status_code r <? 600)
                           then (JNull, None)
                           else (default JNull (resp_json r), Some (status_code r)))
  /\ calls (snd run) = S (calls w)
  /\ exists evs, trace (snd run) = trace w ++ evs /\ sleeps_of evs = [].
Proof.
  intros Hnet Hst run. subst run.
  rewrite (make_api_request_response _ _ _ _ _ _ _ _ _ r); [|exact Hnet|].
  2:{ destruct Hst as [H|H]; [now left | right; left; unfold client_error; lia]. }
  split; [reflexivity|]. split; [reflexivity|].
  eexists. split; [reflexivity|].
  unfold exchange_events, response_events, classification_events.
  rewrite !sleeps_of_app, !sleeps_of_request_events.
  destruct (resp_json r); destruct (status_code r =? 401); destruct (status_code r =? 403);
    destruct (status_code r =? 429); destruct (client_error (status_code r));
    destruct (server_error (status_code r)); reflexivity.
Qed.

Lemma make_api_request_by_status_witness :
  let w := Samples.world [NetResponse (Samples.answers 503 (JArr [JNum 1]))] in
  let run := make_api_request "key" "GET" (EpStatus (JStr "abc")) None None None 1 3 w in
  fst run = Returned (JNull, None) /\ calls (snd run) = 1%nat
  /\ exists evs, trace (snd run) = trace w ++ evs /\ sleeps_of evs = [].
Proof.
  intros w.
  apply (make_api_request_by_status "key" "GET" (EpStatus (JStr "abc")) None None None 1 3
           w (Samples.answers 503 (JArr [JNum 1]))); [reflexivity | right; simpl; lia].
Defined.

(** ** The job driver: bounds, files, exceptions *)

Lemma py_get_default_within P (R : json -> Prop) v k d :
  (forall x, R x) ->
  within P only_attribute_error R 0 (lift (py_get_default v k d)).
Proof.
  intros HR. apply within_lift. unfold py_get_default.
  destruct v; auto; reflexivity.
Qed.

Lemma job_event_log api_key pdf_path target_lang tier lvl msg :
  job_event api_key pdf_path target_lang tier (EvLog lvl msg).
Proof. exact I. Qed.

Lemma poll_request_within api_key pdf_path target_lang tier job_id :
  within (job_event api_key pdf_path target_lang tier) only_attribute_error
         (fun _ => True) 3
         (make_api_request api_key "GET" (EpStatus job_id) None None None
                           default_attempt default_max_attempts).
Proof.
  eapply (within_weaken _ _ _ _ helper_value _ 3 3);
    [intros e He; exact He | intros e He; exact He | intros; exact I | lia |].
  apply make_api_request_default_within.
  - intros; exact I.
  - intros s Hs. exact Hs.
  - simpl. right. left. now exists job_id.
Qed.

Lemma poll_loop_within api_key pdf_path target_lang tier job_id indices :
  forall current,
    within (job_event api_key pdf_path target_lang tier) only_attribute_error
           (fun _ : LoopExit => True) (3 * length indices)
           (poll_loop api_key job_id indices current).
Proof.
  induction indices as [|i rest IH]; intros current; cbn [poll_loop length].
  - wbind 0%nat 0%nat (fun _ : unit => True); [wlog|]. intros _ _. now apply within_ret.
  - replace (3 * S (length rest))%nat with (0 + (3 + 3 * length rest))%nat by lia.
    wbind 0%nat (3 + 3 * length rest)%nat (fun _ : unit => True); [wlog|]. intros _ _.
    wbind 3%nat (3 * length rest)%nat (fun _ : json * option Z => True);
      [apply poll_request_within|].
    intros r _. cbv zeta.
    assert (Hstop : forall lvl msg b,
               within (job_event api_key pdf_path target_lang tier) only_attribute_error
                      (fun _ : LoopExit => True) (3 * length rest)
                      (log lvl msg;; mret b)).
    { intros lvl msg b.
      replace (3 * length rest)%nat with (0 + 3 * length rest)%nat by lia.
      wbind 0%nat (3 * length rest)%nat (fun _ : unit => True); [wlog|]. intros _ _.
      now apply within_ret_le. }
    destruct (negb (py_truthy (fst r))); [apply Hstop|].
    replace (3 * length rest)%nat with (0 + 3 * length rest)%nat by lia.
    wbind 0%nat (3 * length rest)%nat (fun _ : json => True);
      [now apply py_get_default_within|].
    intros current_api_status _.
    replace (3 * length rest)%nat with (0 + 3 * length rest)%nat by lia.
    wbind 0%nat (3 * length rest)%nat (fun _ : unit => True); [wlog|]. intros _ _.
    destruct (py_eq_str current_api_status "completed").
    { replace (3 * length rest)%nat with (0 + 3 * length rest)%nat by lia.
      wbind 0%nat (3 * length rest)%nat (fun _ : json => True);
        [now apply py_get_default_within|].
      intros download_url _.
      destruct (negb (py_truthy download_url)); apply Hstop. }
    destruct (py_in_strs current_api_status terminal_failures).
    { replace (3 * length rest)%nat with (0 + 3 * length rest)%nat by lia.
      wbind 0%nat (3 * length rest)%nat (fun _ : json => True);
        [now apply py_get_default_within|].
      intros error_msg _. apply Hstop. }
    replace (3 * length rest)%nat with (0 + 3 * length rest)%nat by lia.
    wbind 0%nat (3 * length rest)%nat (fun _ : unit => True); [|intros _ _; apply IH].
    destruct (i <? max_polls - 1); [|now apply within_ret].
    wbind 0%nat 0%nat (fun _ : unit => True); [wlog|]. intros _ _.
    apply within_sleep; [left; reflexivity | exact I].
Qed.

Lemma within_saving_of_within out P E n (m : M bool) :
  within P E (fun b => b = false) n m -> within_saving out P E n m.
Proof.
  intros H w. destruct (H w) as (k & evs & Hw & Hk & Hevs & Hr).
  exists k, evs. split; [exact Hk|]. split; [exact Hevs|].
  destruct (fst (m w)) as [[|]|e]; [discriminate | exact Hw | now split].
Qed.

Lemma saved_extend w k evs out content :
  extend (saved w out content) k evs = saved (extend w k evs) out content.
Proof. reflexivity. Qed.

Lemma within_saving_bind {A} out P E (R1 : A -> Prop) n n' (m : M A) (k : A -> M bool) :
  within P E R1 n m -> (forall a, R1 a -> within_saving out P E n' (k a)) ->
  within_saving out P E (n + n') (m ≫= k).
Proof.
  intros Hm Hk w. rewrite run_bind.
  destruct (Hm w) as (k1 & evs1 & Hw1 & Hk1 & Hevs1 & Hr1).
  destruct (m w) as [[a|e] w1]; simpl in Hw1, Hr1; subst w1.
  - destruct (Hk a Hr1 (extend w k1 evs1)) as (k2 & evs2 & Hk2 & Hevs2 & Hr2).
    exists (k2 + k1)%nat, (evs1 ++ evs2).
    split; [lia|]. split; [now apply Forall_app|].
    destruct (fst (k a (extend w k1 evs1))) as [[|]|e].
    + destruct Hr2 as [content Hc]. exists content. now rewrite Hc, extend_extend.
    + now rewrite Hr2, extend_extend.
    + destruct Hr2 as [Hw2 He]. split; [now rewrite Hw2, extend_extend | exact He].
  - exists k1, evs1. split; [lia|]. split; [assumption|]. simpl. now split.
Qed.

Lemma download_within_saving api_key pdf_path target_lang tier download_url output_path :
  within_saving output_path (job_event api_key pdf_path target_lang tier)
                only_attribute_error 1 (download download_url output_path).
Proof.
  intros w.
  assert (Hevs : forall lvl msg,
             Forall (job_event api_key pdf_path target_lang tier)
                    [EvLog INFO (MsgStep3 download_url);
                     EvHttp (download_request download_url); EvLog lvl msg]).
  { intros lvl msg. constructor; [exact I|]. constructor.
    - right. right. now exists download_url.
    - constructor; [exact I | constructor]. }
  destruct (py_truthy download_url) eqn:Ht.
  2:{ exists 0%nat, [EvLog ERROR MsgNoUrlAvailable].
      split; [lia|]. split; [constructor; [exact I | constructor]|].
      unfold download. rewrite Ht. run. reflexivity. }
  destruct (net w (calls w)) as [r|e] eqn:Hnet.
  - destruct (http_error r) eqn:Herr.
    + rewrite (download_http_error _ _ _ r) by assumption.
      eexists 1%nat, _. split; [lia|]. split; [apply Hevs | reflexivity].
    + rewrite (download_saved _ _ _ r) by assumption.
      eexists 1%nat, _. split; [lia|]. split; [apply Hevs|].
      exists (resp_content r). simpl fst. simpl snd.
      rewrite saved_extend, extend_extend. reflexivity.
  - rewrite (download_transport_error _ _ _ e) by assumption.
    eexists 1%nat, _. split; [lia|]. split; [apply Hevs | reflexivity].
Qed.

Lemma finish_job_within_saving api_key pdf_path target_lang tier job_id output_path
    indices current :
  within_saving output_path (job_event api_key pdf_path target_lang tier)
                only_attribute_error (3 * length indices + 1)
                (finish_job api_key job_id output_path indices current).
Proof.
  unfold finish_job.
  apply (within_saving_bind _ _ _ (fun exit => match exit with
                                               | LoopReturn b => b = false
                                               | LoopBreak _ => True
                                               end)).
  - intros w.
    destruct (poll_loop_within api_key pdf_path target_lang tier job_id indices current w)
      as (k & evs & Hw & Hk & Hevs & Hr).
    exists k, evs. repeat split; try assumption.
    destruct (poll_loop api_key job_id indices current w) as [[exit|e] w'] eqn:Hl;
      [|exact Hr].
    simpl. pose proof (poll_loop_exit _ _ _ _ _ _ _ Hl) as He.
    destruct exit; [exact I | exact He].
  - intros [download_url|b] Hb.
    + apply download_within_saving.
    + subst b. apply within_saving_of_within.
      now apply within_ret_le.
Qed.

Lemma within_saving_le out P E n n' (m : M bool) :
  (n <= n')%nat -> within_saving out P E n m -> within_saving out P E n' m.
Proof.
  intros Hn H w. destruct (H w) as (k & evs & Hk & Hr).
  exists k, evs. split; [lia | exact Hr].
Qed.

Lemma submission_accepted_world status_code init_response w :
  snd (submission_accepted status_code init_response w) = w
  /\ forall e, fst (submission_accepted status_code init_response w) = Raised e ->
               e = ExAttributeError.
Proof.
  unfold submission_accepted.
  destruct (_ || _); [|split; [reflexivity | discriminate]].
  destruct (py_truthy init_response); [|split; [reflexivity | discriminate]].
  destruct init_response as [| | | | |m]; simpl;
    try (split; [reflexivity | now intros e [= <-]]).
  run. destruct (py_truthy _); run; split; try reflexivity; discriminate.
Qed.

Lemma submission_accepted_within P status_code init_response :
  within P only_attribute_error
         (fun b : bool => b = true ->
                          exists m j, init_response = JObj m /\ m !! "job_id" = Some j)
         0 (submission_accepted status_code init_response).
Proof.
  intros w. exists 0%nat, []. rewrite extend_nil.
  destruct (submission_accepted_world status_code init_response w) as [Hw He].
  split; [exact Hw|]. split; [lia|]. split; [constructor|].
  destruct (submission_accepted status_code init_response w) as [[b|e] w'] eqn:Hs.
  - simpl. intros ->.
    apply submission_accepted_true in Hs as (Hacc & _ & m & ->).
    unfold accepted_response in Hacc.
    apply andb_true_iff in Hacc as [Hacc _]. apply andb_true_iff in Hacc as [_ Hjob].
    simpl in Hjob. destruct (m !! "job_id") as [j|] eqn:Hj; [|discriminate].
    now exists m, j.
  - simpl. now apply He.
Qed.

Lemma length_py_range_max_polls : length (py_range max_polls) = 60%nat.
Proof. reflexivity. Qed.

(** Every run of [translate_pdf]: at most [job_exchanges] exchanges,
    only the events of a job, a file written at [output_path] with a
    [True] and no file touched otherwise, no exception but
    AttributeError. *)
Lemma translate_pdf_within_saving api_key pdf_path target_lang tier output_path :
  within_saving output_path (job_event api_key pdf_path target_lang tier)
                only_attribute_error job_exchanges
                (translate_pdf api_key pdf_path target_lang tier output_path).
Proof.
  pose (P := job_event api_key pdf_path target_lang tier).
  assert (Hfalse : forall lvl msg n,
             within_saving output_path P only_attribute_error n (log lvl msg;; mret false)).
  { intros lvl msg n. apply within_saving_of_within.
    replace n with (0 + n)%nat by lia.
    wbind 0%nat n (fun _ : unit => True); [wlog|]. intros _ _.
    now apply within_ret_le. }
  unfold translate_pdf.
  apply (within_saving_le _ _ _ (0 + (0 + (0 + (3 + (0 + (0 + (0 + (0 + (0 + 181))))))))));
    [unfold job_exchanges; lia|].
  apply (within_saving_bind _ _ _ (fun _ : unit => True) 0 _); [wlog|]. intros _ _.
  apply (within_saving_bind _ _ _ (fun _ : unit => True) 0 _); [wlog|]. intros _ _.
  apply (within_saving_bind _ _ _ (fun _ : bool => True) 0 _);
    [now apply within_path_exists|].
  intros found _. destruct (negb found); [apply Hfalse|].
  apply (within_saving_bind _ _ _ (fun _ : json * option Z => True) 3 _).
  { unfold submit. wbind 0%nat 3%nat (fun _ : unit => True); [wlog|]. intros _ _.
    eapply (within_weaken _ _ _ _ helper_value _ 3 3);
      [intros e He; exact He | intros e He; exact He | intros; exact I | lia |].
    apply make_api_request_default_within.
    - intros; exact I.
    - intros s Hs. exact Hs.
    - left. reflexivity. }
  intros r _. cbv zeta.
  eapply (within_saving_bind _ _ _ _ 0 _); [apply submission_accepted_within|].
  intros [|] Hacc; [|apply Hfalse].
  destruct (Hacc eq_refl) as (m & j & Hr & Hj). rewrite Hr.
  unfold py_getitem, py_get, py_get_default. rewrite Hj.
  apply (within_saving_bind _ _ _ (fun _ : json => True) 0 _); [now apply within_lift|].
  intros job_id _.
  apply (within_saving_bind _ _ _ (fun _ : json => True) 0 _); [now apply within_lift|].
  intros status _.
  apply (within_saving_bind _ _ _ (fun _ : unit => True) 0 _); [wlog|]. intros _ _.
  apply (within_saving_bind _ _ _ (fun _ : unit => True) 0 _); [wlog|]. intros _ _.
  apply (within_saving_le _ _ _ (3 * length (py_range max_polls) + 1));
    [rewrite length_py_range_max_polls; lia | apply finish_job_within_saving].
Qed.

(** X7. Whatever the service answers, one run of [translate_pdf] makes
    at most 184 exchanges: up to three attempts for the submission and
    for each of the 60 polls, and one download. *)
Theorem translate_pdf_exchanges api_key pdf_path target_lang tier output_path w :
  (calls (snd (translate_pdf api_key pdf_path target_lang tier output_path w))
   <= 184 + calls w)%nat.
Proof.
  destruct (translate_pdf_within_saving api_key pdf_path target_lang tier output_path w)
    as (k & evs & Hk & _ & Hr).
  unfold job_exchanges in Hk.
  destruct (fst _) as [[|]|e].
  - destruct Hr as [content ->]. simpl. lia.
  - rewrite Hr. simpl. lia.
  - destruct Hr as [-> _]. simpl. lia.
Qed.

(** X8. [translate_pdf] writes nothing unless it returns [True], and
    then it has written [output_path] and no other file. *)
Theorem translate_pdf_files api_key pdf_path target_lang tier output_path w :
  let run := translate_pdf api_key pdf_path target_lang tier output_path w in
  (fst run <> Returned true -> fs (snd run) = fs w)
  /\ (fst run = Returned true ->
      exists content, fs (snd run) = <[output_path := content]> (fs w))
  /\ (forall p, p <> output_path -> fs (snd run) !! p = fs w !! p).
Proof.
  intros run. subst run.
  destruct (translate_pdf_within_saving api_key pdf_path target_lang tier output_path w)
    as (k & evs & _ & _ & Hr).
  destruct (fst _) as [[|]|e].
  - destruct Hr as [content ->]. split; [congruence|]. split.
    + intros _. now exists content.
    + intros p Hp. simpl. now rewrite lookup_insert_ne.
  - rewrite Hr. split; [reflexivity|]. split; [discriminate | reflexivity].
  - destruct Hr as [-> _]. split; [reflexivity|]. split; [discriminate | reflexivity].
Qed.

(** X9. No exception of [requests], and no KeyError or TypeError, ever
    leaves [translate_pdf]: if it raises, it raises AttributeError. *)
Theorem translate_pdf_raises_only_attribute_error api_key pdf_path target_lang tier
    output_path w e :
  fst (translate_pdf api_key pdf_path target_lang tier output_path w) = Raised e ->
  e = ExAttributeError.
Proof.
  intros H.
  destruct (translate_pdf_within_saving api_key pdf_path target_lang tier output_path w)
    as (k & evs & _ & _ & Hr).
  rewrite H in Hr. apply Hr.
Qed.

(** X10. Every request of a run of [translate_pdf] is either a call of
    the API under [BASE_URL], with the two RapidAPI headers and the
    timeouts (10, 60), or a GET of a download URL with no header at all
    and the timeouts (10, 120): the API key is never sent along with
    the download.  Every sleep of the run is of 5 or 10 seconds. *)
Theorem translate_pdf_requests api_key pdf_path target_lang tier output_path w :
  exists evs,
    trace (snd (translate_pdf api_key pdf_path target_lang tier output_path w))
    = trace w ++ evs
    /\ Forall (fun r =>
                 match req_url r with
                 | UrlApi base _ =>
                     base = BASE_URL
                     /\ req_headers r = [("X-RapidAPI-Key", api_key);
                                         ("X-RapidAPI-Host", RAPIDAPI_HOST)]
                     /\ req_timeout r = (10, 60)
                 | UrlGiven _ =>
                     req_method r = "GET" /\ req_headers r = []
                     /\ req_timeout r = (10, 120)
                 end) (requests_of evs)
    /\ Forall (fun s => s = 5 \/ s = 10) (sleeps_of evs).
Proof.
  destruct (translate_pdf_within_saving api_key pdf_path target_lang tier output_path w)
    as (k & evs & _ & Hevs & Hr).
  exists evs. split; [|split].
  - destruct (fst _) as [[|]|e].
    + destruct Hr as [content ->]. reflexivity.
    + now rewrite Hr.
    + destruct Hr as [-> _]. reflexivity.
  - eapply Forall_requests_of; [|exact Hevs].
    intros r [-> | [[job ->] | [url ->]]]; simpl; auto.
  - eapply Forall_sleeps_of; [|exact Hevs]. auto.
Qed.

(** ** The polling loop while the job is pending *)

Lemma poll_request_events api_key job_id :
  within (status_request_event api_key job_id) only_attribute_error helper_value 3
         (poll_request api_key job_id).
Proof.
  unfold poll_request, make_api_request.
  change (Z.to_nat (default_max_attempts - default_attempt)) with 2%nat.
  apply make_api_request_rec_events.
  - intros lvl msg Hmsg. exact Hmsg.
  - reflexivity.
  - unfold default_attempt, default_max_attempts. intros k Hk. simpl. lia.
Qed.

Lemma status_request_polling_event api_key job_id e :
  status_request_event api_key job_id e -> polling_event api_key job_id e.
Proof. destruct e as [lvl msg|s|r]; [|auto..]. destruct msg; simpl; auto. Qed.

Lemma status_request_no_attempt api_key job_id evs :
  Forall (status_request_event api_key job_id) evs -> polling_attempts evs = [].
Proof.
  induction 1 as [|e evs He _ IH]; [reflexivity|].
  unfold polling_attempts in *. destruct e as [lvl msg|s|r]; simpl; [|exact IH..].
  destruct msg; simpl in He; try contradiction; exact IH.
Qed.

Lemma polling_attempts_app evs evs' :
  polling_attempts (evs ++ evs') = polling_attempts evs ++ polling_attempts evs'.
Proof. unfold polling_attempts. apply omap_app. Qed.

(** One poll of the loop: between one and three exchanges, all of them
    the status request; no file touched. *)
Lemma poll_request_round api_key job_id w :
  exists k evs,
    snd (poll_request api_key job_id w) = extend w k evs
    /\ (1 <= k <= 3)%nat
    /\ Forall (status_request_event api_key job_id) evs.
Proof.
  destruct (poll_request_events api_key job_id w) as (k & evs & Hs & Hk & Hevs & _).
  exists k, evs. split; [exact Hs|]. split; [|exact Hevs].
  pose proof (make_api_request_exchanged api_key "GET" (EpStatus job_id) None None None
                default_attempt default_max_attempts w) as Hlow.
  fold (poll_request api_key job_id) in Hlow. rewrite Hs in Hlow. simpl in Hlow. lia.
Qed.

(** Pending polls one after the other: one announcement for each, in
    order; one to three exchanges for each; no file touched. *)
Lemma after_polls_frame api_key job_id indices :
  forall current w,
    all_pending api_key job_id indices w = true ->
    exists k evs,
      snd (after_polls api_key job_id indices current w) = extend w k evs
      /\ (length indices <= k <= 3 * length indices)%nat
      /\ Forall (polling_event api_key job_id) evs
      /\ polling_attempts evs = map (fun i => i + 1) indices.
Proof.
  induction indices as [|i rest IH]; intros current w Hall.
  - exists 0%nat, []. cbn [after_polls snd length map]. rewrite extend_nil.
    repeat split; [lia | lia | constructor].
  - cbn [all_pending after_polls] in *.
    destruct (poll_request_round api_key job_id
                (extend w 0 [EvLog INFO (MsgPollingAttempt (i + 1) max_polls)]))
      as (k1 & evs1 & Hs1 & Hk1 & Hevs1).
    destruct (poll_request api_key job_id
                (extend w 0 [EvLog INFO (MsgPollingAttempt (i + 1) max_polls)]))
      as [[[body code]|e] w1]; [|discriminate].
    cbn [snd] in Hs1. subst w1.
    apply andb_true_iff in Hall as [Hp Hall].
    destruct (IH (get_or_null body "status") _ Hall) as (k2 & evs2 & Hs2 & Hk2 & Hevs2 & Hn2).
    rewrite Hs2. unfold next_round. rewrite !extend_extend.
    eexists _, _. split; [reflexivity|]. cbn [length map].
    split; [lia|]. split.
    + assert (Hevs1' : Forall (polling_event api_key job_id) evs1).
      { eapply Forall_impl; [exact Hevs1|]. apply status_request_polling_event. }
      rewrite !Forall_app. repeat split; try assumption.
      * constructor; [exact I | constructor].
      * constructor; [exact I | constructor].
      * destruct (i <? max_polls - 1); [|constructor].
        constructor; [exact I|]. constructor; [now left | constructor].
    + rewrite !polling_attempts_app, Hn2.
      rewrite (status_request_no_attempt _ _ _ Hevs1).
      destruct (i <? max_polls - 1); reflexivity.
Qed.

(** The last of them is the poll that leaves [current_api_status]. *)
Lemma after_polls_last api_key job_id i pending :
  forall current w,
    all_pending api_key job_id (pending ++ [i]) w = true ->
    exists body code wb,
      poll_request api_key job_id
        (extend (snd (after_polls api_key job_id pending current w)) 0
                [EvLog INFO (MsgPollingAttempt (i + 1) max_polls)])
      = (Returned (body, code), wb)
      /\ pending_body body = true
      /\ after_polls api_key job_id (pending ++ [i]) current w
         = (get_or_null body "status", next_round job_id i body wb).
Proof.
  induction pending as [|j pending IH]; intros current w Hall.
  - cbn [app all_pending after_polls snd] in *.
    destruct (poll_request api_key job_id
                (extend w 0 [EvLog INFO (MsgPollingAttempt (i + 1) max_polls)]))
      as [[[body code]|e] w1]; [|discriminate].
    apply andb_true_iff in Hall as [Hp _].
    exists body, code, w1. repeat split. exact Hp.
  - rewrite <- app_comm_cons in *. cbn [all_pending after_polls] in *.
    destruct (poll_request api_key job_id
                (extend w 0 [EvLog INFO (MsgPollingAttempt (j + 1) max_polls)]))
      as [[[body code]|e] w1]; [|discriminate].
    apply andb_true_iff in Hall as [_ Hall].
    now apply IH.
Qed.

(** C7. When every poll of the loop returns an object whose status is
    neither ["completed"] nor a terminal failure (with whatever status
    code, and whether the helper got it at its first exchange or after
    retried timeouts), [translate_pdf] polls exactly 60 times: the
    attempts 1 to 60 are announced and no other, between 60 and 180
    exchanges are made from the start of the loop, each of them the
    status request of the job, and after the 60th poll no exchange
    follows: the function returns [False] with a warning that carries
    the status returned by the 60th poll. *)
Theorem polling_budget api_key pdf_path target_lang tier output_path w0 job_id w :
  run_at_poll api_key pdf_path target_lang tier output_path w0 job_id
              (py_range max_polls) JNull w ->
  all_pending api_key job_id (py_range max_polls) w = true ->
  let run := translate_pdf api_key pdf_path target_lang tier output_path w0 in
  let last := after_polls api_key job_id (py_range max_polls) JNull w in
  run = (Returned false,
         extend (snd last) 0 [EvLog WARNING (MsgPollingFinished 60 (fst last))])
  /\ (exists body code wb,
         poll_request api_key job_id
           (extend (snd (after_polls api_key job_id (py_range 59) JNull w)) 0
                   [EvLog INFO (MsgPollingAttempt 60 max_polls)])
         = (Returned (body, code), wb)
         /\ pending_body body = true
         /\ last = (get_or_null body "status", next_round job_id 59 body wb))
  /\ (exists evs,
         trace (snd run) = trace w ++ evs
         /\ polling_attempts evs = map Z.of_nat (seq 1 60)
         /\ Forall (fun r => r = build_request api_key "GET" (EpStatus job_id)
                                   None None None) (requests_of evs)
         /\ Forall (fun s => s = 5 \/ s = 10) (sleeps_of evs))
  /\ (60 + calls w <= calls (snd run) <= 180 + calls w)%nat
  /\ fs (snd run) = fs w.
Proof.
  intros Hrun Hall run last. subst run last.
  assert (Heq : translate_pdf api_key pdf_path target_lang tier output_path w0
                = (Returned false,
                   extend (snd (after_polls api_key job_id (py_range max_polls) JNull w)) 0
                     [EvLog WARNING
                        (MsgPollingFinished 60
                           (fst (after_polls api_key job_id (py_range max_polls)
                                             JNull w)))])).
  { rewrite Hrun. apply finish_job_return.
    rewrite <- (app_nil_r (py_range max_polls)).
    rewrite (poll_loop_after_polls _ _ _ [] JNull w Hall).
    rewrite app_nil_r. cbn [poll_loop]. run. reflexivity. }
  split; [exact Heq|]. split.
  { change (py_range max_polls) with (py_range 59 ++ [59]) in Hall |- *.
    destruct (after_polls_last api_key job_id 59 (py_range 59) JNull w Hall)
      as (body & code & wb & Hpoll & Hp & Hlast).
    exists body, code, wb. repeat split; assumption. }
  rewrite Heq. cbn [snd].
  destruct (after_polls_frame api_key job_id (py_range max_polls) JNull w Hall)
    as (k & evs & Hs & Hk & Hevs & Hn).
  rewrite Hs. rewrite length_py_range_max_polls in Hk.
  split; [|split; [simpl; lia | reflexivity]].
  exists (evs ++ [EvLog WARNING
                    (MsgPollingFinished 60
                       (fst (after_polls api_key job_id (py_range max_polls) JNull w)))]).
  split; [simpl; now rewrite app_assoc|].
  split.
  { rewrite polling_attempts_app, Hn. cbn [polling_attempts omap]. rewrite app_nil_r.
    reflexivity. }
  unfold requests_of, sleeps_of. rewrite !omap_app. cbn [omap]. rewrite !app_nil_r.
  split.
  - eapply Forall_requests_of; [|exact Hevs].
    intros r Hr. exact Hr.
  - eapply Forall_sleeps_of; [|exact Hevs].
    intros s Hs'. exact Hs'.
Qed.

Lemma polling_budget_witness :
  let w0 := Samples.world_on Samples.never_done_slow in
  let run := translate_pdf "key" Samples.pdf "es" "small" Samples.out w0 in
  fst run = Returned false
  /\ calls (snd run) = 62%nat
  /\ (61 <= calls (snd run) <= 181)%nat.
Proof.
  intros w0 run.
  destruct (polling_budget "key" Samples.pdf "es" "small" Samples.out w0 (JStr "abc")
              (at_first_poll "key" Samples.pdf "es" "small" w0 Samples.queued))
    as (Hrun & _ & _ & Hcalls & _).
  - vm_compute. reflexivity.
  - vm_compute. reflexivity.
  - split; [unfold run; rewrite Hrun; reflexivity|].
    split; [vm_compute; reflexivity | exact Hcalls].
Defined.

(** ** What a [True] from [translate_pdf] says of the run *)

(** C1. [translate_pdf] returns a boolean, and [True] only when all
    three steps succeeded in that run: the submission made at the start
    of the run was accepted; the polling loop, started in the world the
    submission left, went through some pending polls and then made a
    poll that returned status ["completed"] with a (truthy) download
    URL; and the download made right after that poll was answered by a
    response that is not an HTTP error, whose body is what the run has
    written to the output path.  In the scenario of a 202 with
    [{job_id: "abc", status: "queued"}], a first poll with
    [{status: "processing"}], a second with
    [{status: "completed", download_url: "https://cdn/x.pdf"}] and a
    download answered 200 with bytes [B], it returns [True] and the
    output file holds exactly [B]. *)
Theorem translate_pdf_contract api_key pdf_path target_lang tier output_path :
  (forall w w',
      translate_pdf api_key pdf_path target_lang tier output_path w = (Returned true, w') ->
      exists init_response status_code w1 pending i rest m code wb url r,
        (* the submission is accepted *)
        submit_request api_key pdf_path target_lang tier
                       (extend w 0 (start_events pdf_path target_lang tier))
        = (Returned (init_response, status_code), w1)
        /\ accepted_response status_code init_response = true
        (* polling, started where the submission ended, reaches "completed"
           with a download URL *)
        /\ let job_id := get_or_null init_response "job_id" in
           let polling :=
             extend w1 0
               [EvLog INFO (MsgJobInitiated job_id (get_or_null init_response "status"));
                EvLog INFO (MsgStep2 job_id)] in
           py_range max_polls = pending ++ i :: rest
           /\ all_pending api_key job_id pending polling = true
           /\ poll_request api_key job_id
                 (extend (snd (after_polls api_key job_id pending JNull polling)) 0
                         [EvLog INFO (MsgPollingAttempt (i + 1) max_polls)])
               = (Returned (JObj m, code), wb)
           /\ m !! "status" = Some (JStr "completed")
           /\ m !! "download_url" = Some url
           /\ py_truthy url = true
           (* the download comes next, and the body of its response is what
              the output file holds *)
           /\ let w2 := extend wb 0 [EvLog INFO (MsgCurrentStatus job_id (JStr "completed"));
                                     EvLog INFO (MsgCompleted job_id url)] in
              net w2 (calls w2) = NetResponse r
              /\ http_error r = false
              /\ w' = extend (saved (extend w2 1 [EvLog INFO (MsgStep3 url);
                                                  EvHttp (download_request url)])
                                    output_path (resp_content r))
                             0 [EvLog INFO (MsgDownloaded output_path)]
              /\ fs w' = <[output_path := resp_content r]> (fs w))
  /\ (forall B files,
         is_Some (files !! pdf_path) ->
         let w := mkWorld (Samples.script [NetResponse Samples.queued;
                                           NetResponse Samples.processing;
                                           NetResponse Samples.completed;
                                           NetResponse (Samples.file_response 200 B)])
                          0 files [] in
         fst (translate_pdf api_key pdf_path target_lang tier output_path w) = Returned true
         /\ fs (snd (translate_pdf api_key pdf_path target_lang tier output_path w))
            = <[output_path := B]> files).
Proof.
  split.
  - intros w w' H.
    apply translate_pdf_true in H
      as (init_response & status_code & w1 & url & w2 & r
          & Hsub & Hacc & Hloop & Hnet & Herr & Hw').
    apply poll_loop_breaks in Hloop
      as (pending & i & rest & m & code & wb & Hidx & Hall & Hpoll & Hs & Hu & Ht & ->).
    exists init_response, status_code, w1, pending, i, rest, m, code, wb, url, r.
    split; [exact Hsub|]. split; [exact Hacc|]. cbv zeta.
    repeat (split; [assumption|]).
    assert (Hfs1 : fs w1 = fs w).
    { unfold submit_request in Hsub.
      match type of Hsub with
      | make_api_request ?k ?mt ?e ?f ?d ?p ?a ?mx ?ws = _ =>
          destruct (make_api_request_within k mt e f d p a mx ws) as (n & evs & Hw1 & _)
      end.
      rewrite Hsub in Hw1. cbn [snd] in Hw1. rewrite Hw1. reflexivity. }
    assert (Hfsb : fs wb = fs w1).
    { match type of Hpoll with
      | poll_request ?k ?j ?wp = _ =>
          destruct (poll_request_round k j wp) as (n & evs & Hwb & _)
      end.
      rewrite Hpoll in Hwb. cbn [snd] in Hwb. rewrite Hwb.
      match goal with
      | |- context [after_polls ?k ?j ?idx ?c ?wp] =>
          destruct (after_polls_frame k j idx c wp Hall) as (n' & evs' & Hwa & _)
      end.
      rewrite Hwa. reflexivity. }
    rewrite Hw'. unfold saved, extend. cbn [fs]. rewrite Hfsb, Hfs1. reflexivity.
  - intros B files Hex. now apply translate_pdf_scenario.
Qed.

Lemma translate_pdf_contract_witness :
  let w := Samples.world [NetResponse Samples.queued; NetResponse Samples.processing;
                          NetResponse Samples.completed;
                          NetResponse (Samples.file_response 200 Samples.translated)] in
  let run := translate_pdf "key" Samples.pdf "es" "small" Samples.out w in
  (exists r, fs (snd run) = <[Samples.out := resp_content r]> (fs w))
  /\ fst run = Returned true
  /\ fs (snd run) = <[Samples.out := Samples.translated]> (fs w).
Proof.
  intros w run. split.
  - destruct (proj1 (translate_pdf_contract "key" Samples.pdf "es" "small" Samples.out)
                w (snd run))
      as (init_response & status_code & w1 & pending & i & rest & m & code & wb & url & r
          & _ & _ & H).
    + vm_compute. reflexivity.
    + exists r. cbv zeta in H.
      destruct H as (_ & _ & _ & _ & _ & _ & _ & _ & _ & Hfs).
      exact Hfs.
  - apply (proj2 (translate_pdf_contract "key" Samples.pdf "es" "small" Samples.out)
             Samples.translated (fs w)).
    eexists. vm_compute. reflexivity.
Defined.


(** ** The job driver: edge cases *)

(** X11. Without the input document, [translate_pdf] returns [False]
    at once: nothing is sent and nothing is written. *)
Theorem translate_pdf_missing_input api_key pdf_path target_lang tier output_path w :
  fs w !! pdf_path = None ->
  translate_pdf api_key pdf_path target_lang tier output_path w
  = (Returned false,
     extend w 0 [EvLog INFO MsgStarting;
                 EvLog INFO (MsgPdfInfo (path_name pdf_path) target_lang tier);
                 EvLog ERROR (MsgInputNotFound pdf_path)]).
Proof. apply translate_pdf_missing. Qed.

Lemma translate_pdf_missing_input_witness :
  translate_pdf "key" Samples.csv "es" "small" Samples.out
    (Samples.world [NetResponse Samples.queued])
  = (Returned false,
     extend (Samples.world [NetResponse Samples.queued]) 0
       [EvLog INFO MsgStarting; EvLog INFO (MsgPdfInfo "languages.csv" "es" "small");
        EvLog ERROR (MsgInputNotFound Samples.csv)]).
Proof.
  apply (translate_pdf_missing_input "key" Samples.csv "es" "small" Samples.out
           (Samples.world [NetResponse Samples.queued])).
  vm_compute. reflexivity.
Defined.



(** X13. A connection failure (or any transport failure but a timeout)
    on a poll ends the job: [translate_pdf] returns [False] after that
    one exchange; the remaining polls are not made. *)
Theorem poll_transport_error_fails api_key pdf_path target_lang tier output_path w0
    job_id i rest current w e :
  run_at_poll api_key pdf_path target_lang tier output_path w0 job_id (i :: rest) current w ->
  net w (calls w) = NetFails e ->
  e <> NetTimeout ->
  let run := translate_pdf api_key pdf_path target_lang tier output_path w0 in
  fst run = Returned false /\ calls (snd run) = S (calls w) /\ fs (snd run) = fs w.
Proof.
  intros Hrun Hnet Hne run. subst run. rewrite Hrun.
  erewrite finish_job_return; cycle 1.
  { eapply poll_loop_no_body;
      [unfold poll_request;
       apply (make_api_request_transport_error _ _ _ _ _ _ _ _ _ e); assumption
      | reflexivity]. }
  repeat split.
Qed.

Lemma poll_transport_error_fails_witness :
  let w0 := Samples.world [NetResponse Samples.queued; NetFails NetConnectionError;
                           NetResponse Samples.completed] in
  let run := translate_pdf "key" Samples.pdf "es" "small" Samples.out w0 in
  fst run = Returned false /\ calls (snd run) = 2%nat /\ fs (snd run) = fs w0.
Proof.
  intros w0.
  apply (poll_transport_error_fails "key" Samples.pdf "es" "small" Samples.out w0
           (JStr "abc") 0 (map Z.of_nat (seq 1 59)) JNull
           (at_first_poll "key" Samples.pdf "es" "small" w0 Samples.queued)
           NetConnectionError).
  - vm_compute. reflexivity.
  - reflexivity.
  - discriminate.
Defined.



(** X15. A submission that cannot reach the service (connection
    failure, or three timeouts) is not followed by any poll:
    [translate_pdf] returns [False] and writes nothing, and every
    exchange of the run (three at most) is a POST to
    [/translate/{tier}] with the form field [target_lang].  (Nothing is
    said of the file part: the attempts after the first find the open
    file at its end.) *)
Theorem submission_unreachable api_key pdf_path target_lang tier output_path w :
  is_Some (fs w !! pdf_path) ->
  (exists e, net w (calls w) = NetFails e /\ e <> NetTimeout)
  \/ (net w (calls w) = NetFails NetTimeout
      /\ net w (S (calls w)) = NetFails NetTimeout
      /\ net w (S (S (calls w))) = NetFails NetTimeout) ->
  let run := translate_pdf api_key pdf_path target_lang tier output_path w in
  fst run = Returned false
  /\ (calls (snd run) <= 3 + calls w)%nat
  /\ fs (snd run) = fs w
  /\ exists evs,
      trace (snd run) = trace w ++ evs
      /\ length (requests_of evs) = (calls (snd run) - calls w)%nat
      /\ Forall (addressed_as api_key "POST" (EpTranslate tier)
                             (Some [("target_lang", target_lang)]) None)
                (requests_of evs).
Proof.
  intros Hex Hnet run. subst run.
  set (start := extend w 0 (start_events pdf_path target_lang tier)).
  assert (Hsub : exists k evs,
             submit_request api_key pdf_path target_lang tier start
             = (Returned (JNull, None), extend start k evs)
             /\ (k <= 3)%nat
             /\ requests_of evs
                = replicate k (build_request api_key "POST" (EpTranslate tier)
                                 (Some [("file", path_name pdf_path)])
                                 (Some [("target_lang", target_lang)]) None)).
  { unfold submit_request, default_attempt, default_max_attempts.
    destruct Hnet as [(e & Hnet & Hne) | (H1 & H2 & H3)].
    - exists 1%nat. eexists. split; [|split; [lia|]].
      + apply (make_api_request_transport_error _ _ _ _ _ _ _ _ _ e); assumption.
      + unfold request_events, requests_of. destruct e; simpl; reflexivity.
    - exists 3%nat. eexists. split; [|split; [lia|]].
      + rewrite make_api_request_retry by (assumption || lia).
        rewrite make_api_request_retry by (assumption || lia).
        rewrite make_api_request_exhausted by (assumption || lia).
        rewrite !extend_extend. reflexivity.
      + unfold request_events, requests_of. simpl. reflexivity. }
  destruct Hsub as (k & evs & Hsub & Hk & Hreqs).
  rewrite (translate_pdf_rejected _ _ _ _ _ _ _ _ _ Hex Hsub); [|now left | reflexivity].
  unfold start. rewrite !extend_extend. simpl fst. simpl snd.
  split; [reflexivity|]. split; [simpl; lia|]. split; [reflexivity|].
  eexists. split; [reflexivity|]. simpl calls.
  replace (k + 0 + calls w - calls w)%nat with k by lia.
  match goal with
  | |- length (requests_of ?l) = _ /\ _ =>
      assert (Hall : requests_of l
                     = replicate k (build_request api_key "POST" (EpTranslate tier)
                                      (Some [("file", path_name pdf_path)])
                                      (Some [("target_lang", target_lang)]) None))
  end.
  { unfold start_events. unfold requests_of in *. simpl.
    rewrite omap_app, Hreqs. simpl. now rewrite app_nil_r. }
  rewrite Hall. split; [apply length_replicate|].
  apply Forall_replicate. repeat split.
Qed.

Lemma submission_unreachable_witness :
  let w := Samples.world [NetFails NetConnectionError; NetResponse Samples.queued] in
  let run := translate_pdf "key" Samples.pdf "es" "small" Samples.out w in
  fst run = Returned false /\ (calls (snd run) <= 3)%nat /\ fs (snd run) = fs w.
Proof.
  intros w.
  destruct (submission_unreachable "key" Samples.pdf "es" "small" Samples.out w)
    as (H1 & H3 & H4 & _).
  - eexists. vm_compute. reflexivity.
  - left. exists NetConnectionError. split; [reflexivity | discriminate].
  - repeat split; assumption.
Defined.

(** ** [analyze_pdf_main] *)

Lemma for_each_fields items w :
  for_each items
    (fun item =>
       if negb (String.eqb (fst item) "success") then
         log INFO (MsgAnalysisField
                     (py_capitalize (replace_underscores (fst item))) (snd item))
       else mret tt) w
  = (Returned tt, extend w 0 (field_lines items)).
Proof.
  revert w. induction items as [|item rest IH]; intros w.
  - cbn [for_each field_lines flat_map]. now rewrite run_ret, extend_nil.
  - cbn [for_each field_lines flat_map]. rewrite run_bind.
    fold (field_lines rest).
    destruct (negb (String.eqb (fst item) "success")).
    + rewrite run_log, IH, extend_extend. reflexivity.
    + rewrite run_ret, IH. reflexivity.
Qed.

Lemma analysis_succeeded_run status_code response w :
  dict_or_falsy response = true ->
  analysis_succeeded status_code response w
  = (Returned (bool_decide (status_code = Some 200)
               && py_is_true (get_or_null response "success")), w).
Proof.
  intros Hd. unfold analysis_succeeded.
  destruct (bool_decide (status_code = Some 200)); [|reflexivity].
  destruct (py_truthy response) eqn:Ht.
  - destruct (truthy_dict_or_falsy _ Hd Ht) as (m & -> & _). reflexivity.
  - destruct response as [| | | | |m]; try reflexivity.
    simpl in Ht. apply negb_false_iff, bool_decide_eq_true in Ht. subst m.
    reflexivity.
Qed.

Lemma analysis_refused_run response w :
  dict_or_falsy response = true ->
  analysis_refused response w
  = (Returned (py_is_false (get_or_null response "success")), w).
Proof.
  intros Hd. unfold analysis_refused.
  destruct (py_truthy response) eqn:Ht.
  - destruct (truthy_dict_or_falsy _ Hd Ht) as (m & -> & _). reflexivity.
  - destruct response as [| | | | |m]; try reflexivity.
    simpl in Ht. apply negb_false_iff, bool_decide_eq_true in Ht. subst m.
    reflexivity.
Qed.

(** [analyze_pdf_main] from the return of the helper on. *)
Lemma analyze_pdf_main_run api_key pdf_path w response status_code w1 :
  is_Some (fs w !! pdf_path) ->
  make_api_request api_key "POST" EpAnalyze (Some [("file", path_name pdf_path)]) None None
                   default_attempt default_max_attempts
                   (extend w 0 [EvLog INFO (MsgAnalyzing (path_name pdf_path))])
  = (Returned (response, status_code), w1) ->
  dict_or_falsy response = true ->
  analyze_pdf_main api_key pdf_path w
  = (Returned tt, extend w1 0 (analysis_report response status_code)).
Proof.
  intros Hex Hreq Hd. unfold analyze_pdf_main, analysis_report.
  run. unfold path_exists at 1. simpl fs.
  rewrite bool_decide_eq_true_2 by exact Hex.
  change (negb true) with false. cbv beta iota.
  rewrite run_bind, Hreq. cbv beta iota zeta. simpl fst. simpl snd.
  rewrite run_bind, analysis_succeeded_run by exact Hd.
  destruct (bool_decide (status_code = Some 200)
            && py_is_true (get_or_null response "success")) eqn:Hok.
  - apply andb_true_iff in Hok as [_ Hs].
    destruct response as [| | | | |m]; try discriminate.
    run. unfold py_items. run. rewrite for_each_fields. same_world.
  - rewrite run_bind, analysis_refused_run by exact Hd.
    destruct (py_is_false (get_or_null response "success")) eqn:Hno.
    + destruct response as [| | | | |m]; try discriminate.
      unfold py_get, py_get_default. run. reflexivity.
    + destruct (status_truthy status_code); run; [reflexivity|].
      now rewrite extend_nil.
Qed.

Lemma analysis_refused_facts response w :
  snd (analysis_refused response w) = w
  /\ match fst (analysis_refused response w) with
     | Returned b => b = true -> exists o, response = JObj o
     | Raised e => e = ExAttributeError
     end.
Proof.
  unfold analysis_refused.
  destruct (py_truthy response); [|split; [reflexivity | simpl; discriminate]].
  destruct response; unfold py_get, py_get_default; run; simpl;
    (split; [reflexivity|]); try reflexivity.
  intros _. eauto.
Qed.

Lemma analysis_succeeded_facts status_code response w :
  snd (analysis_succeeded status_code response w) = w
  /\ match fst (analysis_succeeded status_code response w) with
     | Returned b => b = true -> exists o, response = JObj o
     | Raised e => e = ExAttributeError
     end.
Proof.
  unfold analysis_succeeded.
  destruct (bool_decide (status_code = Some 200));
    [|split; [reflexivity | simpl; discriminate]].
  destruct (py_truthy response); [|split; [reflexivity | simpl; discriminate]].
  destruct response; unfold py_get, py_get_default; run; simpl;
    (split; [reflexivity|]); try reflexivity.
  intros _. eauto.
Qed.

Lemma analysis_refused_within P response :
  within P only_attribute_error
         (fun b : bool => b = true -> exists o, response = JObj o) 0
         (analysis_refused response).
Proof.
  intros w. exists 0%nat, []. rewrite extend_nil.
  destruct (analysis_refused_facts response w) as [Hw Hr].
  split; [exact Hw|]. split; [lia|]. split; [constructor | exact Hr].
Qed.

Lemma analysis_succeeded_within P status_code response :
  within P only_attribute_error
         (fun b : bool => b = true -> exists o, response = JObj o) 0
         (analysis_succeeded status_code response).
Proof.
  intros w. exists 0%nat, []. rewrite extend_nil.
  destruct (analysis_succeeded_facts status_code response w) as [Hw Hr].
  split; [exact Hw|]. split; [lia|]. split; [constructor | exact Hr].
Qed.

Lemma for_each_fields_within P E items :
  (forall lvl msg, P (EvLog lvl msg)) ->
  within P E (fun _ : unit => True) 0
    (for_each items
       (fun item =>
          if negb (String.eqb (fst item) "success") then
            log INFO (MsgAnalysisField
                        (py_capitalize (replace_underscores (fst item))) (snd item))
          else mret tt)).
Proof.
  intros HP w. exists 0%nat, (field_lines items). rewrite for_each_fields.
  simpl. repeat split; auto.
  unfold field_lines. induction items as [|item rest IH]; [constructor|].
  cbn [flat_map]. apply Forall_app. split; [|exact IH].
  destruct (negb _); [|constructor]. constructor; [apply HP | constructor].
Qed.

(** Every run of [analyze_pdf_main]. *)
Lemma analyze_pdf_main_within api_key pdf_path :
  within (analyze_event api_key pdf_path) only_attribute_error (fun _ : unit => True) 3
         (analyze_pdf_main api_key pdf_path).
Proof.
  unfold analyze_pdf_main.
  assert (Hlog : forall lvl msg n,
             within (analyze_event api_key pdf_path) only_attribute_error
                    (fun _ : unit => True) n (log lvl msg)).
  { intros lvl msg n.
    apply (within_weaken (analyze_event api_key pdf_path) (analyze_event api_key pdf_path)
             only_attribute_error only_attribute_error
             (fun _ : unit => True) (fun _ : unit => True) 0 n (log lvl msg));
      auto; [lia | wlog]. }
  wbind 0%nat 3%nat (fun _ : unit => True); [wlog|]. intros _ _.
  wbind 0%nat 3%nat (fun _ : bool => True); [now apply within_path_exists|].
  intros found _. destruct (negb found); [apply Hlog|].
  wbind 3%nat 0%nat (fun _ : json * option Z => True).
  { eapply (within_weaken _ _ _ _ helper_value _ 3 3);
      [intros e He; exact He | intros e He; exact He | intros; exact I | lia |].
    apply make_api_request_default_within.
    - intros; exact I.
    - intros s Hs. exact Hs.
    - reflexivity. }
  intros r _. cbv zeta.
  eapply (within_bind _ _ _ _ 0 0).
  { apply analysis_succeeded_within. }
  intros [|] Hok.
  - destruct (Hok eq_refl) as [m Hm]. rewrite Hm.
    wbind 0%nat 0%nat (fun _ : unit => True); [wlog|]. intros _ _.
    wbind 0%nat 0%nat (fun _ : list (string * json) => True);
      [now apply within_lift|].
    intros items _. apply for_each_fields_within. intros; exact I.
  - eapply (within_bind _ _ _ _ 0 0).
    { apply analysis_refused_within. }
    intros [|] Hno.
    + destruct (Hno eq_refl) as [m Hm]. rewrite Hm.
      wbind 0%nat 0%nat (fun _ : json => True); [now apply within_lift|].
      intros error_code _.
      wbind 0%nat 0%nat (fun _ : json => True); [now apply within_lift|].
      intros message _. apply Hlog.
    + destruct (status_truthy (snd r)); [apply Hlog | now apply within_ret].
Qed.

(** X16. Whatever the network does, [analyze_pdf_main] makes at most
    three exchanges, each of them the upload to [/analyze-pdf]; it
    never polls or downloads, touches no file, and lets no exception
    out but AttributeError. *)
Theorem analyze_pdf_main_frame api_key pdf_path w :
  let run := analyze_pdf_main api_key pdf_path w in
  fs (snd run) = fs w
  /\ (calls (snd run) <= 3 + calls w)%nat
  /\ (exists evs,
         trace (snd run) = trace w ++ evs
         /\ Forall (fun r => r = build_request api_key "POST" EpAnalyze
                                   (Some [("file", path_name pdf_path)]) None None)
                   (requests_of evs))
  /\ (forall e, fst run = Raised e -> e = ExAttributeError).
Proof.
  intros run. subst run.
  destruct (analyze_pdf_main_within api_key pdf_path w) as (k & evs & Hw & Hk & Hevs & Hr).
  rewrite Hw. split; [reflexivity|]. split; [simpl; lia|]. split.
  - exists evs. split; [reflexivity|].
    eapply Forall_requests_of; [|exact Hevs]. intros r Hreq. exact Hreq.
  - intros e He. rewrite He in Hr. exact Hr.
Qed.

(** X17. Without the input document [analyze_pdf_main] only logs: no
    exchange is made. *)
Theorem analyze_pdf_main_missing_input api_key pdf_path w :
  fs w !! pdf_path = None ->
  analyze_pdf_main api_key pdf_path w
  = (Returned tt,
     extend w 0 [EvLog INFO (MsgAnalyzing (path_name pdf_path));
                 EvLog ERROR (MsgInputNotFound pdf_path)]).
Proof.
  intros Hno. unfold analyze_pdf_main. run. unfold path_exists at 1. simpl fs.
  rewrite bool_decide_eq_false_2
    by (change (~ is_Some (fs w !! pdf_path)); rewrite Hno; intros [x Hx]; discriminate).
  change (negb false) with true. cbv beta iota. run. same_world.
Qed.

Lemma analyze_pdf_main_missing_input_witness :
  analyze_pdf_main "key" Samples.out (Samples.world [NetResponse Samples.queued])
  = (Returned tt,
     extend (Samples.world [NetResponse Samples.queued]) 0
       [EvLog INFO (MsgAnalyzing "translated_es_example.pdf");
        EvLog ERROR (MsgInputNotFound Samples.out)]).
Proof.
  apply (analyze_pdf_main_missing_input "key" Samples.out
           (Samples.world [NetResponse Samples.queued])).
  vm_compute. reflexivity.
Defined.

(** [analyze_pdf_main] on a response whose body is a dict or falsy. *)
Lemma analyze_pdf_main_response api_key pdf_path w r :
  is_Some (fs w !! pdf_path) ->
  net w (calls w) = NetResponse r ->
  dict_or_falsy (parsed_body r) = true ->
  analyze_pdf_main api_key pdf_path w
  = (Returned tt,
     extend w 1
       ([EvLog INFO (MsgAnalyzing (path_name pdf_path))]
        ++ exchange_events api_key "POST" EpAnalyze (Some [("file", path_name pdf_path)])
             None None default_attempt default_max_attempts r
        ++ analysis_report (fst (helper_result r)) (snd (helper_result r)))).
Proof.
  intros Hex Hnet Hd.
  assert (Hreq : make_api_request api_key "POST" EpAnalyze
                   (Some [("file", path_name pdf_path)]) None None
                   default_attempt default_max_attempts
                   (extend w 0 [EvLog INFO (MsgAnalyzing (path_name pdf_path))])
                 = (Returned (fst (helper_result r), snd (helper_result r)),
                    extend (extend w 0 [EvLog INFO (MsgAnalyzing (path_name pdf_path))]) 1
                      (exchange_events api_key "POST" EpAnalyze
                         (Some [("file", path_name pdf_path)]) None None
                         default_attempt default_max_attempts r))).
  { rewrite (make_api_request_response _ _ _ _ _ _ _ _ _ r); [|exact Hnet|auto].
    now rewrite <- surjective_pairing. }
  assert (Hd' : dict_or_falsy (fst (helper_result r)) = true).
  { unfold helper_result. destruct (status_code r =? 401); [reflexivity|].
    destruct (server_error (status_code r)); [reflexivity | exact Hd]. }
  rewrite (analyze_pdf_main_run _ _ _ _ _ _ Hex Hreq Hd').
  same_world.
Qed.

Lemma not_in_exchange_events msg api_key method endpoint files data params a b r :
  match msg with
  | MsgAnalysisSuccessful | MsgAnalysisApiError _ _ => True
  | _ => False
  end ->
  forall lvl,
    ~ In (EvLog lvl msg)
         (exchange_events api_key method endpoint files data params a b r).
Proof.
  intros Hmsg lvl.
  assert (Hverdict : match msg with
                     | MsgAnalysisSuccessful | MsgAnalysisApiError _ _ => False
                     | _ => True
                     end -> False) by (destruct msg; tauto).
  unfold exchange_events. rewrite !in_app_iff. intros [Hin | [Hin | Hin]]; revert Hin.
  - unfold request_events. rewrite !in_app_iff.
    intros [Hin | [Hin | [Hin | Hin]]]; revert Hin.
    + intros [H|[]]. injection H as <- <-. now apply Hverdict.
    + destruct (arg_truthy data); [|intros []].
      intros [H|[]]. injection H as <- <-. now apply Hverdict.
    + destruct (arg_truthy files); [|intros []].
      intros [H|[]]. injection H as <- <-. now apply Hverdict.
    + destruct (arg_truthy params); [|intros []].
      intros [H|[]]. injection H as <- <-. now apply Hverdict.
  - unfold response_events. intros [H | [H | [H | []]]]; [discriminate H | |].
    + injection H as <- <-. now apply Hverdict.
    + destruct (resp_json r); injection H as <- <-; now apply Hverdict.
  - unfold classification_events.
    destruct (status_code r =? 401);
      [intros [H|[]]; injection H as <- <-; now apply Hverdict|].
    destruct (status_code r =? 403);
      [intros [H|[]]; injection H as <- <-; now apply Hverdict|].
    destruct (status_code r =? 429);
      [intros [H|[]]; injection H as <- <-; now apply Hverdict|].
    destruct (client_error (status_code r));
      [intros [H|[]]; injection H as <- <-; now apply Hverdict|].
    destruct (server_error (status_code r));
      [intros [H|[]]; injection H as <- <-; now apply Hverdict | intros []].
Qed.

Lemma not_in_field_lines lvl msg items :
  match msg with MsgAnalysisField _ _ => False | _ => True end ->
  ~ In (EvLog lvl msg) (field_lines items).
Proof.
  intros Hmsg. unfold field_lines. rewrite in_flat_map.
  intros ((k & v) & _ & Hin). destruct (negb _); [|exact Hin].
  destruct Hin as [Heq|[]]. unfold field_line in Heq.
  injection Heq as _ <-. exact Hmsg.
Qed.

(** X18. What counts as a success for [analyze_pdf_main]: on a
    response whose body is a JSON object (or falsy), "PDF Analysis
    successful" is logged if and only if the status code is exactly 200
    and [success] is the JSON value [true] itself (not 1, not "true",
    not a 201); the error of the API is logged if and only if the body
    reaches the function (no 401, no 5xx) and [success] is [false]. *)
Theorem analysis_verdict api_key pdf_path w r :
  is_Some (fs w !! pdf_path) ->
  net w (calls w) = NetResponse r ->
  dict_or_falsy (parsed_body r) = true ->
  exists evs,
    analyze_pdf_main api_key pdf_path w = (Returned tt, extend w 1 evs)
    /\ (In (EvLog INFO MsgAnalysisSuccessful) evs
        <-> status_code r = 200 /\ get_or_null (parsed_body r) "success" = JBool true)
    /\ ((exists error_code message,
            In (EvLog ERROR (MsgAnalysisApiError error_code message)) evs)
        <-> status_code r <> 401 /\ ~ (500 <= status_code r < 600)
            /\ get_or_null (parsed_body r) "success" = JBool false).
Proof.
  intros Hex Hnet Hd. eexists.
  split; [apply (analyze_pdf_main_response api_key pdf_path w r); assumption|].
  assert (Hst : snd (helper_result r) = Some 200 <-> status_code r = 200).
  { unfold helper_result, server_error.
    destruct (Z.eqb_spec (status_code r) 401) as [E|E]; [rewrite E; simpl; split; [intros [= ] | lia]|].
    destruct ((500 <=? status_code r) && (status_code r <? 600)) eqn:E5; simpl.
    - split; [discriminate | lia].
    - split; [now intros [= ->] | now intros ->]. }
  assert (Hbody : forall v,
             get_or_null (fst (helper_result r)) "success" = JBool v
             <-> (status_code r <> 401 /\ ~ (500 <= status_code r < 600)
                  /\ get_or_null (parsed_body r) "success" = JBool v)).
  { intros v. unfold helper_result, server_error.
    destruct (Z.eqb_spec (status_code r) 401) as [E|E];
      [simpl; split; [discriminate | tauto]|].
    destruct ((500 <=? status_code r) && (status_code r <? 600)) eqn:E5; simpl.
    - split; [discriminate | intros (_ & H & _); lia].
    - split; [intros H; repeat split; auto; lia | tauto]. }
  assert (Htrue : forall v, py_is_true v = true <-> v = JBool true).
  { intros [|[|]| | | |]; simpl; split; congruence. }
  assert (Hfalse : forall v, py_is_false v = true <-> v = JBool false).
  { intros [|[|]| | | |]; simpl; split; congruence. }
  split.
  - rewrite !in_app_iff. unfold analysis_report.
    destruct (bool_decide (snd (helper_result r) = Some 200)
              && py_is_true (get_or_null (fst (helper_result r)) "success")) eqn:Hok.
    + apply andb_true_iff in Hok as [H200 Hs].
      apply bool_decide_eq_true in H200. apply Htrue in Hs.
      apply Hst in H200. apply Hbody in Hs as (_ & _ & Hs).
      split; [tauto|]. intros _. right. right. now left.
    + split.
      * intros [[Heq|[]] | [Hin | Hin]]; [discriminate | |].
        { exfalso. revert Hin. now apply not_in_exchange_events. }
        exfalso.
        destruct (py_is_false _); [destruct Hin as [Heq|[]]; discriminate|].
        destruct (status_truthy _); [destruct Hin as [Heq|[]]; discriminate | exact Hin].
      * intros [H200 Hs]. exfalso.
        apply andb_false_iff in Hok as [Hok|Hok].
        -- apply bool_decide_eq_false in Hok. apply Hok, Hst, H200.
        -- assert (py_is_true (get_or_null (fst (helper_result r)) "success") = true);
             [|congruence].
           apply Htrue, Hbody. repeat split; [lia | lia | exact Hs].
  - unfold analysis_report.
    destruct (bool_decide (snd (helper_result r) = Some 200)
              && py_is_true (get_or_null (fst (helper_result r)) "success")) eqn:Hok.
    + apply andb_true_iff in Hok as [_ Hs]. apply Htrue in Hs.
      split.
      * intros (c & msg & Hin). exfalso. rewrite !in_app_iff in Hin.
        destruct Hin as [[Heq|[]] | [Hin | [Heq | Hin]]]; try discriminate.
        -- revert Hin. now apply not_in_exchange_events.
        -- revert Hin. now apply not_in_field_lines.
      * intros (H1 & H2 & Hs'). exfalso.
        assert (get_or_null (fst (helper_result r)) "success" = JBool false)
          by (apply Hbody; auto).
        congruence.
    + destruct (py_is_false (get_or_null (fst (helper_result r)) "success")) eqn:Hno.
      * apply Hfalse in Hno. split; [intros _; now apply Hbody|].
        intros _. do 2 eexists. rewrite !in_app_iff. right. right. now left.
      * split.
        -- intros (c & msg & Hin). exfalso. rewrite !in_app_iff in Hin.
           destruct Hin as [[Heq|[]] | [Hin | Hin]]; [discriminate | |].
           ++ revert Hin. now apply not_in_exchange_events.
           ++ destruct (status_truthy _);
                [destruct Hin as [Heq|[]]; discriminate | exact Hin].
        -- intros Hs. apply Hbody, Hfalse in Hs. congruence.
Qed.

Lemma analysis_verdict_witness :
  let created := Samples.answers 201 (JObj {[ "success" := JBool true;
                                              "page_count" := JNum 3 ]}) in
  let w := Samples.world [NetResponse created] in
  exists evs,
    analyze_pdf_main "key" Samples.pdf w = (Returned tt, extend w 1 evs)
    /\ ~ In (EvLog INFO MsgAnalysisSuccessful) evs.
Proof.
  intros created w.
  destruct (analysis_verdict "key" Samples.pdf w created) as (evs & Hrun & Hok & _).
  - eexists. vm_compute. reflexivity.
  - reflexivity.
  - reflexivity.
  - exists evs. split; [exact Hrun|].
    intros Hin. apply Hok in Hin as [H201 _]. discriminate H201.
Defined.

Lemma field_lines_delete (m : gmap string json) v :
  m !! "success" = Some v ->
  field_lines (map_to_list m) ≡ₚ map field_line (map_to_list (delete "success" m)).
Proof.
  intros Hs. unfold field_lines.
  rewrite <- (map_to_list_delete m "success" v Hs). cbn [flat_map].
  change (negb (String.eqb (fst ("success", v)) "success")) with false. cbv iota.
  rewrite app_nil_l.
  assert (Hkeys : Forall (fun item => fst item <> "success")
                         (map_to_list (delete "success" m))).
  { apply Forall_forall. intros [k x] Hin. simpl. intros ->.
    apply elem_of_map_to_list in Hin. rewrite lookup_delete_eq in Hin. discriminate. }
  induction Hkeys as [|item rest Hne _ IH]; [reflexivity|].
  cbn [flat_map map].
  destruct (String.eqb_spec (fst item) "success") as [E|_]; [contradiction|].
  simpl. now rewrite IH.
Qed.

(** X19. After a successful analysis every field of the response but
    [success] gets one line in the log, labelled with its key, the
    underscores turned into spaces and the first letter capitalized
    (the order of the lines is not modelled). *)
Theorem analysis_fields api_key pdf_path w r m :
  is_Some (fs w !! pdf_path) ->
  net w (calls w) = NetResponse r ->
  status_code r = 200 ->
  resp_json r = Some (JObj m) ->
  m !! "success" = Some (JBool true) ->
  exists lines,
    analyze_pdf_main api_key pdf_path w
    = (Returned tt,
       extend w 1
         ([EvLog INFO (MsgAnalyzing (path_name pdf_path))]
          ++ exchange_events api_key "POST" EpAnalyze
               (Some [("file", path_name pdf_path)]) None None
               default_attempt default_max_attempts r
          ++ EvLog INFO MsgAnalysisSuccessful :: lines))
    /\ lines ≡ₚ map (fun item =>
                       EvLog INFO (MsgAnalysisField
                                     (py_capitalize (replace_underscores (fst item)))
                                     (snd item)))
                    (map_to_list (delete "success" m)).
Proof.
  intros Hex Hnet H200 Hjson Hs.
  assert (Hbody : parsed_body r = JObj m) by (unfold parsed_body; now rewrite Hjson).
  exists (field_lines (map_to_list m)). split.
  - rewrite (analyze_pdf_main_response api_key pdf_path w r Hex Hnet)
      by (now rewrite Hbody).
    unfold helper_result, server_error. rewrite H200, Hbody. simpl fst. simpl snd.
    unfold analysis_report. simpl get_or_null. rewrite Hs. reflexivity.
  - now apply (field_lines_delete m (JBool true)).
Qed.

Lemma analysis_fields_witness :
  let ok := Samples.answers 200 (JObj {[ "success" := JBool true;
                                         "page_count" := JNum 3 ]}) in
  let w := Samples.world [NetResponse ok] in
  exists lines,
    snd (analyze_pdf_main "key" Samples.pdf w)
    = extend w 1
        ([EvLog INFO (MsgAnalyzing "example.pdf")]
         ++ exchange_events "key" "POST" EpAnalyze (Some [("file", "example.pdf")])
              None None 1 3 ok
         ++ EvLog INFO MsgAnalysisSuccessful :: lines)
    /\ lines ≡ₚ [EvLog INFO (MsgAnalysisField "Page count" (JNum 3))].
Proof.
  intros ok w.
  destruct (analysis_fields "key" Samples.pdf w ok
              {[ "success" := JBool true; "page_count" := JNum 3 ]})
    as (lines & Hrun & Hperm).
  - eexists. vm_compute. reflexivity.
  - reflexivity.
  - reflexivity.
  - reflexivity.
  - vm_compute. reflexivity.
  - exists lines. split; [now rewrite Hrun|].
    rewrite Hperm. vm_compute. reflexivity.
Defined.

(** ** [main_cli] *)

Lemma run_mkdir_free d w :
  fs w !! d = None -> mkdir_exist_ok d w = (Returned tt, w).
Proof. intros H. unfold mkdir_exist_ok. now rewrite H. Qed.

Lemma run_mkdir_taken d w x :
  fs w !! d = Some x -> mkdir_exist_ok d w = (Raised (ExOther "FileExistsError"), w).
Proof. intros H. unfold mkdir_exist_ok. now rewrite H. Qed.

(** X20. Without an API key ([None], or the empty string) [main_cli]
    logs the error and does nothing else, whatever the action: no
    exchange, no directory or file created. *)
Theorem main_cli_without_key cwd resolve args w :
  arg_api_key args = None \/ arg_api_key args = Some EmptyString ->
  main_cli cwd resolve args w
  = (Returned tt, extend w 0 [EvLog ERROR MsgApiKeyRequired]).
Proof.
  intros [Hk | Hk]; unfold main_cli; rewrite Hk; reflexivity.
Qed.

Lemma main_cli_without_key_witness :
  main_cli (mkPath [] "home") (fun p => p)
    (Cli.mkArgs None (Translate Samples.pdf "es" "small" None))
    (Samples.world [NetResponse Samples.queued])
  = (Returned tt,
     extend (Samples.world [NetResponse Samples.queued]) 0 [EvLog ERROR MsgApiKeyRequired]).
Proof.
  apply (main_cli_without_key (mkPath [] "home") (fun p => p)
           (Cli.mkArgs None (Translate Samples.pdf "es" "small" None))
           (Samples.world [NetResponse Samples.queued])).
  left. reflexivity.
Defined.

(** X21. One run of [main_cli] makes at most 184 exchanges, and the
    only file it can change is the resolved output file of a
    [translate] action; an [analyze] action changes none. *)
Theorem main_cli_frame cwd resolve args w :
  let run := main_cli cwd resolve args w in
  (calls (snd run) <= 184 + calls w)%nat
  /\ forall p, Some p <> resolve <$> cli_output_file cwd (arg_action args) ->
               fs (snd run) !! p = fs w !! p.
Proof.
  intros run. subst run. unfold main_cli.
  destruct (arg_api_key args) as [api_key|].
  2:{ rewrite run_log. split; [simpl; lia | reflexivity]. }
  destruct (String.eqb api_key EmptyString).
  { rewrite run_log. split; [simpl; lia | reflexivity]. }
  destruct (arg_action args) as [pdf_file target_lang tier output_file | pdf_file].
  - cbn [cli_output_file fmap option_fmap option_map].
    set (chosen := default _ output_file).
    assert (Hjob : forall w',
               fs w' = fs w -> calls w' = calls w ->
               let run := (translate_pdf api_key (resolve pdf_file) target_lang tier
                                         (resolve chosen);; mret tt) w' in
               (calls (snd run) <= 184 + calls w)%nat
               /\ forall p, Some p <> Some (resolve chosen) ->
                            fs (snd run) !! p = fs w !! p).
    { intros w' Hfs Hcalls. cbv zeta. rewrite run_bind.
      destruct (translate_pdf_within_saving api_key (resolve pdf_file) target_lang tier
                  (resolve chosen) w') as (k & evs & Hk & _ & Hr).
      unfold job_exchanges in Hk.
      destruct (translate_pdf api_key (resolve pdf_file) target_lang tier
                              (resolve chosen) w') as [[[|]|e] w1]; simpl in Hr.
      - destruct Hr as [content ->]. rewrite run_ret. simpl. split; [lia|].
        intros p Hp. rewrite lookup_insert_ne by congruence. now rewrite Hfs.
      - rewrite Hr, run_ret. simpl. split; [lia | now rewrite Hfs].
      - destruct Hr as [-> _]. simpl. split; [lia | now rewrite Hfs]. }
    destruct output_file as [p0|]; rewrite run_bind.
    + rewrite run_ret. now apply Hjob.
    + rewrite run_bind.
      destruct (fs w !! path_join cwd "translated_pdfs") as [x|] eqn:Hdir.
      * rewrite (run_mkdir_taken _ _ x Hdir). simpl. split; [lia | reflexivity].
      * rewrite (run_mkdir_free _ _ Hdir), run_ret. now apply Hjob.
  - destruct (analyze_pdf_main_within api_key (resolve pdf_file) w)
      as (k & evs & Hw & Hk & _). rewrite Hw. simpl. split; [lia | reflexivity].
Qed.

(** ** [run_batch_translation_test] *)

Lemma run_batch_started csv_dict_reader supported api_key input_pdf tier
    output_dir_base languages_csv_path w :
  run_batch_translation_test csv_dict_reader supported api_key input_pdf tier
                             output_dir_base languages_csv_path w
  = (if negb (key_truthy api_key) then log ERROR MsgApiKeyRequired
     else
       pdf_found ← path_exists input_pdf;
       if negb pdf_found then log ERROR (MsgBatchInputNotFound input_pdf)
       else
         csv_found ← path_exists languages_csv_path;
         if negb csv_found then log ERROR (MsgCsvNotFound languages_csv_path)
         else
           read ← try_except (read_languages csv_dict_reader languages_csv_path)
                    (fun e => Some (log ERROR MsgCsvFailed;; mret None));
           match read with
           | None => mret tt
           | Some languages_to_test =>
               match languages_to_test with
               | [] => log INFO MsgNoLanguages
               | _ :: _ =>
                   language_loop supported (default EmptyString api_key) input_pdf tier
                                 output_dir_base languages_to_test;;
                   log INFO MsgBatchFinished
               end
           end)
      (extend w 0 (batch_header input_pdf tier output_dir_base languages_csv_path)).
Proof.
  unfold run_batch_translation_test, batch_header. run. rewrite !extend_extend.
  reflexivity.
Qed.

Lemma run_path_exists p w :
  path_exists p w = (Returned (bool_decide (is_Some (fs w !! p))), w).
Proof. reflexivity. Qed.

(** X22. The batch is called off before any exchange when the API key
    is missing or empty, when the input document is missing, or when
    the CSV file is missing (checked in that order): the function logs
    which and returns. *)
Theorem run_batch_called_off csv_dict_reader supported api_key input_pdf tier
    output_dir_base languages_csv_path w :
  let run := run_batch_translation_test csv_dict_reader supported api_key input_pdf tier
                                        output_dir_base languages_csv_path w in
  let header := batch_header input_pdf tier output_dir_base languages_csv_path in
  (key_truthy api_key = false ->
   run = (Returned tt, extend w 0 (header ++ [EvLog ERROR MsgApiKeyRequired])))
  /\ (key_truthy api_key = true -> fs w !! input_pdf = None ->
      run = (Returned tt,
             extend w 0 (header ++ [EvLog ERROR (MsgBatchInputNotFound input_pdf)])))
  /\ (key_truthy api_key = true -> is_Some (fs w !! input_pdf) ->
      fs w !! languages_csv_path = None ->
      run = (Returned tt,
             extend w 0 (header ++ [EvLog ERROR (MsgCsvNotFound languages_csv_path)]))).
Proof.
  intros run header. subst run header. rewrite run_batch_started.
  assert (Hnone : forall p w', fs w' !! p = None ->
                               bool_decide (is_Some (fs w' !! p)) = false).
  { intros p w' ->. apply bool_decide_eq_false_2. intros [x Hx]. discriminate. }
  split; [|split].
  - intros ->. change (negb false) with true. cbv iota. run. same_world.
  - intros -> Hpdf. change (negb true) with false. cbv iota.
    rewrite run_bind, run_path_exists, Hnone by exact Hpdf.
    change (negb false) with true. cbv iota. run. same_world.
  - intros -> Hpdf Hcsv. change (negb true) with false. cbv iota.
    rewrite run_bind, run_path_exists, bool_decide_eq_true_2 by exact Hpdf.
    change (negb true) with false. cbv iota.
    rewrite run_bind, run_path_exists, Hnone by exact Hcsv.
    change (negb false) with true. cbv iota. run. same_world.
Qed.

Lemma run_batch_called_off_witness :
  run_batch_translation_test Samples.es_fr (ObjStrList ["es"; "fr"]) (Some EmptyString)
    Samples.pdf "small" Samples.output_dir Samples.csv Samples.batch_world
  = (Returned tt,
     extend Samples.batch_world 0
       (batch_header Samples.pdf "small" Samples.output_dir Samples.csv
        ++ [EvLog ERROR MsgApiKeyRequired])).
Proof.
  apply (proj1 (run_batch_called_off Samples.es_fr (ObjStrList ["es"; "fr"])
                  (Some EmptyString) Samples.pdf "small" Samples.output_dir Samples.csv
                  Samples.batch_world)).
  reflexivity.
Defined.

(** The batch once the three checks have passed. *)
Lemma run_batch_checked csv_dict_reader supported api_key input_pdf tier
    output_dir_base languages_csv_path w :
  key_truthy api_key = true ->
  is_Some (fs w !! input_pdf) ->
  is_Some (fs w !! languages_csv_path) ->
  run_batch_translation_test csv_dict_reader supported api_key input_pdf tier
                             output_dir_base languages_csv_path w
  = (read ← try_except (read_languages csv_dict_reader languages_csv_path)
              (fun e => Some (log ERROR MsgCsvFailed;; mret None));
     match read with
     | None => mret tt
     | Some languages_to_test =>
         match languages_to_test with
         | [] => log INFO MsgNoLanguages
         | _ :: _ =>
             language_loop supported (default EmptyString api_key) input_pdf tier
                           output_dir_base languages_to_test;;
             log INFO MsgBatchFinished
         end
     end)
      (extend w 0 (batch_header input_pdf tier output_dir_base languages_csv_path)).
Proof.
  intros Hkey Hpdf Hcsv. rewrite run_batch_started, Hkey.
  change (negb true) with false. cbv iota.
  rewrite run_bind, run_path_exists, bool_decide_eq_true_2 by exact Hpdf.
  change (negb true) with false. cbv iota.
  rewrite run_bind, run_path_exists, bool_decide_eq_true_2 by exact Hcsv.
  reflexivity.
Qed.

(** Lines 38-49: what reading the CSV comes to. *)
Lemma read_languages_caught csv_dict_reader languages_csv_path w content :
  fs w !! languages_csv_path = Some content ->
  try_except (read_languages csv_dict_reader languages_csv_path)
    (fun e => Some (log ERROR MsgCsvFailed;; mret None)) w
  = match csv_dict_reader content with
    | Raised _ | Returned (None, _) =>
        (Returned None, extend w 0 [EvLog ERROR MsgCsvFailed])
    | Returned (Some fieldnames, rows) =>
        if negb (existsb (String.eqb "language_code") fieldnames)
        then (Returned None, extend w 0 [EvLog ERROR MsgCsvNoHeader])
        else match collect_codes rows with
             | Returned codes =>
                 (Returned (Some codes),
                  extend w 0 [EvLog INFO (MsgFoundLanguages (length codes) codes)])
             | Raised _ => (Returned None, extend w 0 [EvLog ERROR MsgCsvFailed])
             end
    end.
Proof.
  intros Hc. unfold try_except, read_languages. rewrite run_bind.
  unfold open_csv at 1. rewrite Hc.
  destruct (csv_dict_reader content) as [[[fieldnames|] rows]|e]; cbn [fst snd];
    [| reflexivity | reflexivity].
  destruct (negb (existsb (String.eqb "language_code") fieldnames)).
  - run. reflexivity.
  - rewrite run_bind, run_lift.
    destruct (collect_codes rows) as [codes|e]; [|reflexivity].
    run. reflexivity.
Qed.

(** X23. A CSV that cannot be read or parsed, that has no
    [language_code] column, or that has the column and no row, calls
    the batch off as well: the function logs the reason and returns
    without any exchange. *)
Theorem run_batch_unusable_csv csv_dict_reader supported api_key input_pdf tier
    output_dir_base languages_csv_path w content :
  key_truthy api_key = true ->
  is_Some (fs w !! input_pdf) ->
  fs w !! languages_csv_path = Some content ->
  let run := run_batch_translation_test csv_dict_reader supported api_key input_pdf tier
                                        output_dir_base languages_csv_path w in
  let header := batch_header input_pdf tier output_dir_base languages_csv_path in
  ((exists e, csv_dict_reader content = Raised e)
   \/ (exists rows, csv_dict_reader content = Returned (None, rows)) ->
   run = (Returned tt, extend w 0 (header ++ [EvLog ERROR MsgCsvFailed])))
  /\ (forall fieldnames rows,
         csv_dict_reader content = Returned (Some fieldnames, rows) ->
         ~ In "language_code" fieldnames ->
         run = (Returned tt, extend w 0 (header ++ [EvLog ERROR MsgCsvNoHeader])))
  /\ (forall fieldnames,
         csv_dict_reader content = Returned (Some fieldnames, []) ->
         In "language_code" fieldnames ->
         run = (Returned tt,
                extend w 0 (header ++ [EvLog INFO (MsgFoundLanguages 0 []);
                                       EvLog INFO MsgNoLanguages]))).
Proof.
  intros Hkey Hpdf Hcsv run header. subst run header.
  rewrite run_batch_checked; [|assumption|assumption|rewrite Hcsv; eauto].
  rewrite run_bind.
  rewrite (read_languages_caught _ _ _ content) by exact Hcsv.
  assert (Hmem : forall names, existsb (String.eqb "language_code") names = true
                               <-> In "language_code" names).
  { intros names. rewrite existsb_exists. split.
    - intros (x & Hin & Heq). apply String.eqb_eq in Heq. now subst.
    - intros Hin. exists "language_code". split; [exact Hin | apply String.eqb_refl]. }
  split; [|split].
  - intros [[e ->] | [rows ->]]; run; same_world.
  - intros fieldnames rows -> Hno.
    destruct (existsb (String.eqb "language_code") fieldnames) eqn:E;
      [apply Hmem in E; contradiction|].
    change (negb false) with true. cbv iota. run. same_world.
  - intros fieldnames -> Hin. apply Hmem in Hin. rewrite Hin.
    change (negb true) with false. cbv iota. cbn [collect_codes length]. run. same_world.
Qed.

Lemma run_batch_unusable_csv_witness :
  run_batch_translation_test (fun _ => Returned (Some ["code"; "name"], []))
    (ObjStrList ["es"; "fr"]) (Some "key")
    Samples.pdf "small" Samples.output_dir Samples.csv Samples.batch_world
  = (Returned tt,
     extend Samples.batch_world 0
       (batch_header Samples.pdf "small" Samples.output_dir Samples.csv
        ++ [EvLog ERROR MsgCsvNoHeader])).
Proof.
  assert (Hkey : key_truthy (Some "key") = true) by reflexivity.
  assert (Hpdf : is_Some (fs Samples.batch_world !! Samples.pdf)).
  { exists [Byte.x25; Byte.x50; Byte.x44; Byte.x46]. vm_compute. reflexivity. }
  assert (Hcsv : fs Samples.batch_world !! Samples.csv = Some []).
  { vm_compute. reflexivity. }
  apply (proj1 (proj2 (run_batch_unusable_csv
                         (fun _ => Returned (Some ["code"; "name"], []))
                         (ObjStrList ["es"; "fr"]) (Some "key")
                         Samples.pdf "small" Samples.output_dir Samples.csv
                         Samples.batch_world [] Hkey Hpdf Hcsv))
           ["code"; "name"] [] eq_refl).
  simpl. intros [H | [H | []]]; discriminate.
Defined.

(** One language of the batch makes at most 184 exchanges and writes at
    most its own output file. *)
Lemma after_language_frame supported api_key input_pdf tier output_dir_base lang_code w :
  let w' := after_language supported api_key input_pdf tier output_dir_base lang_code w in
  (calls w' <= 184 + calls w)%nat
  /\ (forall p, p <> output_pdf_path output_dir_base input_pdf lang_code ->
                fs w' !! p = fs w !! p).
Proof.
  intros w'. subst w'. unfold after_language.
  match goal with
  | |- context [translate_pdf ?k ?p ?l ?t ?o ?w0] =>
      destruct (translate_pdf_within_saving k p l t o w0) as (n & evs & Hn & _ & Hr);
      destruct (fst (translate_pdf k p l t o w0)) as [[|]|e]
  end; unfold job_exchanges in Hn.
  - destruct Hr as [content ->]. split; [simpl; lia|].
    intros p Hp. simpl. now rewrite lookup_insert_ne.
  - rewrite Hr. split; [simpl; lia | reflexivity].
  - destruct Hr as [-> _]. split; [simpl; lia | reflexivity].
Qed.

Lemma sweep_frame supported api_key input_pdf tier output_dir_base langs :
  forall w,
    let w' := sweep supported api_key input_pdf tier output_dir_base langs w in
    (calls w' <= 184 * length langs + calls w)%nat
    /\ (forall p, (forall lang_code, In lang_code langs ->
                                     p <> output_pdf_path output_dir_base input_pdf lang_code) ->
                  fs w' !! p = fs w !! p).
Proof.
  induction langs as [|lang_code rest IH]; intros w.
  - split; [simpl; lia | reflexivity].
  - change (sweep supported api_key input_pdf tier output_dir_base (lang_code :: rest) w)
      with (sweep supported api_key input_pdf tier output_dir_base rest
              (after_language supported api_key input_pdf tier output_dir_base
                 lang_code w)).
    destruct (after_language_frame supported api_key input_pdf tier output_dir_base
                lang_code w) as [Hc Hf].
    destruct (IH (after_language supported api_key input_pdf tier output_dir_base
                    lang_code w)) as [Hc' Hf'].
    cbv zeta in *. split.
    + cbn [length]. lia.
    + intros p Hp. rewrite Hf', Hf; [reflexivity | |].
      * apply Hp. now left.
      * intros l Hl. apply Hp. now right.
Qed.

Lemma collect_codes_length rows codes :
  collect_codes rows = Returned codes -> length codes = length rows.
Proof.
  revert codes. induction rows as [|row rest IH]; intros codes H; cbn [collect_codes] in H.
  - now inversion H.
  - destruct (row !! "language_code") as [code|]; [|discriminate].
    destruct (collect_codes rest) as [l|e]; [|discriminate].
    inversion H. cbn [length]. now rewrite (IH l eq_refl).
Qed.

Lemma existsb_language_code fieldnames :
  existsb (String.eqb "language_code") fieldnames = true <-> In "language_code" fieldnames.
Proof.
  rewrite existsb_exists. split.
  - intros (x & Hin & Heq). apply String.eqb_eq in Heq. now subst.
  - intros Hin. exists "language_code". split; [exact Hin | apply String.eqb_refl].
Qed.

(** The batch when the checks have passed, the CSV gives the codes
    [codes] and [SUPPORTED_TARGET_LANGUAGES] is a list. *)
Lemma run_batch_read csv_dict_reader supported api_key input_pdf tier output_dir_base
    languages_csv_path w content fieldnames rows code codes :
  key_truthy (Some api_key) = true ->
  is_Some (fs w !! input_pdf) ->
  fs w !! languages_csv_path = Some content ->
  csv_dict_reader content = Returned (Some fieldnames, rows) ->
  In "language_code" fieldnames ->
  collect_codes rows = Returned (code :: codes) ->
  run_batch_translation_test csv_dict_reader (ObjStrList supported) (Some api_key)
                             input_pdf tier output_dir_base languages_csv_path w
  = (Returned tt,
     extend (sweep supported api_key input_pdf tier output_dir_base (code :: codes)
               (extend w 0
                  (batch_header input_pdf tier output_dir_base languages_csv_path
                   ++ [EvLog INFO (MsgFoundLanguages (length (code :: codes))
                                                     (code :: codes))])))
            0 [EvLog INFO MsgBatchFinished]).
Proof.
  intros Hkey Hpdf Hcsv Hread Hin Hcodes.
  rewrite run_batch_checked; [|assumption|assumption|rewrite Hcsv; eauto].
  rewrite run_bind.
  rewrite (read_languages_caught _ _ _ content) by exact Hcsv.
  rewrite Hread. apply existsb_language_code in Hin. rewrite Hin.
  change (negb true) with false. cbv iota. rewrite Hcodes.
  cbn [fst snd default].
  rewrite run_bind, language_loop_sweeps. cbn [fst snd]. rewrite run_log.
  rewrite extend_extend. reflexivity.
Qed.

(** X24. With a usable CSV and [SUPPORTED_TARGET_LANGUAGES] bound to a
    list, the batch runs [translate_pdf] once for every row, in the
    order of the rows, each language starting from the world the
    previous one left whether that one succeeded, failed or raised;
    it then logs that the batch is finished and returns. *)
Theorem run_batch_sweeps csv_dict_reader supported api_key input_pdf tier output_dir_base
    languages_csv_path w content fieldnames rows code codes :
  key_truthy (Some api_key) = true ->
  is_Some (fs w !! input_pdf) ->
  fs w !! languages_csv_path = Some content ->
  csv_dict_reader content = Returned (Some fieldnames, rows) ->
  In "language_code" fieldnames ->
  collect_codes rows = Returned (code :: codes) ->
  let languages_to_test := code :: codes in
  length languages_to_test = length rows
  /\ run_batch_translation_test csv_dict_reader (ObjStrList supported) (Some api_key)
                                input_pdf tier output_dir_base languages_csv_path w
     = (Returned tt,
        extend (sweep supported api_key input_pdf tier output_dir_base languages_to_test
                  (extend w 0
                     (batch_header input_pdf tier output_dir_base languages_csv_path
                      ++ [EvLog INFO (MsgFoundLanguages (length languages_to_test)
                                                        languages_to_test)])))
               0 [EvLog INFO MsgBatchFinished]).
Proof.
  intros Hkey Hpdf Hcsv Hread Hin Hcodes languages_to_test. subst languages_to_test.
  split; [now apply collect_codes_length|].
  now apply (run_batch_read _ _ _ _ _ _ _ _ content fieldnames rows).
Qed.

Lemma run_batch_sweeps_witness :
  length ["es"; "fr"] = 2%nat
  /\ run_batch_translation_test Samples.es_fr (ObjStrList ["es"; "fr"]) (Some "key")
       Samples.pdf "small" Samples.output_dir Samples.csv Samples.batch_world
     = (Returned tt,
        extend (sweep ["es"; "fr"] "key" Samples.pdf "small" Samples.output_dir
                  ["es"; "fr"]
                  (extend Samples.batch_world 0
                     (batch_header Samples.pdf "small" Samples.output_dir Samples.csv
                      ++ [EvLog INFO (MsgFoundLanguages 2 ["es"; "fr"])])))
               0 [EvLog INFO MsgBatchFinished]).
Proof.
  assert (Hkey : key_truthy (Some "key") = true) by reflexivity.
  assert (Hpdf : is_Some (fs Samples.batch_world !! Samples.pdf)).
  { exists [Byte.x25; Byte.x50; Byte.x44; Byte.x46]. vm_compute. reflexivity. }
  assert (Hcsv : fs Samples.batch_world !! Samples.csv = Some []).
  { vm_compute. reflexivity. }
  assert (Hin : In "language_code" ["language_code"]) by (simpl; auto).
  assert (Hcodes : collect_codes [ {[ "language_code" := "es" ]};
                                   {[ "language_code" := "fr" ]} ]
                   = Returned ["es"; "fr"]).
  { vm_compute. reflexivity. }
  exact (run_batch_sweeps Samples.es_fr ["es"; "fr"] "key" Samples.pdf "small"
           Samples.output_dir Samples.csv Samples.batch_world []
           ["language_code"] _ "es" ["fr"] Hkey Hpdf Hcsv eq_refl Hin Hcodes).
Defined.


(** Cancellation for string concatenation. *)
Lemma string_app_cons c (s t : string) : String c s +:+ t = String c (s +:+ t).
Proof. reflexivity. Qed.

Lemma string_app_length (s t : string) :
  String.length (s +:+ t) = (String.length s + String.length t)%nat.
Proof.
  induction s as [|c s IH]; [reflexivity|].
  rewrite string_app_cons. cbn [String.length]. now rewrite IH.
Qed.

Lemma string_app_inv_head (s t1 t2 : string) : s +:+ t1 = s +:+ t2 -> t1 = t2.
Proof.
  induction s as [|c s IH]; intros H; [exact H|].
  rewrite !string_app_cons in H. inversion H. now apply IH.
Qed.

Lemma string_app_inv_tail (s1 s2 t : string) : s1 +:+ t = s2 +:+ t -> s1 = s2.
Proof.
  revert s2. induction s1 as [|c s1 IH]; intros [|c' s2] H.
  - reflexivity.
  - apply (f_equal String.length) in H. change (EmptyString +:+ t) with t in H.
    rewrite string_app_cons in H. cbn [String.length] in H.
    rewrite string_app_length in H. lia.
  - apply (f_equal String.length) in H. change (EmptyString +:+ t) with t in H.
    rewrite string_app_cons in H. cbn [String.length] in H.
    rewrite string_app_length in H. lia.
  - rewrite !string_app_cons in H. inversion H. f_equal. now apply IH.
Qed.

(** Strings without a slash. *)
Lemma slash_free_app (s t : string) :
  slash_free (s +:+ t) = slash_free s && slash_free t.
Proof.
  induction s as [|c s IH]; [reflexivity|].
  rewrite string_app_cons. cbn [slash_free]. rewrite IH. now rewrite andb_assoc.
Qed.

Lemma slash_free_substring (s : string) :
  slash_free s = true -> forall n m, slash_free (String.substring n m s) = true.
Proof.
  induction s as [|c s IH]; intros H n m.
  - destruct n, m; reflexivity.
  - cbn [slash_free] in H. apply andb_true_iff in H as [Hc Hs].
    destruct n as [|n]; cbn [String.substring].
    + destruct m as [|m]; [reflexivity|]. cbn [slash_free]. rewrite Hc. now apply IH.
    + now apply IH.
Qed.

Lemma slash_free_stem (p : Path) :
  slash_free (path_name p) = true -> slash_free (path_stem p) = true.
Proof.
  intros H. unfold path_stem. destruct (suffix_index (path_name p)); [|exact H].
  now apply slash_free_substring.
Qed.

Lemma slash_free_suffix (p : Path) :
  slash_free (path_name p) = true -> slash_free (path_suffix p) = true.
Proof.
  intros H. unfold path_suffix. destruct (suffix_index (path_name p)); [|reflexivity].
  now apply slash_free_substring.
Qed.

Lemma split_slash_free (s : string) : slash_free s = true -> split_slash s = [s].
Proof.
  induction s as [|c s IH]; intros H; [reflexivity|].
  cbn [slash_free] in H. apply andb_true_iff in H as [Hc Hs].
  cbn [split_slash]. apply negb_true_iff in Hc. rewrite Hc, (IH Hs). reflexivity.
Qed.

(** Joining a name without a slash (and with a first character that is
    neither a slash nor a dot) adds one component. *)
Lemma path_join_component (d : Path) c (s : string) :
  c <> "/"%char -> c <> "."%char -> slash_free s = true ->
  path_join d (String c s) = mkPath (path_parts d) (String c s).
Proof.
  intros Hslash Hdot Hs.
  assert (Hc : Ascii.eqb c "/" = false) by now apply Ascii.eqb_neq.
  assert (Hd : Ascii.eqb c "." = false) by now apply Ascii.eqb_neq.
  unfold path_join.
  assert (Hroot : name_root (String c s) = None).
  { unfold name_root. destruct c as [[] [] [] [] [] [] [] []]; try reflexivity.
    contradiction. }
  assert (Hparts : name_parts (String c s) = [String c s]).
  { unfold name_parts. rewrite split_slash_free by (cbn [slash_free]; now rewrite Hc).
    cbn [List.filter String.eqb]. rewrite Hd. reflexivity. }
  rewrite Hroot, Hparts. cbn [List.removelast List.last]. now rewrite app_nil_r.
Qed.

(** The output of line 65 for a language code without a slash: the
    file of that name in the output directory. *)
Lemma output_pdf_path_component output_dir_base input_pdf lang_code :
  slash_free (path_name input_pdf) = true ->
  slash_free lang_code = true ->
  output_pdf_path output_dir_base input_pdf lang_code
  = mkPath (path_parts output_dir_base) (output_name input_pdf lang_code).
Proof.
  intros Hpdf Hlang. unfold output_pdf_path, output_name.
  change ("translated_" +:+ ?x) with (String "t" ("ranslated_" +:+ x)).
  apply path_join_component; [discriminate | discriminate |].
  rewrite !slash_free_app, Hlang, slash_free_stem, slash_free_suffix by exact Hpdf.
  reflexivity.
Qed.

(** Why the slash matters: pathlib splits the names at slashes, so that
    two codes can name one file. *)
Lemma output_pdf_path_slashes :
  output_pdf_path Samples.output_dir Samples.pdf "a/b"
  = output_pdf_path Samples.output_dir Samples.pdf "a//b"
  /\ output_pdf_path Samples.output_dir Samples.pdf "a/b"
     = mkPath ["repo"; "language_test_outputs"; "translated_example_a"] "b.pdf".
Proof. split; vm_compute; reflexivity. Qed.

(** X26. For language codes without a slash (each output path is then
    the output directory and one more component, so that different
    paths are different files of that directory), the loop over the
    languages makes at most 184 exchanges for each language, and leaves
    every file alone that is not
    [translated_<stem>_<lang><suffix>] in the output directory for one
    of the languages. *)
Theorem language_loop_frame supported api_key input_pdf tier output_dir_base
    languages_to_test w :
  slash_free (path_name input_pdf) = true ->
  forallb slash_free languages_to_test = true ->
  let run := language_loop (ObjStrList supported) api_key input_pdf tier output_dir_base
                           languages_to_test w in
  (calls (snd run) <= 184 * length languages_to_test + calls w)%nat
  /\ (forall p,
         (forall lang_code, In lang_code languages_to_test ->
                            p <> mkPath (path_parts output_dir_base)
                                        (output_name input_pdf lang_code)) ->
         fs (snd run) !! p = fs w !! p).
Proof.
  intros Hpdf Hlangs run. subst run. rewrite language_loop_sweeps. cbn [snd].
  destruct (sweep_frame supported api_key input_pdf tier output_dir_base
              languages_to_test w) as [Hc Hf].
  split; [exact Hc|].
  intros p Hp. apply Hf. intros l Hl.
  rewrite output_pdf_path_component; [now apply Hp | exact Hpdf |].
  rewrite forallb_forall in Hlangs. now apply Hlangs.
Qed.

(** X27. For language codes without a slash, line 65 gives different
    languages different paths: different names in the one output
    directory.  (With slashes it need not: pathlib takes ["a/b"] and
    ["a//b"] to the same path.) *)
Theorem output_pdf_path_injective output_dir_base input_pdf lang_code lang_code' :
  slash_free (path_name input_pdf) = true ->
  slash_free lang_code = true ->
  slash_free lang_code' = true ->
  lang_code <> lang_code' ->
  output_pdf_path output_dir_base input_pdf lang_code
  <> output_pdf_path output_dir_base input_pdf lang_code'.
Proof.
  intros Hpdf Hl Hl' Hne H.
  rewrite !output_pdf_path_component in H by assumption.
  unfold output_name in H. inversion H as [Hname].
  apply string_app_inv_head in Hname. apply string_app_inv_head in Hname.
  apply string_app_inv_head in Hname.
  now apply string_app_inv_tail in Hname.
Qed.

Lemma output_pdf_path_injective_witness :
  output_pdf_path Samples.output_dir Samples.pdf "es"
  = mkPath ["repo"; "language_test_outputs"] "translated_example_es.pdf"
  /\ output_pdf_path Samples.output_dir Samples.pdf "es"
     <> output_pdf_path Samples.output_dir Samples.pdf "fr".
Proof.
  split; [vm_compute; reflexivity|].
  apply (output_pdf_path_injective Samples.output_dir Samples.pdf "es" "fr").
  - reflexivity.
  - reflexivity.
  - reflexivity.
  - discriminate.
Defined.

(** ** Instances *)

Lemma translate_pdf_files_witness :
  let w := Samples.world [NetResponse Samples.queued; NetResponse Samples.completed;
                          NetResponse (Samples.file_response 200 Samples.translated)] in
  let run := translate_pdf "key" Samples.pdf "es" "small" Samples.out w in
  fst run = Returned true
  /\ (exists content, fs (snd run) = <[Samples.out := content]> (fs w))
  /\ fs (snd run) !! Samples.pdf = fs w !! Samples.pdf.
Proof.
  intros w run.
  assert (Hrun : fst run = Returned true) by (vm_compute; reflexivity).
  split; [exact Hrun|]. split.
  - apply (proj1 (proj2 (translate_pdf_files "key" Samples.pdf "es" "small"
                           Samples.out w))).
    exact Hrun.
  - apply (proj2 (proj2 (translate_pdf_files "key" Samples.pdf "es" "small"
                           Samples.out w))).
    discriminate.
Defined.

Lemma translate_pdf_raises_only_attribute_error_witness :
  let w := Samples.world [NetResponse (Samples.answers 200 (JArr [JStr "queued"]))] in
  fst (translate_pdf "key" Samples.pdf "es" "small" Samples.out w) = Raised ExAttributeError
  /\ ExAttributeError = ExAttributeError.
Proof.
  intros w.
  assert (Hrun : fst (translate_pdf "key" Samples.pdf "es" "small" Samples.out w)
                 = Raised ExAttributeError) by (vm_compute; reflexivity).
  split; [exact Hrun|].
  apply (translate_pdf_raises_only_attribute_error "key" Samples.pdf "es" "small"
           Samples.out w ExAttributeError).
  exact Hrun.
Defined.

Lemma analyze_pdf_main_frame_witness :
  let w := Samples.world [NetResponse (Samples.answers 200 (JArr [JStr "pages"]))] in
  fst (analyze_pdf_main "key" Samples.pdf w) = Raised ExAttributeError
  /\ ExAttributeError = ExAttributeError.
Proof.
  intros w.
  assert (Hrun : fst (analyze_pdf_main "key" Samples.pdf w) = Raised ExAttributeError)
    by (vm_compute; reflexivity).
  split; [exact Hrun|].
  apply (proj2 (proj2 (proj2 (analyze_pdf_main_frame "key" Samples.pdf w)))
           ExAttributeError).
  exact Hrun.
Defined.

Lemma main_cli_frame_witness :
  let w := Samples.world [NetResponse Samples.queued; NetResponse Samples.completed;
                          NetResponse (Samples.file_response 200 Samples.translated)] in
  let args := Cli.mkArgs (Some "key")
                (Translate Samples.pdf "es" "small" (Some Samples.out)) in
  let run := main_cli (mkPath [] "home") (fun p => p) args w in
  fs (snd run) !! Samples.out = Some Samples.translated
  /\ fs (snd run) !! Samples.pdf = fs w !! Samples.pdf.
Proof.
  intros w args run. split; [vm_compute; reflexivity|].
  apply (proj2 (main_cli_frame (mkPath [] "home") (fun p => p) args w)).
  simpl. discriminate.
Defined.

Lemma language_loop_frame_witness :
  let run := language_loop (ObjStrList ["es"; "fr"]) "key" Samples.pdf "small"
               Samples.output_dir ["es"; "fr"] Samples.batch_world in
  fs (snd run) !! mkPath ["repo"; "language_test_outputs"] "translated_example_es.pdf"
  = Some Samples.translated
  /\ fs (snd run) !! Samples.csv = fs Samples.batch_world !! Samples.csv.
Proof.
  intros run. split; [vm_compute; reflexivity|].
  apply (proj2 (language_loop_frame ["es"; "fr"] "key" Samples.pdf "small"
                  Samples.output_dir ["es"; "fr"] Samples.batch_world
                  eq_refl eq_refl)).
  intros lang_code [<- | [<- | []]]; vm_compute; discriminate.
Defined.
